(** * MarkdownNotebook: the note store and the search index

  A shallow embedding of [MarkdownNotebook/utils.py],
  [MarkdownNotebook/file_manager.py] and [MarkdownNotebook/search.py],
  and the properties of the note persistence layer and of the in-memory
  search index; with them the lookup of a note by its path in
  [MarkdownNotebook/gui_main.py] and the [get] and [set] of
  [MarkdownNotebook/settings.py].

  Conventions of the embedding.
  - A Python [str] is a [string]; a character is a code point below 256
    (the Latin-1 range), so [isspace], [lower] and the regular
    expression class [\s] are the Unicode ones restricted to that range.
  - Python values whose type is decided at run time (what [yaml.safe_load]
    returns, the attributes of a [Note]) are terms of [value].
  - A call that can raise returns a [result]; code that touches the file
    system, the clock or the standard output is a function of the
    [World] and returns the next one.
  - PyYAML is not part of the repository: [yaml.safe_load] and
    [yaml.dump] are the two fields of an interface, [PyYAML], that
    every function of the codec takes as a parameter; the calls of
    [datetime] are the fields of [Datetime] in the same way.
  - Where a property is about the identity of an object (the [Note]
    that [save_note] is given, the [dict] it makes), the objects live
    in a store, [Objects.heap], and an assignment is a write at an
    address. *)

From Stdlib Require Import Ascii String List Bool Arith ZArith Lia DecimalString.
From stdpp Require Import base option list strings gmap sorting.

Local Open Scope string_scope.
Local Open Scope list_scope.

(** ** Python strings *)

Module PyStr.

Definition LF : ascii := ascii_of_nat 10.
Definition CR : ascii := ascii_of_nat 13.

(** [str.isspace] of one character, also the class [\s] of [re] on
    [str] patterns: U+0009..U+000D, U+001C..U+0020, U+0085, U+00A0. *)
Definition isspace (c : ascii) : bool :=
  let n := nat_of_ascii c in
  (((9 <=? n) && (n <=? 13)) || ((28 <=? n) && (n <=? 32))
   || (n =? 133) || (n =? 160))%nat.

(** [str.lower] of one character: A..Z, and U+00C0..U+00DE but for the
    multiplication sign U+00D7. *)
Definition lower_char (c : ascii) : ascii :=
  let n := nat_of_ascii c in
  if (((65 <=? n) && (n <=? 90))
      || ((192 <=? n) && (n <=? 222) && negb (n =? 215)))%nat
  then ascii_of_nat (n + 32) else c.

Fixpoint lower (s : string) : string :=
  match s with
  | "" => ""
  | String c s' => String (lower_char c) (lower s')
  end.

Definition is_empty (s : string) : bool :=
  match s with "" => true | _ => false end.

Fixpoint lstrip (s : string) : string :=
  match s with
  | "" => ""
  | String c s' => if isspace c then lstrip s' else s
  end.

Fixpoint rstrip (s : string) : string :=
  match s with
  | "" => ""
  | String c s' =>
      match rstrip s' with
      | "" => if isspace c then "" else String c ""
      | r => String c r
      end
  end.

(** [s.strip()] *)
Definition strip (s : string) : string := rstrip (lstrip s).

(** [s.split()]: the maximal runs of characters that are not white
    space; [w] is the run being read. *)
Fixpoint split_go (w s : string) : list string :=
  match s with
  | "" => if is_empty w then [] else [w]
  | String c s' =>
      if isspace c
      then (if is_empty w then split_go "" s' else w :: split_go "" s')
      else split_go (w +:+ String c "") s'
  end.

Definition split (s : string) : list string := split_go "" s.

(** [sep.join(l)] *)
Fixpoint join (sep : string) (l : list string) : string :=
  match l with
  | [] => ""
  | x :: l' =>
      match l' with
      | [] => x
      | _ => x +:+ sep +:+ join sep l'
      end
  end.

(** [sub in s] *)
Fixpoint contains (sub s : string) : bool :=
  String.prefix sub s
  || match s with
     | "" => false
     | String _ s' => contains sub s'
     end.

Fixpoint all_chars (p : ascii -> bool) (s : string) : bool :=
  match s with
  | "" => true
  | String c s' => p c && all_chars p s'
  end.

Fixpoint interleave (new s : string) : string :=
  match s with
  | "" => new
  | String c s' => new +:+ String c (interleave new s')
  end.

(** [s.replace(old, new)]; [skip] counts the characters of the
    occurrence of [old] that are still to be dropped. *)
Fixpoint replace_go (old new : string) (skip : nat) (s : string) : string :=
  match s with
  | "" => ""
  | String c s' =>
      match skip with
      | S k => replace_go old new k s'
      | O =>
          if String.prefix old s
          then new +:+ replace_go old new (String.length old - 1) s'
          else String c (replace_go old new 0 s')
      end
  end.

Definition replace (s old new : string) : string :=
  if is_empty old then interleave new s else replace_go old new 0 s.

(** What a text-mode [read()] returns for the decoded text [s]
    ([newline=None], universal newlines): CR LF and a lone CR become
    LF. *)
Fixpoint universal_newlines (s : string) : string :=
  match s with
  | "" => ""
  | String c s' =>
      if Ascii.eqb c CR
      then match s' with
           | String c' s'' =>
               if Ascii.eqb c' LF then String LF (universal_newlines s'')
               else String LF (universal_newlines s')
           | "" => String LF ""
           end
      else String c (universal_newlines s')
  end.

End PyStr.

(** ** Python values, exceptions and results *)

Module Py.
Import PyStr.

(** The values the model covers: [None], [bool], [int], [str], [list],
    [dict] and [datetime]; a [datetime] is identified with the text its
    [isoformat()] returns. *)
#[warnings="-register-all"] Inductive value : Type :=
| VNone
| VBool (b : bool)
| VInt (z : Z)
| VStr (s : string)
| VList (l : list value)
| VDict (kv : list (value * value))
| VDatetime (iso : string).

(** A [dict] in insertion order, its keys pairwise different. *)
Definition dict : Type := list (value * value).

Definition is_key (k : string) (v : value) : bool :=
  match v with
  | VStr s => String.eqb s k
  | _ => false
  end.

(** [d.get(k)] for a [str] key [k] *)
Fixpoint dict_lookup (d : dict) (k : string) : option value :=
  match d with
  | [] => None
  | (k', v) :: d' => if is_key k k' then Some v else dict_lookup d' k
  end.

(** [d.get(k, default)] *)
Definition dict_get (d : dict) (k : string) (default : value) : value :=
  match dict_lookup d k with
  | Some v => v
  | None => default
  end.

(** [d[k] = v] *)
Fixpoint dict_set (d : dict) (k : string) (v : value) : dict :=
  match d with
  | [] => [(VStr k, v)]
  | (k', v') :: d' =>
      if is_key k k' then (k', v) :: d' else (k', v') :: dict_set d' k v
  end.

Inductive os_error : Type :=
| FileNotFoundError
| FileExistsError
| IsADirectoryError
| NotADirectoryError
| PermissionError
| IOFailure.

(** The exceptions of the model, all subclasses of [Exception]. *)
Inductive exn : Type :=
| AttributeError (type_name attr : string)
| TypeError (what : string)
| ValueError
| OSError (e : os_error)
| UnicodeDecodeError
| YAMLError.

(** What a call of a library does: it returns or it raises. *)
Inductive outcome (A : Type) : Type :=
| Returns (a : A)
| Raises (e : exn).
Arguments Returns {A} a.
Arguments Raises {A} e.

(** What a run of the modelled code does: it returns, it raises, or it
    leaves the part of Python that the model covers ([Outside]), and
    then nothing is known of it: no handler applies. *)
Inductive result (A : Type) : Type :=
| Ok (a : A)
| Raise (e : exn)
| Outside (what : string).
Arguments Ok {A} a.
Arguments Raise {A} e.
Arguments Outside {A} what.

(** [except yaml.YAMLError] *)
Definition is_YAMLError (e : exn) : bool :=
  match e with
  | YAMLError => true
  | _ => false
  end.

(** The names of the public methods of [str]. *)
Definition str_methods : list string :=
  [ "capitalize"; "casefold"; "center"; "count"; "encode"; "endswith";
    "expandtabs"; "find"; "format"; "format_map"; "index"; "isalnum";
    "isalpha"; "isascii"; "isdecimal"; "isdigit"; "isidentifier";
    "islower"; "isnumeric"; "isprintable"; "isspace"; "istitle";
    "isupper"; "join"; "ljust"; "lower"; "lstrip"; "maketrans";
    "partition"; "removeprefix"; "removesuffix"; "replace"; "rfind";
    "rindex"; "rjust"; "rpartition"; "rsplit"; "rstrip"; "split";
    "splitlines"; "startswith"; "strip"; "swapcase"; "title";
    "translate"; "upper"; "zfill" ].

(** A call [self.name(args)] on a [str]: the attribute is looked up first, and
    a name that [str] does not have raises [AttributeError] before any
    argument is used. Of the methods that exist, the ones the repository
    calls are modelled. *)
Definition str_call (self name : string) (args : list value) : result value :=
  if existsb (String.eqb name) str_methods then
    if String.eqb name "lower" then
      match args with
      | [] => Ok (VStr (lower self))
      | _ => Raise (TypeError "lower")
      end
    else if String.eqb name "strip" then
      match args with
      | [] => Ok (VStr (strip self))
      | _ => Outside "str.strip(chars)"
      end
    else if String.eqb name "replace" then
      match args with
      | [VStr old; VStr new] => Ok (VStr (replace self old new))
      | _ => Outside "str.replace"
      end
    else Outside name
  else if String.prefix "__" name then Outside name
  else Raise (AttributeError "str" name).

End Py.

(** ** [os.path] on POSIX *)

Module OsPath.
Import PyStr.

Definition is_slash (c : ascii) : bool := Ascii.eqb c "/".
Definition is_dot (c : ascii) : bool := Ascii.eqb c ".".

(** [(p[:i], p[i:])] for [i = p.rfind('/') + 1] *)
Fixpoint rsplit_slash (p : string) : string * string :=
  match p with
  | "" => ("", "")
  | String c p' =>
      let '(h, t) := rsplit_slash p' in
      if is_empty h
      then (if is_slash c then (String c "", t) else ("", String c t))
      else (String c h, t)
  end.

(** [s.rstrip('/')] *)
Fixpoint rstrip_slash (s : string) : string :=
  match s with
  | "" => ""
  | String c s' =>
      match rstrip_slash s' with
      | "" => if is_slash c then "" else String c ""
      | r => String c r
      end
  end.

(** [os.path.split] *)
Definition split (p : string) : string * string :=
  let '(head, tail) := rsplit_slash p in
  let head :=
    if negb (is_empty head) && negb (all_chars is_slash head)
    then rstrip_slash head else head in
  (head, tail).

Definition basename (p : string) : string := snd (rsplit_slash p).
Definition dirname (p : string) : string := fst (split p).

Fixpoint ends_with_slash (s : string) : bool :=
  match s with
  | "" => false
  | String c "" => is_slash c
  | String _ s' => ends_with_slash s'
  end.

(** [os.path.join(a, b)] *)
Definition join (a b : string) : string :=
  if String.prefix "/" b then b
  else if is_empty a || ends_with_slash a then a +:+ b
  else a +:+ "/" +:+ b.

Fixpoint rfind_go (c : ascii) (s : string) (i last : Z) : Z :=
  match s with
  | "" => last
  | String d s' =>
      rfind_go c s' (i + 1)%Z (if Ascii.eqb d c then i else last)
  end.

(** [s.rfind(c)], [-1] when [c] does not occur *)
Definition rfind (c : ascii) (s : string) : Z := rfind_go c s 0%Z (-1)%Z.

(** [s[i:j]] for [0 <= i <= j] *)
Definition slice (s : string) (i j : Z) : string :=
  String.substring (Z.to_nat i) (Z.to_nat (j - i)) s.

(** [os.path.splitext]: the extension starts at the last dot of the last
    component, unless only dots come before it in that component. *)
Definition splitext (p : string) : string * string :=
  let sepIndex := rfind "/" p in
  let dotIndex := rfind "." p in
  let len := Z.of_nat (String.length p) in
  if (sepIndex <? dotIndex)%Z then
    if all_chars is_dot (slice p (sepIndex + 1) dotIndex)
    then (p, "")
    else (slice p 0 dotIndex, slice p dotIndex len)
  else (p, "").

End OsPath.

(** ** The world: file system, clock, standard output *)

Module Os.
Import PyStr Py.

(** A directory, or a regular file: [File (Some t)] holds the UTF-8
    encoding of the text [t], [File None] bytes that are not valid
    UTF-8. *)
Inductive node : Type :=
| Dir
| File (data : option string).

Inductive io_op : Type := OpRead | OpWrite | OpMkdir | OpRemove.

(** What the repository prints. *)
Inductive line : Type :=
| NotesDirNotFound (notes_dir : string)
| ErrorLoadingNote (filepath : string) (e : exn)
| ErrorSavingNote (filepath : string) (e : exn)
| ErrorDeletingNote (filepath : string) (e : exn)
| SearchIndexBuilt (n : nat).

(** Paths are compared as texts once their trailing slashes are dropped;
    [fs] lists the entries in the order the system enumerates them. The
    file system is a case-sensitive one without links, and an entry is
    held under its path written in the canonical way (absolute, every
    component a name): on such paths a lookup by text is the lookup of
    the system, and two of them name one entry only when they are the
    same text.
    [io_fault] is what makes an operation on a path fail for a reason
    outside the model (permissions, the device). [glob_other] answers
    the [glob] patterns the model does not interpret. *)
Record World : Type := mkWorld {
  fs : list (string * node);
  io_fault : io_op -> string -> option os_error;
  utc_now : string;
  local_now : string;
  glob_other : string -> list string;
  stdout : list line
}.

Definition with_fs (w : World) (fs' : list (string * node)) : World :=
  mkWorld fs' (io_fault w) (utc_now w) (local_now w) (glob_other w) (stdout w).

Definition with_stdout (w : World) (out : list line) : World :=
  mkWorld (fs w) (io_fault w) (utc_now w) (local_now w) (glob_other w) out.

(** Computations: a result and the next world. *)
Definition M (A : Type) : Type := World -> result A * World.

Definition ret {A} (a : A) : M A := fun w => (Ok a, w).
Definition raise {A} (e : exn) : M A := fun w => (Raise e, w).
Definition bind {A B} (m : M A) (k : A -> M B) : M B :=
  fun w =>
    match m w with
    | (Ok a, w') => k a w'
    | (Raise e, w') => (Raise e, w')
    | (Outside what, w') => (Outside what, w')
    end.
Definition lift {A} (r : result A) : M A := fun w => (r, w).

(** [try: body / except Exception as e: handler] *)
Definition try_except {A} (body : M A) (handler : exn -> M A) : M A :=
  fun w =>
    match body w with
    | (Raise e, w') => handler e w'
    | r => r
    end.

Definition print (l : line) : M unit :=
  fun w => (Ok tt, with_stdout w (stdout w ++ [l])).

Declare Scope py_scope.
Delimit Scope py_scope with py.
Notation "'let*' x ':=' m 'in' k" := (bind m (fun x => k))
  (at level 10, x name, m at level 100, k at level 200) : py_scope.
Notation "m1 ';;;' m2" := (bind m1 (fun _ => m2))
  (at level 100, m2 at level 200, right associativity) : py_scope.

Definition norm (p : string) : string :=
  match OsPath.rstrip_slash p with
  | "" => if is_empty p then "" else "/"
  | r => r
  end.

Fixpoint lookup_fs (l : list (string * node)) (p : string) : option node :=
  match l with
  | [] => None
  | (q, n) :: l' => if String.eqb q p then Some n else lookup_fs l' p
  end.

Fixpoint set_fs (l : list (string * node)) (p : string) (n : node)
  : list (string * node) :=
  match l with
  | [] => [(p, n)]
  | (q, m) :: l' =>
      if String.eqb q p then (q, n) :: l' else (q, m) :: set_fs l' p n
  end.

Fixpoint remove_fs (l : list (string * node)) (p : string)
  : list (string * node) :=
  match l with
  | [] => []
  | (q, m) :: l' =>
      if String.eqb q p then remove_fs l' p else (q, m) :: remove_fs l' p
  end.

Definition stat (w : World) (p : string) : option node :=
  if is_empty p then None
  else if String.eqb (norm p) "/" then Some Dir
  else lookup_fs (fs w) (norm p).

(** [os.path.exists], [os.path.isdir] *)
Definition exists_ (w : World) (p : string) : bool :=
  match stat w p with Some _ => true | None => false end.
Definition isdir (w : World) (p : string) : bool :=
  match stat w p with Some Dir => true | _ => false end.

(** The directory an entry is made in: the current one when the path has
    no directory part. *)
Definition parent_check (w : World) (p : string) : option os_error :=
  let d := OsPath.dirname (norm p) in
  if is_empty d then None
  else match stat w d with
       | Some Dir => None
       | Some (File _) => Some NotADirectoryError
       | None => Some FileNotFoundError
       end.

(** [os.mkdir] *)
Definition mkdir (p : string) : M unit :=
  fun w =>
    match io_fault w OpMkdir p with
    | Some e => (Raise (OSError e), w)
    | None =>
        if is_empty p then (Raise (OSError FileNotFoundError), w)
        else if exists_ w p then (Raise (OSError FileExistsError), w)
        else match parent_check w p with
             | Some e => (Raise (OSError e), w)
             | None => (Ok tt, with_fs w (fs w ++ [(norm p, Dir)]))
             end
    end.

(** [os.makedirs(name, exist_ok=True)] as CPython writes it; the
    recursion is on the head of the path, which is shorter. *)
Fixpoint makedirs_go (fuel : nat) (name : string) : M unit :=
  match fuel with
  | O => fun w => (Outside "os.makedirs", w)
  | S fuel' =>
      fun w =>
        let '(head, tail) := OsPath.split name in
        let '(head, tail) :=
          if is_empty tail then OsPath.split head else (head, tail) in
        let make (w : World) : result unit * World :=
          match mkdir name w with
          | (Raise (OSError e), w') =>
              if isdir w' name then (Ok tt, w') else (Raise (OSError e), w')
          | r => r
          end in
        if negb (is_empty head) && negb (is_empty tail) && negb (exists_ w head)
        then
          match makedirs_go fuel' head w with
          | (Ok _, w') | (Raise (OSError FileExistsError), w') =>
              if String.eqb tail "." then (Ok tt, w') else make w'
          | r => r
          end
        else make w
  end.

Definition makedirs (name : string) : M unit :=
  makedirs_go (S (String.length name)) name.

(** [with open(p, 'r', encoding='utf-8') as f: f.read()] *)
Definition read_text (p : string) : M string :=
  fun w =>
    match io_fault w OpRead p with
    | Some e => (Raise (OSError e), w)
    | None =>
        match stat w p with
        | None => (Raise (OSError FileNotFoundError), w)
        | Some Dir => (Raise (OSError IsADirectoryError), w)
        | Some (File None) => (Raise UnicodeDecodeError, w)
        | Some (File (Some t)) => (Ok (universal_newlines t), w)
        end
    end.

(** [with open(p, 'w', encoding='utf-8') as f: f.write(text)]; the line
    separator of the system is LF, so the text is written as it is. *)
Definition write_text (p text : string) : M unit :=
  fun w =>
    match io_fault w OpWrite p with
    | Some e => (Raise (OSError e), w)
    | None =>
        match stat w p with
        | Some Dir => (Raise (OSError IsADirectoryError), w)
        | _ =>
            if is_empty p then (Raise (OSError FileNotFoundError), w)
            else match parent_check w p with
                 | Some e => (Raise (OSError e), w)
                 | None =>
                     (Ok tt, with_fs w (set_fs (fs w) (norm p) (File (Some text))))
                 end
        end
    end.

(** [os.remove] *)
Definition remove (p : string) : M unit :=
  fun w =>
    match io_fault w OpRemove p with
    | Some e => (Raise (OSError e), w)
    | None =>
        match stat w p with
        | None => (Raise (OSError FileNotFoundError), w)
        | Some Dir => (Raise (OSError IsADirectoryError), w)
        | Some (File _) => (Ok tt, with_fs w (remove_fs (fs w) (norm p)))
        end
    end.

(** The characters that make a [glob] pattern of a text. *)
Definition has_magic (s : string) : bool :=
  negb (all_chars (fun c => negb (Ascii.eqb c "*" || Ascii.eqb c "?" || Ascii.eqb c "[")) s).

Fixpoint ends_with (suffix s : string) : bool :=
  String.eqb suffix s
  || match s with
     | "" => false
     | String _ s' => ends_with suffix s'
     end.

(** The names of the entries of directory [d], in the order of [fs]. *)
Definition listdir (w : World) (d : string) : list string :=
  if is_empty d || isdir w d then
    omap (fun '(q, _) =>
            let '(h, t) := OsPath.split q in
            if String.eqb h (norm d) && negb (is_empty t) then Some t else None)
         (fs w)
  else [].

(** [glob.glob(pattern)] for a pattern [<dir>/*.md] whose directory part
    is a plain path: the entries of the directory whose name ends in
    [.md] and does not start with a dot. Any other pattern is answered
    by the world. *)
Definition glob (w : World) (pattern : string) : list string :=
  let '(dirname, basename) := OsPath.split pattern in
  if has_magic dirname || negb (String.eqb basename "*.md")
  then glob_other w pattern
  else map (OsPath.join dirname)
           (filter (fun n => ends_with ".md" n && negb (String.prefix "." n))
                   (listdir w dirname)).

End Os.

(** ** The fragment of [re] that the front-matter pattern uses *)

Module Re.
Import PyStr.

Inductive atom : Type :=
| Chr (c : ascii)     (* a literal character *)
| Space               (* \s *)
| AnyChar.            (* . under DOTALL *)

Inductive re_node : Type :=
| One (a : atom)
| Star (a : atom)       (* a*, greedy *)
| LazyStar (a : atom)   (* a*?, lazy *)
| Bol                   (* ^ under MULTILINE *)
| GroupOpen             (* the parentheses of group 1 *)
| GroupClose.

Definition atom_ok (a : atom) (c : ascii) : bool :=
  match a with
  | Chr d => Ascii.eqb c d
  | Space => isspace c
  | AnyChar => true
  end.

(** A match: the text of group 1, and the text after the end of the
    match. *)
Definition found : Type := option string * string.

(** What is left of the pattern, run from a position: the character
    before the position, and the text from it on. *)
Definition cont : Type := option ascii -> string -> option found.

(** The longest run first, then shorter ones. *)
Fixpoint greedy (a : atom) (k : cont) (prev : option ascii) (s : string)
  : option found :=
  match s with
  | String c s' =>
      if atom_ok a c then
        match greedy a k (Some c) s' with
        | Some m => Some m
        | None => k prev s
        end
      else k prev s
  | "" => k prev s
  end.

(** The shortest run first, then longer ones. *)
Fixpoint lazy (a : atom) (k : cont) (prev : option ascii) (s : string)
  : option found :=
  match k prev s with
  | Some m => Some m
  | None =>
      match s with
      | String c s' => if atom_ok a c then lazy a k (Some c) s' else None
      | "" => None
      end
  end.

Definition at_bol (prev : option ascii) : bool :=
  match prev with
  | None => true
  | Some c => Ascii.eqb c LF
  end.

(** The part of [gopen] that precedes its suffix [s]. *)
Definition consumed (gopen s : string) : string :=
  String.substring 0 (String.length gopen - String.length s) gopen.

(** The backtracking matcher; [gopen] is the text from where group 1
    opened. *)
Fixpoint run (r : list re_node) (gopen : string) (gtext : option string)
  (prev : option ascii) (s : string) : option found :=
  match r with
  | [] => Some (gtext, s)
  | One a :: r' =>
      match s with
      | String c s' =>
          if atom_ok a c then run r' gopen gtext (Some c) s' else None
      | "" => None
      end
  | Star a :: r' => greedy a (run r' gopen gtext) prev s
  | LazyStar a :: r' => lazy a (run r' gopen gtext) prev s
  | Bol :: r' => if at_bol prev then run r' gopen gtext prev s else None
  | GroupOpen :: r' => run r' s gtext prev s
  | GroupClose :: r' => run r' gopen (Some (consumed gopen s)) prev s
  end.

(** [pattern.match(s)]: the match that starts at the first character. *)
Definition re_match (r : list re_node) (s : string) : option found :=
  run r "" None None s.

End Re.

(** ** [MarkdownNotebook/utils.py] *)

Module Utils.
Import PyStr Py Os Re.

Definition nl : string := String LF "".

(** The two calls of PyYAML that the repository makes:
    [yaml.safe_load(text)] and
    [yaml.dump(metadata, sort_keys=False, allow_unicode=True,
    default_flow_style=False)]. *)
Record PyYAML : Type := mkPyYAML {
  safe_load : string -> outcome value;
  dump : dict -> outcome string
}.

Definition dashes : list re_node := [One (Chr "-"); One (Chr "-"); One (Chr "-")].

(** [re.compile(r'^---\s*\n(.*?\n)^---\s*\n', re.DOTALL | re.MULTILINE)] *)
Definition YAML_FRONT_MATTER_REGEX : list re_node :=
  [Bol] ++ dashes ++ [Star Space; One (Chr LF)]
  ++ [GroupOpen; LazyStar AnyChar; One (Chr LF); GroupClose]
  ++ [Bol] ++ dashes ++ [Star Space; One (Chr LF)].

Definition group1 (m : found) : string :=
  match fst m with
  | Some g => g
  | None => ""
  end.

Definition parse_yaml_front_matter (Y : PyYAML) (file_content : string)
  : result (dict * string) :=
  match re_match YAML_FRONT_MATTER_REGEX file_content with
  | Some m =>
      let metadata_str := group1 m in
      match safe_load Y metadata_str with
      | Returns metadata =>
          let metadata := match metadata with VDict d => d | _ => [] end in
          let content_after_front_matter := snd m in
          Ok (metadata, content_after_front_matter)
      | Raises e =>
          if is_YAMLError e then Ok ([], file_content) else Raise e
      end
  | None => Ok ([], file_content)
  end.

(** The loop over ['created'] and ['updated']: a [datetime] in the slot
    is replaced by its ISO text. *)
Definition isoformat_slot (metadata : dict) (key : string) : dict :=
  match dict_lookup metadata key with
  | Some (VDatetime iso) => dict_set metadata key (VStr iso)
  | _ => metadata
  end.

(** The function assigns to the slots of the [dict] it is given: the
    result is that [dict] after the call, and the text returned. *)
Definition generate_yaml_front_matter (Y : PyYAML) (metadata : dict)
  : dict * result string :=
  let metadata := fold_left isoformat_slot ["created"; "updated"] metadata in
  match metadata with
  | [] => (metadata, Ok "")
  | _ =>
      match dump Y metadata with
      | Returns yaml_str => (metadata, Ok ("---" +:+ nl +:+ yaml_str +:+ "---" +:+ nl))
      | Raises e =>
          if is_YAMLError e
          then (metadata, Ok ("---" +:+ nl +:+ "# Error generating YAML" +:+ nl +:+ "---" +:+ nl))
          else (metadata, Raise e)
      end
  end.

(** [datetime.now(timezone.utc).isoformat(timespec='seconds')] *)
Definition get_current_timestamp : M string :=
  fun w => (Ok (utc_now w), w).

End Utils.

(** ** [MarkdownNotebook/file_manager.py] *)

Module FileManager.
Import PyStr Py Os Utils.
Local Open Scope py_scope.

Record Note : Type := mkNote {
  filepath : string;
  title : value;
  tags : value;
  created : value;
  updated : value;
  content : string
}.

(** [Note.__init__] *)
Definition Note_init (filepath : string) (title tags created updated : value)
  (content : string) : Note :=
  mkNote filepath title
         (match tags with VNone => VList [] | _ => tags end)
         created updated content.

Definition load_note (Y : PyYAML) (filepath : string) : M (option Note) :=
  try_except
    (let* full_content := read_text filepath in
     let* parsed := lift (parse_yaml_front_matter Y full_content) in
     let '(metadata, content) := parsed in
     let title :=
       dict_get metadata "title"
                (VStr (fst (OsPath.splitext (OsPath.basename filepath)))) in
     let tags := dict_get metadata "tags" (VList []) in
     let* now := get_current_timestamp in
     let created := dict_get metadata "created" (VStr now) in
     let updated := dict_get metadata "updated" created in
     ret (Some (Note_init filepath title tags created updated content)))
    (fun e => print (ErrorLoadingNote filepath e) ;;; ret None).

Fixpoint scan_loop (Y : PyYAML) (md_files : list string) (notes : list Note)
  : M (list Note) :=
  match md_files with
  | [] => ret notes
  | md_file :: rest =>
      let* note := load_note Y md_file in
      scan_loop Y rest (match note with
                        | Some n => notes ++ [n]
                        | None => notes
                        end)
  end.

Definition scan_notes_directory (Y : PyYAML) (notes_dir : string)
  : M (list Note) :=
  fun w =>
    if negb (isdir w notes_dir)
    then (print (NotesDirNotFound notes_dir) ;;; ret []) w
    else scan_loop Y (glob w (OsPath.join notes_dir "*.md")) [] w.

Definition note_metadata (note : Note) : dict :=
  [ (VStr "title", title note); (VStr "tags", tags note);
    (VStr "created", created note); (VStr "updated", updated note) ].

(** [save_note] receives the [Note] object: the result is what the call
    does, the object after the call, and the next world. No statement of
    the body assigns to an attribute of [note]; the [dict] that
    [generate_yaml_front_matter] assigns to is the local [metadata]. *)
Definition save_note (Y : PyYAML) (note : Note)
  : World -> (result bool * Note) * World :=
  fun w =>
    let '(r, w') :=
      try_except
        (let metadata := note_metadata note in
         let '(metadata, front_matter) := generate_yaml_front_matter Y metadata in
         let* front_matter_str := lift front_matter in
         let full_content := front_matter_str +:+ nl +:+ strip (content note) in
         makedirs (OsPath.dirname (filepath note)) ;;;
         write_text (filepath note) full_content ;;;
         ret true)
        (fun e => print (ErrorSavingNote (filepath note) e) ;;; ret false)
        w in
    ((r, note), w').

(** [str(counter)] *)
Definition str_of_nat (n : nat) : string := NilZero.string_of_uint (Nat.to_uint n).

(** The loop [while os.path.exists(filepath)]; each round tries a path
    that was not tried before, so the entries of the file system bound
    the number of rounds. *)
Fixpoint free_path (fuel : nat) (base_filepath ext : string) (counter : nat)
  (filepath : string) : M string :=
  fun w =>
    if exists_ w filepath then
      match fuel with
      | O => (Outside "while os.path.exists", w)
      | S fuel' =>
          free_path fuel' base_filepath ext (S counter)
                    (base_filepath +:+ "_" +:+ str_of_nat counter +:+ ext) w
      end
    else (Ok filepath, w).

(** [datetime.now().strftime('%Y%m%d%H%M%S')] *)
Definition local_timestamp : M string :=
  fun w => (Ok (local_now w), w).

Definition create_new_note (Y : PyYAML) (notes_dir title : string)
  (tags : value) (content : string) : M (option Note) :=
  let* slug :=
    lift (str_call (replace (lower title) " " "_") "Gsub"
                   [VStr "[^a-z0-9_]"; VStr ""]) in
  let* filename :=
    match slug with
    | VStr s => ret (s +:+ ".md")
    | _ => fun w => (Outside "format", w)
    end in
  let* filename :=
    if is_empty (strip filename) || String.eqb filename ".md"
    then (let* stamp := local_timestamp in
          ret ("untitled_" +:+ stamp +:+ ".md"))
    else ret filename in
  let filepath := OsPath.join notes_dir filename in
  let '(base_filepath, ext) := OsPath.splitext filepath in
  let* filepath :=
    (fun w => free_path (S (length (fs w))) base_filepath ext 1 filepath w) in
  let* now := get_current_timestamp in
  let note :=
    Note_init filepath (VStr title)
              (match tags with VNone => VList [] | _ => tags end)
              (VStr now) (VStr now) content in
  let* saved := (fun w => let '((r, note), w') := save_note Y note w in
                          (match r with
                           | Ok b => Ok (b, note)
                           | Raise e => Raise e
                           | Outside what => Outside what
                           end, w')) in
  if fst saved then ret (Some (snd saved)) else ret None.

Definition delete_note_file (filepath : string) : M bool :=
  try_except
    (fun w =>
       if exists_ w filepath
       then (remove filepath ;;; ret true) w
       else ret false w)
    (fun e => print (ErrorDeletingNote filepath e) ;;; ret false).

End FileManager.

(** ** [MarkdownNotebook/search.py] *)

Module NoteSearch.
Import PyStr Py Os FileManager.

(** An item of [notes_data]. *)
Record item : Type := mkItem {
  id : string;
  item_title : string;
  item_tags : list string;
  item_content : string;
  original_note : Note
}.

Record SearchIndex : Type := mkSearchIndex {
  notes_data : list item;
  index : dict
}.

(** [SearchIndex()] *)
Definition new_index : SearchIndex := mkSearchIndex [] [].

Definition type_name (v : value) : string :=
  match v with
  | VNone => "NoneType"
  | VBool _ => "bool"
  | VInt _ => "int"
  | VStr _ => "str"
  | VList _ => "list"
  | VDict _ => "dict"
  | VDatetime _ => "datetime.datetime"
  end.

(** [v.lower()] *)
Definition call_lower (v : value) : result string :=
  match v with
  | VStr s => Ok (lower s)
  | _ => Raise (AttributeError (type_name v) "lower")
  end.

Fixpoint chars (s : string) : list value :=
  match s with
  | "" => []
  | String c s' => VStr (String c "") :: chars s'
  end.

(** The values that [for x in v] goes through. *)
Definition iter (v : value) : result (list value) :=
  match v with
  | VList l => Ok l
  | VStr s => Ok (chars s)
  | VDict kv => Ok (map fst kv)
  | _ => Raise (TypeError "object is not iterable")
  end.

(** [[tag.lower() for tag in l]] *)
Fixpoint lower_all (l : list value) : result (list string) :=
  match l with
  | [] => Ok []
  | tag :: l' =>
      match call_lower tag with
      | Ok t =>
          match lower_all l' with
          | Ok ts => Ok (t :: ts)
          | r => r
          end
      | Raise e => Raise e
      | Outside what => Outside what
      end
  end.

Definition make_item (note : Note) : result item :=
  match call_lower (title note) with
  | Ok t =>
      match iter (tags note) with
      | Ok l =>
          match lower_all l with
          | Ok ts => Ok (mkItem (filepath note) t ts (lower (content note)) note)
          | Raise e => Raise e
          | Outside what => Outside what
          end
      | Raise e => Raise e
      | Outside what => Outside what
      end
  | Raise e => Raise e
  | Outside what => Outside what
  end.

Fixpoint build_loop (notes : list Note) (data : list item)
  : result unit * list item :=
  match notes with
  | [] => (Ok tt, data)
  | note :: rest =>
      match make_item note with
      | Ok it => build_loop rest (data ++ [it])
      | Raise e => (Raise e, data)
      | Outside what => (Outside what, data)
      end
  end.

(** [build_index] assigns to the attributes of [self]: the result is
    what the call does, the index object after the call, and the next
    world. *)
Definition build_index (self : SearchIndex) (notes : list Note)
  : World -> (result unit * SearchIndex) * World :=
  fun w =>
    let '(r, data) := build_loop notes [] in
    let self := mkSearchIndex data [] in
    match r with
    | Ok _ => ((Ok tt, self), snd (print (SearchIndexBuilt (length data)) w))
    | _ => ((r, self), w)
    end.

Definition text_to_search (it : item) (search_title search_tags search_content : bool)
  : list string :=
  (if search_title then [item_title it] else [])
  ++ (if search_tags then item_tags it else [])
  ++ (if search_content then [item_content it] else []).

(** One round of the loop over [notes_data]. *)
Definition search_step (query_terms : list string)
  (search_title search_tags search_content : bool)
  (st : list Note * gset string) (it : item) : list Note * gset string :=
  let '(results, seen_filepaths) := st in
  let combined_text :=
    join " " (text_to_search it search_title search_tags search_content) in
  let all_terms_match :=
    forallb (fun term => contains term combined_text) query_terms in
  if all_terms_match then
    if decide (id it ∈ seen_filepaths) then (results, seen_filepaths)
    else (results ++ [original_note it], seen_filepaths ∪ {[ id it ]})
  else (results, seen_filepaths).

Definition search (self : SearchIndex) (query : string)
  (search_title search_tags search_content : bool) : list Note :=
  if is_empty (strip query) then map original_note (notes_data self)
  else
    let query_lower := lower query in
    let query_terms := split query_lower in
    fst (fold_left (search_step query_terms search_title search_tags search_content)
                   (notes_data self) ([], ∅)).

Definition filter_by_tag (self : SearchIndex) (tag : string) : list Note :=
  if is_empty (strip tag) then map original_note (notes_data self)
  else
    let tag_lower := lower tag in
    map original_note
        (filter (fun it => existsb (String.eqb tag_lower) (item_tags it))
                (notes_data self)).

(** [all_tags.add(tag)]: a [list] or a [dict] is not hashable; of the
    hashable values the model follows the [str] ones. *)
Fixpoint add_all (l : list value) (all_tags : gset string)
  : result (gset string) :=
  match l with
  | [] => Ok all_tags
  | VStr t :: l' => add_all l' (all_tags ∪ {[ t ]})
  | VList _ :: _ | VDict _ :: _ => Raise (TypeError "unhashable type")
  | _ :: _ => Outside "a tag that is not a str"
  end.

Fixpoint collect_tags (data : list item) (all_tags : gset string)
  : result (gset string) :=
  match data with
  | [] => Ok all_tags
  | it :: data' =>
      match iter (tags (original_note it)) with
      | Ok l =>
          match add_all l all_tags with
          | Ok all_tags' => collect_tags data' all_tags'
          | r => r
          end
      | Raise e => Raise e
      | Outside what => Outside what
      end
  end.

(** [sorted(list(all_tags))]: [str] values are ordered by code point. *)
Definition get_all_tags (self : SearchIndex) : result (list string) :=
  match collect_tags (notes_data self) ∅ with
  | Ok all_tags => Ok (merge_sort String.le (elements all_tags))
  | Raise e => Raise e
  | Outside what => Outside what
  end.

End NoteSearch.


(** ** The properties, as definitions *)

Module Spec.
Import PyStr Py Os Re Utils FileManager NoteSearch.

(** The text of a [str] value, and the texts a value iterates over.
    [spec_text], [spec_matches] and [first_of_each_path] follow the
    words of the specification, not the code. *)
Definition str_of (v : value) : string :=
  match v with
  | VStr s => s
  | _ => ""
  end.

Definition strs_of (v : value) : list string :=
  match iter v with
  | Ok l => map str_of l
  | _ => []
  end.

(** The enabled fields of a note, lower-cased, joined with single
    spaces. *)
Definition spec_text (search_title search_tags search_content : bool)
  (n : Note) : string :=
  join " "
    ((if search_title then [lower (str_of (title n))] else [])
     ++ (if search_tags then map lower (strs_of (tags n)) else [])
     ++ (if search_content then [lower (content n)] else [])).

(** Every term of the lower-cased query occurs in that text. *)
Definition spec_matches (query : string)
  (search_title search_tags search_content : bool) (n : Note) : bool :=
  forallb
    (fun term => contains term (spec_text search_title search_tags search_content n))
    (split (lower query)).

(** The first note of each file path. *)
Fixpoint first_of_each_path (l : list Note) : list Note :=
  match l with
  | [] => []
  | n :: l' =>
      n :: filter (fun m => filepath m ≠ filepath n) (first_of_each_path l')
  end.

(** The query has a character that is not white space. *)
Definition has_term (query : string) : bool := negb (all_chars isspace query).

(** [build_index] returns, and [idx] is the index object after it. *)
Definition indexed (self : SearchIndex) (notes : list Note) (w : World)
  (idx : SearchIndex) : Prop :=
  fst (build_index self notes w) = (Ok tt, idx).

(** Search as the specification words it: the notes that match, each of
    them. *)
Definition search_as_stated (notes : list Note) (query : string) : Prop :=
  forall self w idx,
    indexed self notes w idx ->
    has_term query = true ->
    forall t g c,
      search idx query t g c = filter (fun n => spec_matches query t g c n) notes.

Definition match_terms (terms : list string) (t g c : bool) (n : Note) : bool :=
  forallb (fun term => contains term (spec_text t g c n)) terms.

(** The note carries the tag [t], written so. *)
Definition has_tag (n : Note) (t : string) : Prop :=
  exists l, iter (tags n) = Ok l /\ VStr t ∈ l.

(** The note that [load_note] returns for a path, if it returns one. *)
Definition loaded (Y : PyYAML) (w : World) (p : string) : option Note :=
  match fst (load_note Y p w) with
  | Ok (Some n) => Some n
  | _ => None
  end.

Definition is_dict (v : value) : bool :=
  match v with
  | VDict _ => true
  | _ => false
  end.

(** The interior of the front-matter block does not parse as a mapping. *)
Definition interior_fails (Y : PyYAML) (m : found) : Prop :=
  safe_load Y (group1 m) = Raises YAMLError
  \/ exists v, safe_load Y (group1 m) = Returns v /\ is_dict v = false.

(** The fallback of the codec as the specification words it. *)
Definition fallback_as_stated (Y : PyYAML) (text : string) : Prop :=
  forall m, re_match YAML_FRONT_MATTER_REGEX text = Some m ->
            interior_fails Y m ->
            parse_yaml_front_matter Y text = Ok ([], text).

(** The outcomes of [delete_note_file] on a missing file and on a file
    whose removal fails, told apart. *)
Definition delete_distinguishes (p : string) (w_missing w_failing : World)
  : Prop :=
  exists_ w_missing p = false ->
  exists_ w_failing p = true ->
  (exists e, fst (remove p w_failing) = Raise e) ->
  fst (delete_note_file p w_missing) <> fst (delete_note_file p w_failing).

Definition same_fields (a b : Note) : Prop :=
  title a = title b /\ tags a = tags b /\ created a = created b
  /\ updated a = updated b /\ strip (content a) = strip (content b).

(** The round trip as the specification words it. *)
Definition roundtrip_as_stated (Y : PyYAML) (w : World) (note : Note) : Prop :=
  exists n w',
    load_note Y (filepath note) (snd (save_note Y note w)) = (Ok (Some n), w')
    /\ same_fields n note.

(** No line of the text starts with three dashes; [bol] tells that the
    text starts a line. *)
Fixpoint dash_free (bol : bool) (y : string) : bool :=
  match y with
  | "" => true
  | String c y' =>
      negb (bol && String.prefix "---" y) && dash_free (Ascii.eqb c LF) y'
  end.

Fixpoint ends_with_LF (y : string) : bool :=
  match y with
  | "" => false
  | String c "" => Ascii.eqb c LF
  | String _ y' => ends_with_LF y'
  end.

Definition starts_with_space (y : string) : bool :=
  match y with
  | "" => false
  | String c _ => isspace c
  end.

(** The shape of the text that [yaml.dump] returns for a mapping in block
    style: lines, the first of which starts with a key, none of which
    starts with three dashes. *)
Definition block_text (y : string) : bool :=
  negb (starts_with_space y) && ends_with_LF y && dash_free true y.

(** What closes the block in the pattern: the line feed that ends
    group 1, then the line of dashes. *)
Definition closing : list re_node :=
  [One (Chr LF); GroupClose; Bol] ++ dashes ++ [Star Space; One (Chr LF)].

(** The text from the closing dashes on, as [save_note] writes it. *)
Definition after_block (body : string) : string :=
  "---" +:+ nl +:+ nl +:+ body.

Definition no_CR (s : string) : bool :=
  all_chars (fun c => negb (Ascii.eqb c CR)) s.


Definition is_None (v : value) : bool :=
  match v with
  | VNone => true
  | _ => false
  end.

(** Two worlds with the same faults and the same clock. *)
Definition same_env (w w' : World) : Prop :=
  io_fault w' = io_fault w /\ utc_now w' = utc_now w.

(** The text that [save_note] writes for a note whose metadata
    [yaml.dump] renders as [y]. *)
Definition saved_text (y : string) (note : Note) : string :=
  ("---" +:+ nl +:+ y +:+ "---" +:+ nl) +:+ nl +:+ strip (content note).

(** The [dict] that [save_note] hands to [yaml.dump]. *)
Definition dumped_metadata (note : Note) : dict :=
  fold_left isoformat_slot ["created"; "updated"] (note_metadata note).

End Spec.

(** ** Worlds, notes and documents of the examples *)

Module Fixtures.
Import PyStr Py Os Re Utils FileManager NoteSearch Spec.

(** Equality of values by structure. *)
Fixpoint value_eqb (a b : value) : bool :=
  match a, b with
  | VNone, VNone => true
  | VBool x, VBool y => Bool.eqb x y
  | VInt x, VInt y => Z.eqb x y
  | VStr x, VStr y => String.eqb x y
  | VDatetime x, VDatetime y => String.eqb x y
  | VList l1, VList l2 =>
      (fix go (l1 l2 : list value) : bool :=
         match l1, l2 with
         | [], [] => true
         | x :: l1', y :: l2' => value_eqb x y && go l1' l2'
         | _, _ => false
         end) l1 l2
  | VDict d1, VDict d2 =>
      (fix go (d1 d2 : list (value * value)) : bool :=
         match d1, d2 with
         | [], [] => true
         | (k1, v1) :: d1', (k2, v2) :: d2' =>
             value_eqb k1 k2 && value_eqb v1 v2 && go d1' d2'
         | _, _ => false
         end) d1 d2
  | _, _ => false
  end.

Definition lines (l : list string) : string :=
  fold_right (fun x acc => x +:+ nl +:+ acc) "" l.

(** The metadata of the note of [test_02_load_note], and the text that
    [yaml.dump] returns for it. *)
Definition meta_to_load : dict :=
  [ (VStr "title", VStr "Note to Load");
    (VStr "tags", VList [VStr "loading"; VStr "test"]);
    (VStr "created", VStr "2023-01-01T10:00:00Z");
    (VStr "updated", VStr "2023-01-01T11:00:00Z") ].

Definition yaml_to_load : string :=
  lines [ "title: Note to Load"; "tags:"; "- loading"; "- test";
          "created: '2023-01-01T10:00:00Z'";
          "updated: '2023-01-01T11:00:00Z'" ].

(** What [yaml.safe_load] answers on the documents of the examples. *)
Definition safe_load_table : list (string * outcome value) :=
  [ (yaml_to_load, Returns (VDict meta_to_load));
    (lines ["title: Partial Only"],
     Returns (VDict [(VStr "title", VStr "Partial Only")]));
    (lines ["title: Malformed"; "tags: [one, two"], Raises YAMLError);
    (lines ["- a"], Returns (VList [VStr "a"])) ].

Definition dump_table : list (dict * outcome string) :=
  [ (meta_to_load, Returns yaml_to_load) ].

Fixpoint table_lookup {K V} (eqb : K -> K -> bool) (l : list (K * V)) (k : K)
  (default : V) : V :=
  match l with
  | [] => default
  | (k', v) :: l' => if eqb k' k then v else table_lookup eqb l' k default
  end.

(** PyYAML on the documents of the examples; a document that is not one
    of them is answered by [YAMLError]. *)
Definition yaml_fixture : PyYAML :=
  mkPyYAML
    (fun text => table_lookup String.eqb safe_load_table text (Raises YAMLError))
    (fun d => table_lookup (fun a b => value_eqb (VDict a) (VDict b)) dump_table d
                           (Raises YAMLError)).

Definition no_fault : io_op -> string -> option os_error := fun _ _ => None.

Definition mk_world (files : list (string * node))
  (fault : io_op -> string -> option os_error) : World :=
  mkWorld files fault "2024-07-15T08:30:00+00:00" "20240715103000" (fun _ => []) [].

(** A notes folder with nothing in it. *)
Definition world_empty : World := mk_world [("/notes", Dir)] no_fault.

(** A notes folder with one note whose removal is refused. *)
Definition world_locked : World :=
  mk_world [("/notes", Dir); ("/notes/a.md", File (Some "text"))]
           (fun op p =>
              match op with
              | OpRemove => if String.eqb p "/notes/a.md" then Some PermissionError else None
              | _ => None
              end).

Definition note_to_load (content : string) : Note :=
  mkNote "/notes/load_me.md" (VStr "Note to Load")
         (VList [VStr "loading"; VStr "test"])
         (VStr "2023-01-01T10:00:00Z") (VStr "2023-01-01T11:00:00Z") content.

(** A note whose [created] is a [datetime]. *)
Definition note_dated : Note :=
  mkNote "/notes/a.md" (VStr "A") (VList [])
         (VDatetime "2024-07-15T08:30:00+00:00") VNone "".

(** A note whose content has a carriage return in it. *)
Definition note_cr : Note :=
  note_to_load ("a" +:+ String CR "" +:+ "b").

(** Five files in the notes folder: a note with front matter, bytes that
    are not UTF-8, a note without front matter, a text file and a hidden
    file. *)
Definition world_scan : World :=
  mk_world
    [ ("/notes", Dir);
      ("/notes/partial.md",
       File (Some (lines ["---"; "title: Partial Only"; "---"] +:+ "Content here.")));
      ("/notes/broken.md", File None);
      ("/notes/plain.md", File (Some "# Just Content"));
      ("/notes/ignore_me.txt", File (Some "This is not a markdown file."));
      ("/notes/.hidden.md", File (Some "hidden")) ]
    no_fault.

Definition text_malformed : string :=
  lines ["---"; "title: Malformed"; "tags: [one, two"; "---"] +:+ "Content.".

Definition text_sequence : string :=
  lines ["---"; "- a"; "---"] +:+ "Body".

(** The two notes of the search example. *)
Definition note_web : Note :=
  mkNote "/test/note2.md" (VStr "Python Web Development")
         (VList [VStr "python"; VStr "web"])
         (VStr "2024-07-15T08:30:00+00:00") (VStr "2024-07-15T08:30:00+00:00") "".

Definition note_ideas : Note :=
  mkNote "/test/note4.md" (VStr "Project Ideas: Python")
         (VList [VStr "python"; VStr "ideas"])
         (VStr "2024-07-15T08:30:00+00:00") (VStr "2024-07-15T08:30:00+00:00") "".

(** Two notes that share a file path. *)
Definition note_twin (t : string) : Note :=
  mkNote "/test/twin.md" (VStr t) (VList []) VNone VNone "".

Definition tagged (p t : string) : Note :=
  mkNote p (VStr "t") (VList [VStr t]) VNone VNone "".

(** The index object after [build_index]. *)
Definition index_of (notes : list Note) : SearchIndex :=
  snd (fst (build_index new_index notes world_empty)).

End Fixtures.

(** ** The timestamp functions of [MarkdownNotebook/utils.py] *)

Module Timestamps.
Import PyStr Py Os.

(** The calls of [datetime] that the two functions make. A [datetime] is
    identified with the text its [isoformat()] returns, as in [value]. *)
Record Datetime : Type := mkDatetime {
  (* datetime.fromisoformat(s) *)
  fromisoformat : string -> outcome string;
  (* datetime.strptime(s, "%Y-%m-%dT%H:%M:%S") *)
  strptime_seconds : string -> outcome string;
  (* dt.replace(tzinfo=timezone.utc) *)
  replace_utc : string -> string;
  (* dt.astimezone(None) *)
  astimezone_local : string -> outcome string;
  (* dt.strftime(format) *)
  strftime : string -> string -> outcome string
}.

(** [except ValueError]: [UnicodeDecodeError] is a subclass. *)
Definition is_ValueError (e : exn) : bool :=
  match e with
  | ValueError | UnicodeDecodeError => true
  | _ => false
  end.

Definition is_TypeError (e : exn) : bool :=
  match e with
  | TypeError _ => true
  | _ => false
  end.

(** [s[:-1]] *)
Fixpoint drop_last (s : string) : string :=
  match s with
  | "" => ""
  | String c s' =>
      match s' with
      | "" => ""
      | _ => String c (drop_last s')
      end
  end.

Definition parse_timestamp (D : Datetime) (ts_str : string)
  : result (option string) :=
  if is_empty ts_str then Ok None
  else
    let ts_str :=
      if ends_with "Z" ts_str then drop_last ts_str +:+ "+00:00" else ts_str in
    match fromisoformat D ts_str with
    | Returns dt => Ok (Some dt)
    | Raises e =>
        if is_ValueError e || is_TypeError e then
          match strptime_seconds D ts_str with
          | Returns dt_obj => Ok (Some (replace_utc D dt_obj))
          | Raises e' => if is_ValueError e' then Ok None else Raise e'
          end
        else Raise e
    end.

(** The argument is a [str], a [datetime] or anything else. *)
Definition format_timestamp_display (D : Datetime) (dt_obj : value)
  : result string :=
  let parsed :=
    match dt_obj with
    | VStr s =>
        match parse_timestamp D s with
        | Ok (Some dt) => Ok (VDatetime dt)
        | Ok None => Ok VNone
        | Raise e => Raise e
        | Outside what => Outside what
        end
    | _ => Ok dt_obj
    end in
  match parsed with
  | Ok (VDatetime dt) =>
      let attempt :=
        match astimezone_local D dt with
        | Returns local_dt => strftime D "%Y-%m-%d %H:%M" local_dt
        | Raises e => Raises e
        end in
      match attempt with
      | Returns text => Ok text
      | Raises e =>
          if is_ValueError e then
            match strftime D "%Y-%m-%d %H:%M (UTC*)" dt with
            | Returns text => Ok text
            | Raises e' => Raise e'
            end
          else Raise e
      end
  | Ok _ => Ok "N/A"
  | Raise e => Raise e
  | Outside what => Outside what
  end.

End Timestamps.

(** ** The note list of [MarkdownNotebook/gui_main.py] *)

Module Gui.
Import PyStr Py Os FileManager.

(** [MainWindow._find_note_by_filepath], on the list
    [self.notes_list_data]. *)
Fixpoint find_note_by_filepath (notes_list_data : list Note) (filepath : string)
  : option Note :=
  match notes_list_data with
  | [] => None
  | note :: rest =>
      if String.eqb (FileManager.filepath note) filepath then Some note
      else find_note_by_filepath rest filepath
  end.

End Gui.

(** ** The settings object of [MarkdownNotebook/settings.py] *)

Module Settings.
Import PyStr Py.

(** The attributes of an [AppSettings] object. *)
Record AppSettings : Type := mkAppSettings {
  config_path : string;
  settings : dict
}.

(** [key in d] for a [str] key *)
Definition dict_has (d : dict) (key : string) : bool :=
  match dict_lookup d key with
  | Some _ => true
  | None => false
  end.

(** [AppSettings.get] *)
Definition get (self : AppSettings) (key : string) (default : value) : value :=
  dict_get (settings self) key default.

(** [AppSettings.set]: the object after the call, and the lines that the
    call prints. *)
Definition set (self : AppSettings) (key : string) (value : value)
  : AppSettings * list string :=
  if dict_has (settings self) key
  then (mkAppSettings (config_path self) (dict_set (settings self) key value), [])
  else (self, ["Warning: Attempting to set unknown setting key '" +:+ key +:+ "'"]).

End Settings.

(** ** The [Note] object under [save_note] *)

Module Objects.
Import PyStr Py Os Utils FileManager.
Local Open Scope py_scope.

(** The objects that [save_note] and [generate_yaml_front_matter] reach
    by reference: the [Note] objects and the [dict] objects, each at its
    address. An assignment to an attribute or to a slot is a write at
    the address of the object. The code under [save_note] reaches a
    [list] only to read it, so a [list] stays a value. *)
Inductive object : Type :=
| ONote (n : Note)
| ODict (d : dict).

Abbreviation heap := (gmap positive object).

(** [metadata[key] = v] *)
Definition setitem (metadata : positive) (key : string) (v : value) (h : heap)
  : heap :=
  match h !! metadata with
  | Some (ODict d) => <[metadata := ODict (dict_set d key v)]> h
  | _ => h
  end.

(** One round of the loop over ['created'] and ['updated']. *)
Definition isoformat_slot (metadata : positive) (h : heap) (key : string) : heap :=
  match h !! metadata with
  | Some (ODict d) =>
      match dict_lookup d key with
      | Some (VDatetime iso) => setitem metadata key (VStr iso) h
      | _ => h
      end
  | _ => h
  end.

(** [generate_yaml_front_matter(metadata)], on the [dict] object at the
    address [metadata]. *)
Definition generate_yaml_front_matter (Y : PyYAML) (metadata : positive)
  (h : heap) : result string * heap :=
  let h := fold_left (isoformat_slot metadata) ["created"; "updated"] h in
  match h !! metadata with
  | Some (ODict d) =>
      match d with
      | [] => (Ok "", h)
      | _ =>
          match dump Y d with
          | Returns yaml_str => (Ok ("---" +:+ nl +:+ yaml_str +:+ "---" +:+ nl), h)
          | Raises e =>
              if is_YAMLError e
              then (Ok ("---" +:+ nl +:+ "# Error generating YAML" +:+ nl +:+ "---" +:+ nl), h)
              else (Raise e, h)
          end
      end
  | _ => (Outside "generate_yaml_front_matter of an object that is not a dict", h)
  end.

(** [save_note(note)], on the [Note] object at the address [note]: the
    four attributes are read and a new [dict] is made of them; the
    content and the path are read from the object after
    [generate_yaml_front_matter] has run. *)
Definition save_note (Y : PyYAML) (note : positive) (h : heap) (w : World)
  : (result bool * heap) * World :=
  match h !! note with
  | Some (ONote n) =>
      let metadata := fresh (dom h) in
      let h := <[metadata := ODict (note_metadata n)]> h in
      let '(front_matter, h) := generate_yaml_front_matter Y metadata h in
      match h !! note with
      | Some (ONote n') =>
          let '(r, w') :=
            try_except
              (let* front_matter_str := lift front_matter in
               let full_content := front_matter_str +:+ nl +:+ strip (content n') in
               makedirs (OsPath.dirname (filepath n')) ;;;
               write_text (filepath n') full_content ;;;
               ret true)
              (fun e => print (ErrorSavingNote (filepath n') e) ;;; ret false)
              w in
          ((r, h), w')
      | _ => ((Outside "save_note of an object that is not a Note", h), w)
      end
  | _ => ((Outside "save_note of an object that is not a Note", h), w)
  end.

End Objects.

(** ** More properties, as definitions *)

Module Extra.
Import PyStr Py Os Re Utils FileManager NoteSearch Spec Fixtures Timestamps.

(** A tag of the note is [tag], letter case apart. *)
Definition carries_tag (tag : string) (n : Note) : bool :=
  existsb (String.eqb (lower tag)) (map lower (strs_of (tags n))).

(** The enabled fields of a note, lower-cased: what [spec_text] joins. *)
Definition spec_fields (search_title search_tags search_content : bool)
  (n : Note) : list string :=
  (if search_title then [lower (str_of (title n))] else [])
  ++ (if search_tags then map lower (strs_of (tags n)) else [])
  ++ (if search_content then [lower (content n)] else []).

(** No character of the text is white space. *)
Definition no_space (s : string) : bool :=
  all_chars (fun c => negb (isspace c)) s.

(** The characters of a text, each as a text. *)
Fixpoint char_texts (s : string) : list string :=
  match s with
  | "" => []
  | String c s' => String c "" :: char_texts s'
  end.

(** The text that [save_note] writes after the front matter [front]. *)
Definition file_text (front : string) (note : Note) : string :=
  front +:+ nl +:+ strip (content note).

Definition is_Datetime (v : option value) : bool :=
  match v with
  | Some (VDatetime _) => true
  | _ => false
  end.

Definition is_str (v : value) : bool :=
  match v with
  | VStr _ => true
  | _ => false
  end.

(** A [datetime] library for the examples: it reads the one text of the
    clock of the examples and nothing else. *)
Definition datetime_fixture : Datetime :=
  mkDatetime
    (fun s => if String.eqb s "2024-07-15T08:30:00+00:00"
              then Returns "2024-07-15T08:30:00+00:00" else Raises ValueError)
    (fun s => Raises ValueError)
    (fun dt => dt)
    (fun dt => Returns dt)
    (fun format dt => Returns (format +:+ " of " +:+ dt)).

(** A note whose title is a number, as [title: 123] loads. *)
Definition note_numbered : Note :=
  mkNote "/notes/n.md" (VInt 123) (VList []) VNone VNone "".

(** A note whose tags are one text, as [tags: python] loads. *)
Definition note_scalar_tags : Note :=
  mkNote "/notes/s.md" (VStr "S") (VStr "python") VNone VNone "".

(** A notes folder with the note of [test_02_load_note] saved in it. *)
Definition world_saved : World :=
  snd (save_note yaml_fixture (note_to_load "  Hello  ") world_empty).

(** The value of a [created] or [updated] slot when the mapping is
    handed to [yaml.dump]. *)
Definition iso_text (v : option value) : option value :=
  match v with
  | Some (VDatetime iso) => Some (VStr iso)
  | _ => v
  end.

(** The title is a text and the tags are a list of texts. *)
Definition well_typed (n : Note) : bool :=
  is_str (title n)
  && match tags n with
     | VList l => forallb is_str l
     | _ => false
     end.

(** The fields of a note, lower-cased, with the note. *)
Definition item_of (n : Note) : item :=
  mkItem (filepath n) (lower (str_of (title n))) (map lower (strs_of (tags n)))
         (lower (content n)) n.

(** A settings object with three of the default settings. *)
Definition settings_fixture : Settings.AppSettings :=
  Settings.mkAppSettings "/home/u/.config/MarkdownNotebook/settings.json"
    [ (VStr "font_size", VInt 12); (VStr "theme", VStr "light");
      (VStr "window_width", VInt 1000) ].

(** The texts between the slashes of a path. *)
Fixpoint segments_go (cur p : string) : list string :=
  match p with
  | "" => [cur]
  | String c p' =>
      if OsPath.is_slash c then cur :: segments_go "" p'
      else segments_go (cur +:+ String c "") p'
  end.

Definition segments (p : string) : list string := segments_go "" p.

(** A name of an entry: not empty, not [.] and not [..]. *)
Definition plain_name (c : string) : bool :=
  negb (is_empty c) && negb (String.eqb c ".") && negb (String.eqb c "..").

(** A path written in the one way that a case-sensitive file system
    without links has for an entry below the root: absolute, every
    component a name, no slash doubled and none at the end. Two such
    paths name the same entry only when they are the same text. *)
Definition canonical (p : string) : bool :=
  String.prefix "/" p
  && negb (OsPath.ends_with_slash p)
  && forallb plain_name (tail (segments p)).



(** PyYAML on a block that holds a date that does not exist: the
    constructor of the date raises [ValueError]. *)
Definition yaml_dates : PyYAML :=
  mkPyYAML
    (fun text => if String.eqb text (lines ["created: 2023-13-45"])
                 then Raises ValueError else safe_load yaml_fixture text)
    (dump yaml_fixture).

(** A notes folder with a note whose block holds that date. *)
Definition world_dated : World :=
  mk_world
    [ ("/notes", Dir);
      ("/notes/dated.md",
       File (Some (lines ["---"; "created: 2023-13-45"; "---"] +:+ "Body"))) ]
    no_fault.

(** A store with one object, the note whose [created] is a [datetime]. *)
Definition heap_dated : Objects.heap := {[ 1%positive := Objects.ONote note_dated ]}.

(** A text that ends where [body] starts. *)
Definition ends_in (body text : string) : Prop :=
  exists before, text = before +:+ body.

End Extra.

(** * Properties *)

(** ** Facts on strings *)

Module PyStrFacts.
Import PyStr.

Lemma isspace_lower_char (c : ascii) : isspace (lower_char c) = isspace c.
Proof. destruct c as [[] [] [] [] [] [] [] []]; reflexivity. Qed.

Lemma all_chars_isspace_lower (q : string) :
  all_chars isspace (lower q) = all_chars isspace q.
Proof.
  induction q as [|c q IH]; simpl; [reflexivity|].
  now rewrite isspace_lower_char, IH.
Qed.

Lemma all_chars_isspace_lstrip (s : string) :
  all_chars isspace (lstrip s) = all_chars isspace s.
Proof.
  induction s as [|c s IH]; simpl; [reflexivity|].
  destruct (isspace c) eqn:E; simpl; [exact IH|now rewrite E].
Qed.

Lemma rstrip_empty (s : string) : is_empty (rstrip s) = all_chars isspace s.
Proof.
  induction s as [|c s IH]; simpl; [reflexivity|].
  destruct (rstrip s) as [|d r]; simpl in *; rewrite <- IH.
  - destruct (isspace c); reflexivity.
  - now rewrite andb_false_r.
Qed.

Lemma strip_empty (s : string) : is_empty (strip s) = all_chars isspace s.
Proof.
  unfold strip. now rewrite rstrip_empty, all_chars_isspace_lstrip.
Qed.

Lemma is_empty_snoc (w : string) (c : ascii) : is_empty (w +:+ String c "") = false.
Proof. destruct w; reflexivity. Qed.

Lemma split_go_acc (w s : string) : is_empty w = false -> split_go w s <> [].
Proof.
  revert w. induction s as [|c s IH]; intros w Hw; simpl.
  - now rewrite Hw.
  - destruct (isspace c).
    + now rewrite Hw.
    + apply IH, is_empty_snoc.
Qed.

Lemma split_go_not_nil (w s : string) :
  all_chars isspace s = false -> split_go w s <> [].
Proof.
  revert w. induction s as [|c s IH]; intros w Hs; simpl in *; [discriminate|].
  destruct (isspace c); simpl in Hs.
  - destruct (is_empty w); [now apply IH|discriminate].
  - apply split_go_acc, is_empty_snoc.
Qed.

Lemma split_go_terms (w s t : string) : In t (split_go w s) -> is_empty t = false.
Proof.
  revert w. induction s as [|c s IH]; intros w Ht; simpl in Ht.
  - destruct (is_empty w) eqn:Ew; simpl in Ht; [tauto|].
    destruct Ht as [<-|[]]. exact Ew.
  - destruct (isspace c).
    + destruct (is_empty w) eqn:Ew; [now apply IH in Ht|].
      destruct Ht as [<-|Ht]; [exact Ew|now apply IH in Ht].
    + now apply IH in Ht.
Qed.

Lemma contains_in_empty (t : string) : is_empty t = false -> contains t "" = false.
Proof. destruct t; [discriminate|reflexivity]. Qed.

(** A query with a character that is not white space has a term, and no
    term occurs in the empty text. *)
Lemma no_term_in_empty (query : string) :
  all_chars isspace query = false ->
  forallb (fun term => contains term "") (split (lower query)) = false.
Proof.
  intros Hq. unfold split.
  pose proof (split_go_not_nil "" (lower query)) as Hne.
  rewrite all_chars_isspace_lower in Hne. specialize (Hne Hq).
  destruct (split_go "" (lower query)) as [|t ts] eqn:E; [congruence|].
  cbn [forallb]. rewrite contains_in_empty; [reflexivity|].
  apply (split_go_terms "" (lower query)). rewrite E. now left.
Qed.

End PyStrFacts.

(** ** The search index *)

Module SearchFacts.
Import PyStr Py Os FileManager NoteSearch Spec PyStrFacts.

Lemma lower_all_spec (l : list value) (ts : list string) :
  lower_all l = Ok ts -> ts = map lower (map str_of l) /\ Forall (fun v => exists s, v = VStr s) l.
Proof.
  revert ts. induction l as [|v l IH]; intros ts H; simpl in H.
  - injection H as <-. split; [reflexivity|constructor].
  - destruct v; simpl in H; try discriminate.
    destruct (lower_all l) as [ts'| |] eqn:E; try discriminate.
    injection H as <-. destruct (IH _ eq_refl) as [-> HF].
    split; [reflexivity|]. constructor; eauto.
Qed.

(** What [make_item] stores, in terms of the note. *)
Lemma make_item_spec (n : Note) (it : item) :
  make_item n = Ok it ->
  id it = filepath n /\ original_note it = n
  /\ (forall t g c, join " " (text_to_search it t g c) = spec_text t g c n)
  /\ exists l, iter (tags n) = Ok l /\ Forall (fun v => exists s, v = VStr s) l.
Proof.
  unfold make_item. intros H.
  destruct (title n) as [| | |s| | |] eqn:Et; simpl in H; try discriminate.
  destruct (iter (tags n)) as [l| |] eqn:Ei; try discriminate.
  destruct (lower_all l) as [ts| |] eqn:El; try discriminate.
  injection H as <-. simpl.
  apply lower_all_spec in El as [-> HF].
  repeat split; [|eauto].
  intros t g c. unfold spec_text, text_to_search, strs_of. simpl.
  now rewrite Et, Ei.
Qed.

Lemma build_loop_spec (notes : list Note) (data0 data : list item) :
  build_loop notes data0 = (Ok tt, data) ->
  exists its, data = data0 ++ its
              /\ Forall2 (fun n it => make_item n = Ok it) notes its.
Proof.
  revert data0. induction notes as [|n notes IH]; intros data0 H; simpl in H.
  - injection H as <-. exists []. split; [now rewrite app_nil_r|constructor].
  - destruct (make_item n) as [it| |] eqn:E; try discriminate.
    destruct (IH _ H) as (its & -> & HF).
    exists (it :: its). split; [now rewrite <- app_assoc|now constructor].
Qed.

Lemma indexed_items self notes w idx :
  indexed self notes w idx ->
  Forall2 (fun n it => make_item n = Ok it) notes (notes_data idx).
Proof.
  unfold indexed, build_index. intros H.
  destruct (build_loop notes []) as [r data] eqn:E.
  destruct r as [[]| |]; simpl in H; try discriminate.
  injection H as <-. simpl.
  apply build_loop_spec in E as (its & -> & HF). exact HF.
Qed.

Lemma items_originals (notes : list Note) (its : list item) :
  Forall2 (fun n it => make_item n = Ok it) notes its ->
  map original_note its = notes.
Proof.
  induction 1 as [|n it notes its H _ IH]; simpl; [reflexivity|].
  apply make_item_spec in H as (_ & -> & _). now rewrite IH.
Qed.

Lemma search_step_spec (terms : list string) (t g c : bool)
  (results : list Note) (seen : gset string) (n : Note) (it : item) :
  make_item n = Ok it ->
  search_step terms t g c (results, seen) it
  = if match_terms terms t g c n
    then if decide (filepath n ∈ seen) then (results, seen)
         else (results ++ [n], seen ∪ {[ filepath n ]})
    else (results, seen).
Proof.
  intros H. apply make_item_spec in H as (Hid & Horig & Htext & _).
  unfold search_step, match_terms. now rewrite Htext, Hid, Horig.
Qed.

(** The loop of [search]: what it has kept so far, then the first note
    of each path not seen yet among the notes that match. *)
Lemma search_loop (terms : list string) (t g c : bool)
  (notes : list Note) (its : list item) :
  Forall2 (fun n it => make_item n = Ok it) notes its ->
  forall (results : list Note) (seen : gset string),
    fst (fold_left (search_step terms t g c) its (results, seen))
    = results
      ++ filter (fun n => filepath n ∉ seen)
                (first_of_each_path (filter (fun n => match_terms terms t g c n) notes)).
Proof.
  induction 1 as [|n it notes its H _ IH]; intros results seen; cbn [fold_left].
  - simpl. now rewrite app_nil_r.
  - rewrite (search_step_spec _ _ _ _ _ _ _ _ H).
    destruct (match_terms terms t g c n) eqn:Em.
    + rewrite filter_cons_True by (now rewrite Em). simpl.
      destruct (decide (filepath n ∈ seen)) as [Hin|Hout].
      * rewrite IH. f_equal.
        rewrite filter_cons_False by (intros Hn; now apply Hn).
        rewrite list_filter_filter. apply list_filter_iff.
        intros m. split; [intros Hm; split; [exact Hm|congruence]|tauto].
      * rewrite IH, <- app_assoc. f_equal. simpl.
        rewrite filter_cons_True by exact Hout. f_equal.
        rewrite list_filter_filter. apply list_filter_iff.
        intros m. rewrite not_elem_of_union, not_elem_of_singleton. tauto.
    + rewrite filter_cons_False by (now rewrite Em). apply IH.
Qed.

Lemma first_of_each_path_NoDup (l : list Note) :
  NoDup (map filepath l) -> first_of_each_path l = l.
Proof.
  induction l as [|n l IH]; simpl; [reflexivity|].
  intros Hnd. apply NoDup_cons in Hnd as [Hn Hnd].
  rewrite IH by exact Hnd. f_equal.
  clear IH Hnd. induction l as [|m l IH]; [reflexivity|].
  simpl in Hn. apply not_elem_of_cons in Hn as [Hne Hn].
  rewrite filter_cons_True by congruence. f_equal. now apply IH.
Qed.

Lemma NoDup_map_filter (P : Note -> Prop) `{!forall n, Decision (P n)} (l : list Note) :
  NoDup (map filepath l) -> NoDup (map filepath (filter P l)).
Proof.
  induction l as [|n l IH]; simpl; [intros; constructor|].
  intros Hnd. apply NoDup_cons in Hnd as [Hn Hnd].
  destruct (decide (P n)).
  - rewrite filter_cons_True by assumption. simpl. apply NoDup_cons. split; [|now apply IH].
    intros Hin. apply Hn. apply list_elem_of_fmap in Hin as (m & -> & Hm).
    apply list_elem_of_filter in Hm as [_ Hm]. apply list_elem_of_fmap. eauto.
  - rewrite filter_cons_False by assumption. now apply IH.
Qed.

Lemma fold_left_fixed {A B} (f : A -> B -> A) (l : list B) (a : A) :
  (forall b, f a b = a) -> fold_left f l a = a.
Proof.
  intros Hf. induction l as [|b l IH]; simpl; [reflexivity|]. now rewrite Hf.
Qed.

Lemma filter_all {A} (P : A -> Prop) `{!forall x, Decision (P x)} (l : list A) :
  (forall x, P x) -> filter P l = l.
Proof.
  intros HP. induction l as [|x l IH]; [reflexivity|].
  rewrite filter_cons_True by apply HP. now rewrite IH.
Qed.

Lemma search_blank (idx : SearchIndex) (query : string) (t g c : bool) :
  has_term query = false ->
  search idx query t g c = map original_note (notes_data idx).
Proof.
  unfold has_term, search. intros H. rewrite strip_empty.
  apply negb_false_iff in H. now rewrite H.
Qed.

Lemma search_terms (idx : SearchIndex) (query : string) (t g c : bool) :
  has_term query = true ->
  search idx query t g c
  = fst (fold_left (search_step (split (lower query)) t g c) (notes_data idx) ([], ∅)).
Proof.
  unfold has_term, search. intros H. rewrite strip_empty.
  apply negb_true_iff in H. now rewrite H.
Qed.

Lemma add_all_spec (l : list value) (S : gset string) :
  Forall (fun v => exists s, v = VStr s) l ->
  exists S', add_all l S = Ok S' /\ forall t, t ∈ S' <-> t ∈ S \/ VStr t ∈ l.
Proof.
  intros HF. revert S. induction HF as [|v l [s ->] _ IH]; intros S; simpl.
  - exists S. split; [reflexivity|]. intros t. rewrite elem_of_nil. tauto.
  - destruct (IH (S ∪ {[ s ]})) as (S' & -> & HS').
    exists S'. split; [reflexivity|]. intros t.
    rewrite HS', elem_of_union, elem_of_singleton, elem_of_cons.
    split; [intros [[?| ->]|?]; auto|intros [?|[E|?]]; auto; injection E as ->; auto].
Qed.

Lemma collect_tags_spec (notes : list Note) (its : list item) :
  Forall2 (fun n it => make_item n = Ok it) notes its ->
  forall S, exists S',
    collect_tags its S = Ok S'
    /\ forall t, t ∈ S' <-> t ∈ S \/ exists n, n ∈ notes /\ has_tag n t.
Proof.
  induction 1 as [|n it notes its H _ IH]; intros S; simpl.
  - exists S. split; [reflexivity|]. intros t. split; [auto|].
    intros [?|(n & Hn & _)]; [assumption|]. now apply elem_of_nil in Hn.
  - apply make_item_spec in H as (_ & -> & _ & l & Hl & HF).
    rewrite Hl. destruct (add_all_spec l S HF) as (S1 & -> & HS1).
    destruct (IH S1) as (S' & -> & HS'). exists S'. split; [reflexivity|].
    intros t. rewrite HS', HS1. split.
    + intros [[?|Ht]|(m & Hm & Ht)]; [now left| |].
      * right. exists n. split; [apply elem_of_cons; now left|]. now exists l.
      * right. exists m. split; [apply elem_of_cons; now right|assumption].
    + intros [?|(m & Hm & Ht)]; [now left; left|].
      apply elem_of_cons in Hm as [->|Hm].
      * destruct Ht as (l' & Hl' & Ht). rewrite Hl in Hl'. injection Hl' as <-.
        left. now right.
      * right. now exists m.
Qed.

End SearchFacts.

Module SearchTheorems.
Import PyStr Py Os FileManager NoteSearch Spec Fixtures PyStrFacts SearchFacts.

(** C10: on an index built from [notes], a query with a term finds
    nothing when the title, the tags and the content are all switched
    off; a query that is empty or white space only returns the indexed
    notes, whatever the three flags. *)
Theorem search_no_field_enabled self notes w idx query :
  indexed self notes w idx ->
  (has_term query = true -> search idx query false false false = [])
  /\ (has_term query = false -> forall t g c, search idx query t g c = notes).
Proof.
  intros Hidx. apply indexed_items in Hidx. split.
  - intros Hq. rewrite search_terms by exact Hq.
    rewrite fold_left_fixed; [reflexivity|].
    intros it. unfold search_step, text_to_search. simpl.
    rewrite no_term_in_empty; [reflexivity|].
    unfold has_term in Hq. now apply negb_true_iff in Hq.
  - intros Hq t g c. rewrite search_blank by exact Hq.
    now apply items_originals.
Qed.

Lemma search_no_field_enabled_witness :
  search (index_of [note_web; note_ideas]) "python" false false false = []
  /\ search (index_of [note_web; note_ideas]) "  " false true false
     = [note_web; note_ideas].
Proof.
  destruct (search_no_field_enabled new_index [note_web; note_ideas] world_empty
              (index_of [note_web; note_ideas]) "python" eq_refl) as [H1 _].
  destruct (search_no_field_enabled new_index [note_web; note_ideas] world_empty
              (index_of [note_web; note_ideas]) "  " eq_refl) as [_ H2].
  split; [apply H1; reflexivity|apply H2; reflexivity].
Defined.

(** C3, as the code has it: a query without a term returns the indexed
    notes in the order of the build; a query with terms returns, in that
    order, the notes whose enabled fields, lower-cased and joined with
    single spaces, contain every term, and of several such notes with
    one file path the first only; so when the file paths differ, exactly
    the notes that match. On the two notes of the example,
    [python ideas] finds the second, [python] both,
    [nonexistent_term_xyz] none, and the empty query both. *)
Theorem search_and_semantics :
  (forall self notes w idx query t g c,
      indexed self notes w idx ->
      (has_term query = false -> search idx query t g c = notes)
      /\ (has_term query = true ->
          search idx query t g c
          = first_of_each_path (filter (fun n => spec_matches query t g c n) notes))
      /\ (has_term query = true -> NoDup (map filepath notes) ->
          search idx query t g c = filter (fun n => spec_matches query t g c n) notes))
  /\ (let idx := index_of [note_web; note_ideas] in
      search idx "python ideas" true true true = [note_ideas]
      /\ search idx "python" true true true = [note_web; note_ideas]
      /\ search idx "nonexistent_term_xyz" true true true = []
      /\ search idx "" true true true = [note_web; note_ideas]).
Proof.
  split.
  - intros self notes w idx query t g c Hidx.
    apply indexed_items in Hidx.
    assert (Hterms : has_term query = true ->
              search idx query t g c
              = first_of_each_path (filter (fun n => spec_matches query t g c n) notes)).
    { intros Hq. rewrite search_terms by exact Hq.
      rewrite (search_loop _ _ _ _ _ _ Hidx). simpl.
      rewrite filter_all; [reflexivity|].
      intros n. apply not_elem_of_empty. }
    repeat split.
    + intros Hq. rewrite search_blank by exact Hq. now apply items_originals.
    + exact Hterms.
    + intros Hq Hnd. rewrite Hterms by exact Hq.
      apply first_of_each_path_NoDup, NoDup_map_filter. exact Hnd.
  - vm_compute. repeat split.
Qed.

Lemma search_and_semantics_witness :
  search (index_of [note_web; note_ideas]) "WEB python" true true true = [note_web].
Proof.
  destruct search_and_semantics as [H _].
  destruct (H new_index [note_web; note_ideas] world_empty
              (index_of [note_web; note_ideas]) "WEB python" true true true eq_refl)
    as (_ & _ & H3).
  rewrite H3; [reflexivity|reflexivity|].
  apply (bool_decide_unpack _). vm_compute. exact I.
Defined.

(** C3 as the specification words it fails on two matching notes that
    share a file path: the second is not returned. *)
Lemma search_drops_second_of_a_path :
  ~ search_as_stated [note_twin "Python A"; note_twin "Python B"] "python".
Proof.
  intros H.
  specialize (H new_index world_empty
                (index_of [note_twin "Python A"; note_twin "Python B"])
                eq_refl eq_refl true true true).
  vm_compute in H. discriminate H.
Qed.

(** C7: on an index built from [notes], [get_all_tags] returns the tags of
    the notes as they are written, each text once, in the order of the
    code points; [Hobby] and [hobby] are two entries. *)
Theorem all_tags_sorted_union :
  (forall self notes w idx,
      indexed self notes w idx ->
      exists ts,
        get_all_tags idx = Ok ts
        /\ (forall t, t ∈ ts <-> exists n, n ∈ notes /\ has_tag n t)
        /\ NoDup ts
        /\ StronglySorted String.le ts)
  /\ get_all_tags (index_of [tagged "/a.md" "hobby"; tagged "/b.md" "Hobby"])
     = Ok ["Hobby"; "hobby"].
Proof.
  split; [|reflexivity].
  intros self notes w idx Hidx. apply indexed_items in Hidx.
  destruct (collect_tags_spec _ _ Hidx ∅) as (S & HS & Hmem).
  unfold get_all_tags. rewrite HS. eexists. split; [reflexivity|].
  repeat split.
  - rewrite merge_sort_Permutation, elem_of_elements, Hmem.
    intros [H|H]; [now apply not_elem_of_empty in H|exact H].
  - intros H. rewrite merge_sort_Permutation, elem_of_elements, Hmem. now right.
  - rewrite merge_sort_Permutation. apply NoDup_elements.
  - apply StronglySorted_merge_sort; apply _.
Qed.

Lemma all_tags_sorted_union_witness :
  exists ts, get_all_tags (index_of [note_web; note_ideas]) = Ok ts /\ NoDup ts.
Proof.
  destruct all_tags_sorted_union as [H _].
  destruct (H new_index [note_web; note_ideas] world_empty
              (index_of [note_web; note_ideas]) eq_refl) as (ts & H1 & _ & H3 & _).
  exists ts. split; assumption.
Defined.

End SearchTheorems.

Module TextFacts.
Import PyStr Py Os Re Utils Spec.
Local Arguments String.append !_ _ /.

Lemma app_assoc_s (a b c : string) : (a +:+ b) +:+ c = a +:+ (b +:+ c).
Proof. induction a as [|x a IH]; cbn; [reflexivity|now rewrite IH]. Qed.

Lemma length_app_s (a b : string) :
  String.length (a +:+ b) = String.length a + String.length b.
Proof. induction a as [|x a IH]; cbn; [reflexivity|now rewrite IH]. Qed.

Lemma substring_app (a b : string) : String.substring 0 (String.length a) (a +:+ b) = a.
Proof.
  induction a as [|x a IH]; cbn; [now destruct b|now rewrite IH].
Qed.

Lemma consumed_app (a b : string) : consumed (a +:+ b) b = a.
Proof.
  unfold consumed. rewrite length_app_s.
  replace (String.length a + String.length b - String.length b) with (String.length a) by lia.
  apply substring_app.
Qed.

Lemma all_chars_app (p : ascii -> bool) (a b : string) :
  all_chars p (a +:+ b) = all_chars p a && all_chars p b.
Proof.
  induction a as [|x a IH]; cbn; [reflexivity|]. now rewrite IH, andb_assoc.
Qed.

Lemma universal_newlines_no_CR (s : string) :
  no_CR s = true -> universal_newlines s = s.
Proof.
  unfold no_CR. induction s as [|c s IH]; simpl; [reflexivity|].
  intros H. apply andb_true_iff in H as [Hc Hs].
  apply negb_true_iff in Hc. rewrite Hc. now rewrite IH.
Qed.

Lemma all_chars_lstrip (p : ascii -> bool) (s : string) :
  all_chars p s = true -> all_chars p (lstrip s) = true.
Proof.
  induction s as [|c s IH]; simpl; [reflexivity|].
  intros H. destruct (isspace c); [|exact H].
  apply andb_true_iff in H as [_ H]. now apply IH.
Qed.

Lemma all_chars_rstrip (p : ascii -> bool) (s : string) :
  all_chars p s = true -> all_chars p (rstrip s) = true.
Proof.
  induction s as [|c s IH]; simpl; [reflexivity|].
  intros H. apply andb_true_iff in H as [Hc Hs]. specialize (IH Hs).
  destruct (rstrip s) as [|d r].
  - destruct (isspace c); simpl; [reflexivity|now rewrite Hc].
  - simpl in *. now rewrite Hc.
Qed.

Lemma no_CR_strip (s : string) : no_CR s = true -> no_CR (strip s) = true.
Proof. intros H. now apply all_chars_rstrip, all_chars_lstrip. Qed.

Lemma lstrip_head (s : string) : starts_with_space (lstrip s) = false.
Proof.
  induction s as [|c s IH]; simpl; [reflexivity|].
  destruct (isspace c) eqn:E; [exact IH|exact E].
Qed.

Lemma rstrip_head (s : string) :
  starts_with_space s = false -> starts_with_space (rstrip s) = false.
Proof.
  destruct s as [|c s]; simpl; [reflexivity|]. intros H.
  destruct (rstrip s); [now rewrite H|exact H].
Qed.

Lemma strip_head (s : string) : starts_with_space (strip s) = false.
Proof. apply rstrip_head, lstrip_head. Qed.

Lemma lstrip_fixed (s : string) : starts_with_space s = false -> lstrip s = s.
Proof. destruct s as [|c s]; simpl; [reflexivity|]. now intros ->. Qed.

Lemma rstrip_idem (s : string) : rstrip (rstrip s) = rstrip s.
Proof.
  induction s as [|c s IH]; simpl; [reflexivity|].
  destruct (rstrip s) as [|d r] eqn:E.
  - destruct (isspace c) eqn:Ec; simpl; [reflexivity|now rewrite Ec].
  - change (rstrip (String c (String d r))
            = String c (String d r)).
    cbn [rstrip]. cbn [rstrip] in IH. now rewrite IH.
Qed.

(** [strip] does nothing to a stripped text. *)
Lemma strip_idem (s : string) : strip (strip s) = strip s.
Proof.
  unfold strip at 1. rewrite lstrip_fixed by apply strip_head.
  unfold strip. apply rstrip_idem.
Qed.

Lemma ends_with_LF_split (y : string) :
  ends_with_LF y = true -> exists y0, y = y0 +:+ nl.
Proof.
  induction y as [|c y IH]; simpl; [discriminate|].
  destruct y as [|d y'].
  - intros H. apply Ascii.eqb_eq in H as ->. now exists "".
  - intros H. destruct (IH H) as [y0 ->]. now exists (String c y0).
Qed.

Lemma not_space_not_LF (c : ascii) : isspace c = false -> Ascii.eqb c LF = false.
Proof.
  intros H. destruct (Ascii.eqb c LF) eqn:E; [|reflexivity].
  apply Ascii.eqb_eq in E as ->. discriminate H.
Qed.

End TextFacts.

Module ReFacts.
Import PyStr Py Os Re Utils Spec TextFacts.
Local Arguments String.append !_ _ /.

Lemma dash_free_prefix (u : string) :
  dash_free true u = true -> String.prefix "---" u = false.
Proof.
  destruct u as [|c u]; [reflexivity|]. cbn [dash_free].
  intros H. apply andb_true_iff in H as [H _]. now apply negb_true_iff in H.
Qed.

Lemma prefix_nil (s : string) : String.prefix "" s = true.
Proof. now destruct s. Qed.

Lemma prefix_cons (a b : ascii) (s1 s2 : string) :
  String.prefix (String a s1) (String b s2) = Ascii.eqb b a && String.prefix s1 s2.
Proof.
  cbn [String.prefix]. destruct (ascii_dec a b) as [<-|Hne].
  - now rewrite Ascii.eqb_refl.
  - replace (Ascii.eqb b a) with false; [reflexivity|].
    symmetry. apply Ascii.eqb_neq. congruence.
Qed.

(** A line that does not start with three dashes stops the dashes of the
    pattern. *)
Lemma dashes_fail (u0 rest : string) r gopen gtext prev :
  String.prefix "---" (u0 +:+ nl) = false ->
  run (dashes ++ r) gopen gtext prev (u0 +:+ nl +:+ rest) = None.
Proof.
  intros H. unfold dashes. cbn [app].
  destruct u0 as [|a [|b [|c u]]]; unfold nl in *;
    cbn [String.append] in H |- *; rewrite ?prefix_cons, ?prefix_nil in H;
    cbn [run atom_ok].
  - reflexivity.
  - destruct (Ascii.eqb a "-"); reflexivity.
  - destruct (Ascii.eqb a "-"); [|reflexivity].
    destruct (Ascii.eqb b "-"); reflexivity.
  - destruct (Ascii.eqb a "-"); [|reflexivity].
    destruct (Ascii.eqb b "-"); [|reflexivity].
    destruct (Ascii.eqb c "-"); [discriminate H|reflexivity].
Qed.

(** The closing part matches at the end of the mapping, and the match
    ends where the body starts. *)
Lemma closing_matches (body gopen : string) (prev : option ascii) :
  starts_with_space body = false ->
  run closing gopen None prev (nl +:+ after_block body)
  = Some (Some (consumed gopen (after_block body)), body).
Proof.
  intros Hb. unfold closing, dashes, after_block, nl. cbn.
  destruct body as [|c body]; cbn; [reflexivity|].
  cbn in Hb. rewrite Hb. cbn. now rewrite (not_space_not_LF c Hb).
Qed.

(** The lazy star runs to the last line feed of the mapping. *)
Lemma lazy_to_closing (y0 body gopen : string) :
  starts_with_space body = false ->
  forall prev,
    dash_free (at_bol prev) (y0 +:+ nl) = true ->
    lazy AnyChar (run closing gopen None) prev (y0 +:+ nl +:+ after_block body)
    = Some (Some (consumed gopen (after_block body)), body).
Proof.
  intros Hb. induction y0 as [|c y0 IH]; intros prev Hy.
  - cbn [String.append]. unfold lazy.
    change (String LF (after_block body)) with (nl +:+ after_block body).
    destruct (nl +:+ after_block body) eqn:E; [discriminate E|]. rewrite <- E.
    now rewrite closing_matches.
  - cbn [String.append] in Hy |- *. cbn [dash_free] in Hy.
    apply andb_true_iff in Hy as [_ Hy].
    cbn [lazy atom_ok].
    assert (Hk : run closing gopen None prev (String c (y0 +:+ nl +:+ after_block body)) = None).
    { unfold closing. cbn [app run atom_ok].
      destruct (Ascii.eqb c LF) eqn:Ec; [|reflexivity].
      cbn [at_bol]. rewrite Ec.
      apply dashes_fail. now apply dash_free_prefix. }
    rewrite Hk. apply IH. exact Hy.
Qed.

Lemma run_chr (c : ascii) r gopen gtext prev (s : string) :
  run (One (Chr c) :: r) gopen gtext prev (String c s) = run r gopen gtext (Some c) s.
Proof. cbn [run atom_ok]. now rewrite Ascii.eqb_refl. Qed.

Lemma run_bol_start r gopen gtext (s : string) :
  run (Bol :: r) gopen gtext None s = run r gopen gtext None s.
Proof. reflexivity. Qed.

Lemma run_star (a : atom) r gopen gtext prev (s : string) :
  run (Star a :: r) gopen gtext prev s = greedy a (run r gopen gtext) prev s.
Proof. reflexivity. Qed.

Lemma run_open_lazy (a : atom) r gopen gtext prev (s : string) :
  run (GroupOpen :: LazyStar a :: r) gopen gtext prev s
  = lazy a (run r s gtext) prev s.
Proof. reflexivity. Qed.

Lemma greedy_cons (a : atom) (k : cont) prev (c : ascii) (s : string) :
  greedy a k prev (String c s)
  = if atom_ok a c
    then match greedy a k (Some c) s with
         | Some m => Some m
         | None => k prev (String c s)
         end
    else k prev (String c s).
Proof. reflexivity. Qed.

(** The white space after the opening dashes stops at the first line
    feed when the mapping does not start with white space. *)
Lemma opening_stops (y rest : string) r gopen gtext :
  starts_with_space y = false -> y <> "" ->
  greedy Space (run (One (Chr LF) :: r) gopen gtext) (Some LF) (y +:+ rest) = None.
Proof.
  intros Hsp Hy. destruct y as [|c y]; [congruence|]. cbn in Hsp.
  cbn [String.append]. rewrite greedy_cons. cbn [atom_ok]. rewrite Hsp.
  cbn [run atom_ok]. now rewrite (not_space_not_LF c Hsp).
Qed.

(** The pattern on the text that [save_note] writes: group 1 is the
    mapping, the match ends where the body starts. *)
Lemma front_matter_match (y body : string) :
  block_text y = true ->
  starts_with_space body = false ->
  re_match YAML_FRONT_MATTER_REGEX
           (("---" +:+ nl +:+ y +:+ "---" +:+ nl) +:+ nl +:+ body)
  = Some (Some y, body).
Proof.
  unfold block_text. intros Hy Hb.
  apply andb_true_iff in Hy as [Hy Hdash].
  apply andb_true_iff in Hy as [Hsp Hlf]. apply negb_true_iff in Hsp.
  destruct (ends_with_LF_split y Hlf) as [y0 Ey].
  assert (Hne : y <> "") by (intros ->; discriminate Hlf).
  replace (("---" +:+ nl +:+ y +:+ "---" +:+ nl) +:+ nl +:+ body)
    with (String "-" (String "-" (String "-" (String LF (y +:+ after_block body))))).
  2:{ unfold after_block, nl. cbn [String.append]. now rewrite !app_assoc_s. }
  unfold re_match, YAML_FRONT_MATTER_REGEX, dashes. cbn [app].
  rewrite run_bol_start, !run_chr, run_star, greedy_cons.
  change (atom_ok Space LF) with true. cbv iota.
  rewrite opening_stops by assumption.
  rewrite run_chr, run_open_lazy.
  change [One (Chr LF); GroupClose; Bol; One (Chr "-"); One (Chr "-");
          One (Chr "-"); Star Space; One (Chr LF)]
    with closing.
  subst y. rewrite app_assoc_s.
  rewrite lazy_to_closing; [|exact Hb|exact Hdash].
  rewrite <- app_assoc_s. now rewrite consumed_app.
Qed.

End ReFacts.

Module RoundTrip.
Import PyStr Py Os Re Utils FileManager Spec Fixtures TextFacts ReFacts.
Local Arguments String.append !_ _ /.

Lemma lookup_set_fs (l : list (string * node)) (p : string) (n : node) :
  lookup_fs (set_fs l p n) p = Some n.
Proof.
  induction l as [|[q m] l IH]; simpl.
  - now rewrite String.eqb_refl.
  - destruct (String.eqb q p) eqn:E; simpl; rewrite E; [reflexivity|exact IH].
Qed.

Lemma same_env_refl (w : World) : same_env w w.
Proof. now split. Qed.

Lemma same_env_trans (w1 w2 w3 : World) :
  same_env w1 w2 -> same_env w2 w3 -> same_env w1 w3.
Proof. intros [H1 H2] [H3 H4]. split; congruence. Qed.

Lemma mkdir_env (p : string) (w : World) : same_env w (snd (mkdir p w)).
Proof.
  unfold mkdir. destruct (io_fault w OpMkdir p); [apply same_env_refl|].
  destruct (is_empty p); [apply same_env_refl|].
  destruct (exists_ w p); [apply same_env_refl|].
  destruct (parent_check w p); [apply same_env_refl|]. now split.
Qed.

(** [os.makedirs] changes nothing but the file system. *)
Lemma makedirs_go_env (fuel : nat) :
  forall (name : string) (w : World), same_env w (snd (makedirs_go fuel name w)).
Proof.
  induction fuel as [|fuel IH]; intros name w; [apply same_env_refl|].
  cbn [makedirs_go].
  destruct (OsPath.split name) as [head tail].
  destruct (if is_empty tail then OsPath.split head else (head, tail)) as [head' tail'].
  assert (Hmake : forall w0,
    same_env w0 (snd (match mkdir name w0 with
                      | (Raise (OSError e), w') =>
                          if isdir w' name then (Ok tt, w') else (Raise (OSError e), w')
                      | r => r
                      end))).
  { intros w0. pose proof (mkdir_env name w0) as H.
    destruct (mkdir name w0) as [[[]|[]|] w']; simpl in *; try exact H.
    destruct (isdir w' name); exact H. }
  destruct (negb (is_empty head') && negb (is_empty tail') && negb (exists_ w head')).
  - specialize (IH head' w).
    destruct (makedirs_go fuel head' w) as [[[]|e|] w1]; simpl in IH.
    + destruct (String.eqb tail' "."); [exact IH|].
      eapply same_env_trans; [exact IH|apply Hmake].
    + destruct e as [| | |[]| |]; try exact IH.
      destruct (String.eqb tail' "."); [exact IH|].
      eapply same_env_trans; [exact IH|apply Hmake].
    + exact IH.
  - apply Hmake.
Qed.

Lemma write_text_ok (p text : string) (w : World) :
  fst (write_text p text w) = Ok tt ->
  stat (snd (write_text p text w)) p = Some (File (Some text))
  /\ same_env w (snd (write_text p text w)).
Proof.
  unfold write_text. destruct (io_fault w OpWrite p); [discriminate|].
  assert (Hstat : stat w p <> Some Dir -> is_empty p = false ->
                  stat (with_fs w (set_fs (fs w) (norm p) (File (Some text)))) p
                  = Some (File (Some text))).
  { unfold stat. intros Hd Ep. rewrite Ep in Hd |- *. simpl.
    destruct (String.eqb (norm p) "/"); [now destruct Hd|]. apply lookup_set_fs. }
  destruct (stat w p) as [[|d]|]; [discriminate| |];
    (destruct (is_empty p); [discriminate|]);
    (destruct (parent_check w p); [discriminate|]);
    intros _; simpl; (split; [apply Hstat; congruence|now split]).
Qed.

Lemma isoformat_slot_nonempty (d : dict) (k : string) :
  d <> [] -> isoformat_slot d k <> [].
Proof.
  unfold isoformat_slot. intros Hd.
  destruct (dict_lookup d k) as [[]|]; try exact Hd.
  destruct d as [|[k' v'] d]; [congruence|]. simpl.
  destruct (is_key k k'); discriminate.
Qed.

Section Saving.
Variable Y : PyYAML.

Lemma generate_dumped (note : Note) (y : string) :
  dump Y (dumped_metadata note) = Returns y ->
  generate_yaml_front_matter Y (note_metadata note)
  = (dumped_metadata note, Ok ("---" +:+ nl +:+ y +:+ "---" +:+ nl)).
Proof.
  intros Hd. unfold generate_yaml_front_matter. fold (dumped_metadata note).
  assert (Hne : dumped_metadata note <> []).
  { unfold dumped_metadata. cbn [fold_left].
    apply isoformat_slot_nonempty, isoformat_slot_nonempty. discriminate. }
  destruct (dumped_metadata note) as [|kv d] eqn:E; [congruence|].
  now rewrite Hd.
Qed.

(** When [save_note] returns [True], the file holds the text, and the
    faults and the clock are as they were. *)
Lemma save_note_success (note : Note) (w : World) (y : string) :
  dump Y (dumped_metadata note) = Returns y ->
  fst (fst (save_note Y note w)) = Ok true ->
  stat (snd (save_note Y note w)) (filepath note) = Some (File (Some (saved_text y note)))
  /\ same_env w (snd (save_note Y note w)).
Proof.
  intros Hd. unfold save_note, try_except, bind, lift, ret, print.
  rewrite (generate_dumped note y Hd). fold (saved_text y note).
  pose proof (makedirs_go_env (S (String.length (OsPath.dirname (filepath note))))
                              (OsPath.dirname (filepath note)) w) as Hmk.
  fold (makedirs (OsPath.dirname (filepath note))) in Hmk.
  destruct (makedirs (OsPath.dirname (filepath note)) w) as [[[]|e|what] w1];
    simpl in Hmk |- *; try discriminate.
  pose proof (write_text_ok (filepath note) (saved_text y note) w1) as Hwr.
  destruct (write_text (filepath note) (saved_text y note) w1) as [[[]|e|what] w2];
    simpl in Hwr |- *; try discriminate.
  intros _. destruct (Hwr eq_refl) as [Hst Henv].
  split; [exact Hst|]. eapply same_env_trans; eassumption.
Qed.

End Saving.

Lemma saved_text_no_CR (y : string) (note : Note) :
  no_CR y = true -> no_CR (content note) = true -> no_CR (saved_text y note) = true.
Proof.
  intros Hy Hc. unfold saved_text, no_CR.
  rewrite !all_chars_app. fold (no_CR y). rewrite Hy.
  fold (no_CR (strip (content note))). rewrite (no_CR_strip _ Hc). reflexivity.
Qed.

End RoundTrip.

(** ** Paths and the enumeration of a directory *)

Module PathFacts.
Import PyStr Py OsPath Os Spec.
Local Arguments String.append !_ _ /.







End PathFacts.

(** ** The codec and the note store *)

Module StoreFacts.
Import PyStr Py Os Re Utils FileManager Spec.

Lemma with_stdout_same (w : World) : with_stdout w (stdout w) = w.
Proof. destruct w; reflexivity. Qed.

Lemma read_text_world (p : string) (w : World) : snd (read_text p w) = w.
Proof.
  unfold read_text. destruct (io_fault w OpRead p); [reflexivity|].
  destruct (stat w p) as [[|[t|]]|]; reflexivity.
Qed.

Lemma read_text_stdout (p : string) (w : World) (out : list line) :
  fst (read_text p (with_stdout w out)) = fst (read_text p w).
Proof.
  unfold read_text, stat. simpl. destruct (io_fault w OpRead p); [reflexivity|].
  destruct (is_empty p); [reflexivity|].
  destruct (String.eqb (norm p) "/"); [reflexivity|].
  destruct (lookup_fs (fs w) (norm p)) as [[|[t|]]|]; reflexivity.
Qed.

Lemma read_text_not_outside (p : string) (w : World) (what : string) :
  fst (read_text p w) <> Outside what.
Proof.
  unfold read_text. intros H.
  destruct (io_fault w OpRead p); [discriminate H|].
  destruct (stat w p) as [[|[t|]]|]; discriminate H.
Qed.

Section Codec.
Variable Y : PyYAML.

Lemma parse_not_outside (text what : string) :
  parse_yaml_front_matter Y text <> Outside what.
Proof.
  unfold parse_yaml_front_matter. intros H.
  destruct (re_match YAML_FRONT_MATTER_REGEX text); [|discriminate H].
  destruct (safe_load Y _); [discriminate H|].
  destruct (is_YAMLError e); discriminate H.
Qed.

(** [load_note] returns: a note and the world as it was, or [None] and
    one more line printed. *)
Lemma load_note_returns (p : string) (w : World) :
  (exists n, load_note Y p w = (Ok (Some n), w))
  \/ (exists e, load_note Y p w
                = (Ok None, with_stdout w (stdout w ++ [ErrorLoadingNote p e]))).
Proof.
  unfold load_note, try_except, bind, lift, get_current_timestamp, ret, print.
  pose proof (read_text_world p w) as Hw.
  pose proof (read_text_not_outside p w) as Ho.
  destruct (read_text p w) as [[text| |] w1]; simpl in Hw, Ho; subst w1.
  - pose proof (parse_not_outside text) as Hp.
    destruct (parse_yaml_front_matter Y text) as [[metadata content]| |].
    + left. eauto.
    + right. eauto.
    + now destruct (Hp what).
  - right. eauto.
  - now destruct (Ho what).
Qed.

Lemma load_note_stdout (p : string) (w : World) (out : list line) :
  fst (load_note Y p (with_stdout w out)) = fst (load_note Y p w).
Proof.
  unfold load_note, try_except, bind, lift, get_current_timestamp, ret, print.
  pose proof (read_text_stdout p w out) as Hr.
  pose proof (read_text_world p (with_stdout w out)) as Hw1.
  pose proof (read_text_world p w) as Hw2.
  destruct (read_text p (with_stdout w out)) as [r1 w1].
  destruct (read_text p w) as [r2 w2]. simpl in Hr, Hw1, Hw2. subst r2 w1 w2.
  destruct r1 as [text| |]; [|reflexivity|reflexivity].
  destruct (parse_yaml_front_matter Y text) as [[metadata content]| |]; reflexivity.
Qed.

Lemma loaded_spec (p : string) (w : World) (out : list line) :
  exists out',
    load_note Y p (with_stdout w out) = (Ok (loaded Y w p), with_stdout w out').
Proof.
  unfold loaded. rewrite <- (load_note_stdout p w out).
  destruct (load_note_returns p (with_stdout w out)) as [[n ->]|[e ->]];
    simpl; eauto.
Qed.

(** The loop of [scan_notes_directory] keeps the notes that load. *)
Lemma scan_loop_spec (w : World) (md_files : list string) :
  forall (notes : list Note) (out : list line),
    fst (scan_loop Y md_files notes (with_stdout w out))
    = Ok (notes ++ omap (loaded Y w) md_files).
Proof.
  induction md_files as [|p md_files IH]; intros notes out; simpl.
  - now rewrite app_nil_r.
  - unfold bind. destruct (loaded_spec p w out) as [out' ->].
    rewrite IH. destruct (loaded Y w p); [|reflexivity].
    now rewrite <- app_assoc.
Qed.


Lemma parse_no_metadata (text : string) :
  (re_match YAML_FRONT_MATTER_REGEX text = None
   \/ exists m, re_match YAML_FRONT_MATTER_REGEX text = Some m /\ interior_fails Y m) ->
  exists content, parse_yaml_front_matter Y text = Ok ([], content).
Proof.
  unfold parse_yaml_front_matter.
  intros [->|(m & -> & [->|(v & -> & Hv)])]; simpl; eauto.
  destruct v; try discriminate; eauto.
Qed.

End Codec.

End StoreFacts.

(** ** The model on the texts of the repository *)

Module Examples.
Import PyStr Py OsPath Os Re Utils FileManager NoteSearch Spec Fixtures.

Example strip_text : strip "  a b  " = "a b".
Proof. reflexivity. Qed.

Example split_query : PyStr.split "  python   ideas " = ["python"; "ideas"].
Proof. reflexivity. Qed.

Example lower_title : lower "Project Ideas: Python" = "project ideas: python".
Proof. reflexivity. Qed.

Example join_fields : PyStr.join " " ["a"; "b"; "c"] = "a b c".
Proof. reflexivity. Qed.

Example splitext_names :
  splitext "no_front_matter.md" = ("no_front_matter", ".md")
  /\ splitext "a.b.md" = ("a.b", ".md")
  /\ splitext ".bashrc" = (".bashrc", "")
  /\ splitext "dir.d/file" = ("dir.d/file", "").
Proof. repeat split. Qed.

Example split_paths :
  OsPath.split "/notes/a.md" = ("/notes", "a.md")
  /\ OsPath.split "a.md" = ("", "a.md")
  /\ OsPath.split "/a" = ("/", "a").
Proof. repeat split. Qed.

(** The block of [test_07_load_note_partial_front_matter]. *)
Example match_partial :
  re_match YAML_FRONT_MATTER_REGEX
           (lines ["---"; "title: Partial Only"; "---"] +:+ "Content here.")
  = Some (Some (lines ["title: Partial Only"]), "Content here.").
Proof. reflexivity. Qed.

(** The white space after the opening dashes is greedy: of two empty
    lines it takes the first, and the group starts at the dashes that
    follow. *)
Example match_greedy_opening :
  re_match YAML_FRONT_MATTER_REGEX (lines ["---"; ""; "---"; "---"])
  = Some (Some (lines ["---"]), "").
Proof. reflexivity. Qed.

(** When that fails the matcher backs off, and the group is the empty
    line. *)
Example match_backtracks :
  re_match YAML_FRONT_MATTER_REGEX (lines ["---"; ""; "---"; "--"])
  = Some (Some (lines [""]), lines ["--"]).
Proof. reflexivity. Qed.

Example match_no_block :
  re_match YAML_FRONT_MATTER_REGEX (lines ["# Just Content"; "No YAML here."]) = None.
Proof. reflexivity. Qed.

(** [os.makedirs('')] raises: a note whose path has no directory part is
    not saved. *)
Example save_without_directory :
  fst (fst (save_note yaml_fixture
                      (mkNote "load_me.md" (VStr "Note to Load")
                              (VList [VStr "loading"; VStr "test"])
                              (VStr "2023-01-01T10:00:00Z")
                              (VStr "2023-01-01T11:00:00Z") "text")
                      world_empty))
  = Ok false.
Proof. reflexivity. Qed.

(** The notes folder of the examples: the text file and the hidden file
    are not enumerated, the file that is not UTF-8 does not load. *)
Example scan_example :
  map filepath
      (match fst (scan_notes_directory yaml_fixture "/notes" world_scan) with
       | Ok notes => notes
       | _ => []
       end)
  = ["/notes/partial.md"; "/notes/plain.md"].
Proof. reflexivity. Qed.

End Examples.

Module StoreTheorems.
Import PyStr Py Os Re Utils FileManager Spec Fixtures Extra PathFacts StoreFacts.

(** C1, what the code does: the slug expression calls a method [Gsub],
    which [str] does not have, so [create_new_note] raises
    [AttributeError] for every title, before it touches the file
    system. *)
Theorem create_new_note_raises Y notes_dir title tags content w :
  create_new_note Y notes_dir title tags content w
  = (Raise (AttributeError "str" "Gsub"), w).
Proof. reflexivity. Qed.

(** C5, as the code has it: for a path at which nothing exists
    [delete_note_file] returns [False], prints nothing and changes
    nothing; when the removal of an existing file fails it returns
    [False] as well, after printing one line with the error, and
    changes nothing else. *)
Theorem delete_missing_returns_false p w :
  exists_ w p = false ->
  delete_note_file p w = (Ok false, w)
  /\ forall w2 e,
       exists_ w2 p = true -> fst (remove p w2) = Raise e ->
       delete_note_file p w2
       = (Ok false, with_stdout w2 (stdout w2 ++ [ErrorDeletingNote p e])).
Proof.
  intros Hp. unfold delete_note_file, try_except, bind, ret, print. split.
  - now rewrite Hp.
  - intros w2 e Hex Hrm. rewrite Hex.
    assert (Hw : snd (remove p w2) = w2).
    { revert Hrm. unfold remove. destruct (io_fault w2 OpRemove p); [reflexivity|].
      destruct (stat w2 p) as [[|d]|]; [reflexivity|discriminate|reflexivity]. }
    destruct (remove p w2) as [r w3]. cbn [fst snd] in Hrm, Hw. now subst r w3.
Qed.

Lemma delete_missing_returns_false_witness :
  delete_note_file "/notes/a.md" world_empty = (Ok false, world_empty)
  /\ delete_note_file "/notes/a.md" world_locked
     = (Ok false,
        with_stdout world_locked
          [ErrorDeletingNote "/notes/a.md" (OSError PermissionError)]).
Proof.
  destruct (delete_missing_returns_false "/notes/a.md" world_empty eq_refl) as [H1 H2].
  split; [exact H1|].
  apply (H2 world_locked (OSError PermissionError)); reflexivity.
Defined.

(** C5 as the specification words it fails: a missing file and a file
    whose removal is refused give the same value. *)
Lemma delete_outcomes_coincide :
  ~ delete_distinguishes "/notes/a.md" world_empty world_locked.
Proof.
  intros H. apply H; [reflexivity|reflexivity| |reflexivity].
  exists (OSError PermissionError). reflexivity.
Qed.

(** C4, as the code has it: when the text starts with a front-matter
    block, an interior that is malformed YAML gives the empty mapping
    and the whole text; an interior that is YAML for a value other than
    a mapping gives the empty mapping and the text after the block.
    Neither raises. *)
Theorem front_matter_fallback Y text m :
  re_match YAML_FRONT_MATTER_REGEX text = Some m ->
  (safe_load Y (group1 m) = Raises YAMLError ->
   parse_yaml_front_matter Y text = Ok ([], text))
  /\ (forall v, safe_load Y (group1 m) = Returns v -> is_dict v = false ->
                parse_yaml_front_matter Y text = Ok ([], snd m)).
Proof.
  intros Hm. unfold parse_yaml_front_matter. rewrite Hm. split.
  - now intros ->.
  - intros v -> Hv. destruct v; try discriminate; reflexivity.
Qed.

Lemma front_matter_fallback_witness :
  parse_yaml_front_matter yaml_fixture text_malformed = Ok ([], text_malformed)
  /\ parse_yaml_front_matter yaml_fixture text_sequence = Ok ([], "Body").
Proof.
  destruct (front_matter_fallback yaml_fixture text_malformed
              (Some (lines ["title: Malformed"; "tags: [one, two"]), "Content.")
              eq_refl) as [H1 _].
  destruct (front_matter_fallback yaml_fixture text_sequence
              (Some (lines ["- a"]), "Body") eq_refl) as [_ H2].
  split; [apply H1; reflexivity|].
  apply (H2 (VList [VStr "a"])); reflexivity.
Defined.

(** C4 as the specification words it fails on a block that holds a
    sequence: the body is the text after the block, not the whole
    text. *)
Lemma sequence_block_is_stripped : ~ fallback_as_stated yaml_fixture text_sequence.
Proof.
  intros H.
  specialize (H (Some (lines ["- a"]), "Body") eq_refl).
  assert (Hi : interior_fails yaml_fixture (Some (lines ["- a"]), "Body")).
  { right. exists (VList [VStr "a"]). split; reflexivity. }
  specialize (H Hi). vm_compute in H. discriminate H.
Qed.

(** The defaults of [load_note]: when the file can be read and its text
    has no front-matter block, or a block whose interior is malformed
    YAML or YAML for a value that is not a mapping, [load_note] returns
    a note: the title is the base name without the extension, the tags
    are the empty list, [created] is the time of the clock and
    [updated] is [created]. *)
Theorem load_note_defaults Y w filepath text :
  fst (read_text filepath w) = Ok text ->
  (re_match YAML_FRONT_MATTER_REGEX text = None
   \/ exists m, re_match YAML_FRONT_MATTER_REGEX text = Some m /\ interior_fails Y m) ->
  exists content,
    load_note Y filepath w
    = (Ok (Some (mkNote filepath
                        (VStr (fst (OsPath.splitext (OsPath.basename filepath))))
                        (VList []) (VStr (utc_now w)) (VStr (utc_now w)) content)),
       w).
Proof.
  intros Hr Hm. destruct (parse_no_metadata Y text Hm) as [content Hp].
  exists content.
  unfold load_note, try_except, bind, lift, get_current_timestamp, ret.
  pose proof (read_text_world filepath w) as Hw.
  destruct (read_text filepath w) as [r w1]. simpl in Hr, Hw. subst r w1.
  now rewrite Hp.
Qed.

Lemma load_note_defaults_witness :
  exists content,
    load_note yaml_fixture "/notes/plain.md" world_scan
    = (Ok (Some (mkNote "/notes/plain.md" (VStr "plain") (VList [])
                        (VStr "2024-07-15T08:30:00+00:00")
                        (VStr "2024-07-15T08:30:00+00:00") content)),
       world_scan).
Proof.
  apply (load_note_defaults yaml_fixture world_scan "/notes/plain.md" "# Just Content").
  - reflexivity.
  - left. reflexivity.
Defined.

(** C6, what the code does: when the interior of the block makes
    [yaml.safe_load] raise an exception that is not a [YAMLError] (the
    [ValueError] of a date that does not exist),
    [parse_yaml_front_matter] does not handle it, and [load_note]
    returns [None] after printing it: the file is readable, its front
    matter does not parse, and no note with the defaults is made. *)
Theorem load_note_block_error Y w filepath text m e :
  fst (read_text filepath w) = Ok text ->
  re_match YAML_FRONT_MATTER_REGEX text = Some m ->
  safe_load Y (group1 m) = Raises e ->
  is_YAMLError e = false ->
  load_note Y filepath w
  = (Ok None, with_stdout w (stdout w ++ [ErrorLoadingNote filepath e])).
Proof.
  intros Hr Hm Hl He.
  unfold load_note, try_except, bind, lift, get_current_timestamp, ret, print.
  pose proof (read_text_world filepath w) as Hw.
  destruct (read_text filepath w) as [r w1]. cbn [fst snd] in Hr, Hw. subst r w1.
  unfold parse_yaml_front_matter. now rewrite Hm, Hl, He.
Qed.

Lemma load_note_block_error_witness :
  load_note yaml_dates "/notes/dated.md" world_dated
  = (Ok None,
     with_stdout world_dated [ErrorLoadingNote "/notes/dated.md" ValueError]).
Proof.
  apply (load_note_block_error yaml_dates world_dated "/notes/dated.md"
           (lines ["---"; "created: 2023-13-45"; "---"] +:+ "Body")
           (Some (lines ["created: 2023-13-45"]), "Body") ValueError);
    reflexivity.
Defined.




End StoreTheorems.

Module RoundTripTheorems.
Import PyStr Py Os Re Utils FileManager Spec Fixtures TextFacts ReFacts RoundTrip.

(** C2, as the code has it: when [save_note] returns [True], the file
    can be read, [yaml.dump] renders the metadata as a block text that
    [yaml.safe_load] reads back as the same mapping, there is no
    carriage return in that text or in the content, and the tags are not
    [None], then [load_note] on the path of the note returns a note with
    the same title, tags, [created] and [updated], whose content is the
    stripped content of the note. *)
Theorem save_load_roundtrip Y w note y :
  fst (fst (save_note Y note w)) = Ok true ->
  io_fault w OpRead (filepath note) = None ->
  dump Y (dumped_metadata note) = Returns y ->
  block_text y = true ->
  no_CR y = true ->
  safe_load Y y = Returns (VDict (note_metadata note)) ->
  no_CR (content note) = true ->
  is_None (tags note) = false ->
  roundtrip_as_stated Y w note
  /\ exists n,
       fst (load_note Y (filepath note) (snd (save_note Y note w))) = Ok (Some n)
       /\ content n = strip (content note).
Proof.
  intros Hsave Hread Hdump Hblock Hycr Hload Hccr Htags.
  destruct (save_note_success Y note w y Hdump Hsave) as [Hstat [Hfault Hclock]].
  set (w1 := snd (save_note Y note w)) in *.
  set (n := mkNote (filepath note) (title note) (tags note) (created note)
                   (updated note) (strip (content note))).
  assert (Hl : load_note Y (filepath note) w1 = (Ok (Some n), w1)).
  { unfold load_note, try_except, bind, lift, get_current_timestamp, ret.
    unfold read_text. rewrite Hfault, Hread, Hstat.
    rewrite universal_newlines_no_CR by now apply saved_text_no_CR.
    unfold parse_yaml_front_matter, saved_text.
    rewrite front_matter_match by (assumption || apply strip_head).
    cbn [group1 fst snd]. rewrite Hload.
    unfold Note_init, n. cbn. destruct (tags note); try reflexivity. discriminate Htags. }
  split.
  - exists n, w1. split; [exact Hl|].
    unfold same_fields, n. cbn. repeat split. apply strip_idem.
  - exists n. now rewrite Hl.
Qed.

Lemma save_load_roundtrip_witness :
  roundtrip_as_stated yaml_fixture world_empty (note_to_load "  Hello  ").
Proof.
  apply (save_load_roundtrip yaml_fixture world_empty (note_to_load "  Hello  ")
                             yaml_to_load); reflexivity.
Defined.

(** C2 as the specification words it fails on a content with a carriage
    return: the text is read back with a line feed in its place. *)
Lemma carriage_return_is_lost :
  ~ roundtrip_as_stated yaml_fixture world_empty note_cr.
Proof.
  intros (n & w' & Hl & _ & _ & _ & _ & Hc).
  vm_compute in Hl. injection Hl as <- _. vm_compute in Hc. discriminate Hc.
Qed.

End RoundTripTheorems.

(** ** More on the search index *)

Module IndexFacts.
Import PyStr Py Os FileManager NoteSearch Spec Fixtures Extra PyStrFacts SearchFacts TextFacts.
Local Arguments String.append !_ _ /.

Lemma lower_app (a b : string) : lower (a +:+ b) = lower a +:+ lower b.
Proof. induction a as [|c a IH]; cbn; [reflexivity|now rewrite IH]. Qed.

(** White space ends the run being read, and the split goes on from an
    empty run. *)
Lemma split_go_app (a b w : string) (c : ascii) :
  isspace c = true ->
  split_go w (a +:+ String c b) = split_go w a ++ split_go "" b.
Proof.
  intros Hc. revert w. induction a as [|x a IH]; intros w; cbn [String.append split_go].
  - rewrite Hc. now destruct (is_empty w).
  - destruct (isspace x).
    + destruct (is_empty w); rewrite IH; reflexivity.
    + apply IH.
Qed.

Lemma split_lower_join (q1 q2 : string) :
  split (lower (q1 +:+ " " +:+ q2)) = split (lower q1) ++ split (lower q2).
Proof.
  rewrite lower_app. cbn [String.append lower].
  unfold split. now apply split_go_app.
Qed.

(** A text without white space is its own single term. *)
Lemma split_go_no_space (s w : string) :
  no_space s = true -> is_empty (w +:+ s) = false -> split_go w s = [w +:+ s].
Proof.
  unfold no_space. revert w. induction s as [|c s IH]; intros w Hs Hne; cbn [split_go].
  - replace (w +:+ "") with w in * by (clear; induction w; cbn; congruence).
    now rewrite Hne.
  - cbn in Hs. apply andb_true_iff in Hs as [Hc Hs]. apply negb_true_iff in Hc.
    rewrite Hc. rewrite IH; [|exact Hs|].
    + now rewrite app_assoc_s.
    + rewrite app_assoc_s. exact Hne.
Qed.

Lemma no_space_lower (s : string) : no_space (lower s) = no_space s.
Proof.
  unfold no_space. induction s as [|c s IH]; cbn; [reflexivity|].
  now rewrite isspace_lower_char, IH.
Qed.

Lemma is_empty_lower (s : string) : is_empty (lower s) = is_empty s.
Proof. now destruct s. Qed.

Lemma split_single (tag : string) :
  no_space tag = true -> is_empty tag = false -> split (lower tag) = [lower tag].
Proof.
  intros Hs Hne. unfold split.
  rewrite split_go_no_space; [reflexivity|now rewrite no_space_lower|].
  cbn. now rewrite is_empty_lower.
Qed.

Lemma prefix_refl_app (x b : string) : String.prefix x (x +:+ b) = true.
Proof.
  induction x as [|c x IH]; cbn [String.append String.prefix]; [now destruct b|].
  destruct (ascii_dec c c); [exact IH|congruence].
Qed.

Lemma prefix_app (x s b : string) :
  String.prefix x s = true -> String.prefix x (s +:+ b) = true.
Proof.
  revert s. induction x as [|c x IH]; intros s H.
  - now destruct (s +:+ b).
  - destruct s as [|d s]; [discriminate H|]. cbn [String.append String.prefix] in H |- *.
    destruct (ascii_dec c d); [now apply IH|discriminate H].
Qed.

Lemma contains_app_r (x s b : string) :
  contains x s = true -> contains x (s +:+ b) = true.
Proof.
  induction s as [|c s IH]; intros H.
  - cbn [contains] in H. rewrite orb_false_r in H.
    destruct x; [|discriminate H]. now destruct ("" +:+ b).
  - cbn [contains String.append] in H |- *. apply orb_true_iff in H as [H|H].
    + change (String c (s +:+ b)) with (String c s +:+ b).
      now rewrite prefix_app.
    + rewrite IH by exact H. apply orb_true_r.
Qed.

Lemma contains_app_l (x a s : string) :
  contains x s = true -> contains x (a +:+ s) = true.
Proof.
  intros H. induction a as [|c a IH]; cbn [String.append]; [exact H|].
  cbn [contains]. rewrite IH. apply orb_true_r.
Qed.

Lemma contains_refl (x : string) : contains x x = true.
Proof.
  destruct x as [|c x]; [reflexivity|]. cbn [contains].
  pose proof (prefix_refl_app (String c x) "") as H.
  replace (String c x +:+ "") with (String c x) in H
    by (clear; induction (String c x); cbn; congruence).
  now rewrite H.
Qed.

(** A text of the list occurs in the list joined. *)
Lemma contains_join (sep x : string) (l : list string) :
  In x l -> contains x (join sep l) = true.
Proof.
  induction l as [|y l IH]; [intros []|]. intros [->|Hin].
  - cbn [join]. destruct l; [apply contains_refl|].
    apply contains_app_r, contains_refl.
  - specialize (IH Hin). cbn [join]. destruct l as [|z l]; [destruct Hin|].
    apply contains_app_l, contains_app_l. exact IH.
Qed.

Lemma existsb_eqb_In (x : string) (l : list string) :
  existsb (String.eqb x) l = true <-> In x l.
Proof.
  rewrite existsb_exists. split.
  - intros (y & Hy & E). apply String.eqb_eq in E. now subst.
  - intros H. exists x. split; [exact H|apply String.eqb_refl].
Qed.

(** The tags an item stores are the tags of its note, lower-cased. *)
Lemma make_item_tags (n : Note) (it : item) :
  make_item n = Ok it -> item_tags it = map lower (strs_of (tags n)).
Proof.
  unfold make_item. intros H.
  destruct (title n) as [| | |s| | |]; simpl in H; try discriminate.
  unfold strs_of. destruct (iter (tags n)) as [l| |]; try discriminate.
  destruct (lower_all l) as [ts| |] eqn:El; try discriminate.
  injection H as <-. simpl. now apply lower_all_spec in El as [-> _].
Qed.

Lemma filter_items (tag : string) (notes : list Note) (its : list item) :
  Forall2 (fun n it => make_item n = Ok it) notes its ->
  map original_note
      (filter (fun it => existsb (String.eqb (lower tag)) (item_tags it)) its)
  = filter (fun n => carries_tag tag n) notes.
Proof.
  induction 1 as [|n it notes its H _ IH]; [reflexivity|].
  pose proof (make_item_tags n it H) as Ht.
  apply make_item_spec in H as (_ & Horig & _).
  assert (Hc : carries_tag tag n = existsb (String.eqb (lower tag)) (item_tags it))
    by (unfold carries_tag; now rewrite Ht).
  destruct (existsb (String.eqb (lower tag)) (item_tags it)) eqn:E.
  - rewrite (filter_cons_True _ it) by (now rewrite E).
    rewrite (filter_cons_True _ n) by (now rewrite Hc).
    cbn [map]. now rewrite Horig, IH.
  - rewrite (filter_cons_False _ it) by (now rewrite E).
    rewrite (filter_cons_False _ n) by (now rewrite Hc).
    exact IH.
Qed.

Lemma has_tag_strs (n : Note) (it : item) (t : string) :
  make_item n = Ok it -> (has_tag n t <-> In t (strs_of (tags n))).
Proof.
  intros H. apply make_item_spec in H as (_ & _ & _ & l & Hl & HF).
  unfold has_tag, strs_of. rewrite Hl. split.
  - intros (l' & [= <-] & Hin). apply list_elem_of_In in Hin.
    apply (in_map str_of) in Hin. exact Hin.
  - intros Hin. exists l. split; [reflexivity|].
    apply in_map_iff in Hin as (v & <- & Hv).
    rewrite Forall_forall in HF. apply list_elem_of_In in Hv.
    destruct (HF v Hv) as [s ->]. exact Hv.
Qed.

Lemma carries_tag_spec (tag : string) (n : Note) (it : item) :
  make_item n = Ok it ->
  (carries_tag tag n = true <-> exists t, has_tag n t /\ lower t = lower tag).
Proof.
  intros H. unfold carries_tag. rewrite existsb_eqb_In, in_map_iff. split.
  - intros (t & E & Hin). exists t. split; [|exact E].
    now apply (has_tag_strs n it t H).
  - intros (t & Ht & E). exists t. split; [exact E|].
    now apply (has_tag_strs n it t H).
Qed.

Lemma first_of_each_path_sublist (l : list Note) : sublist (first_of_each_path l) l.
Proof.
  induction l as [|n l IH]; cbn [first_of_each_path]; [constructor|].
  constructor. etrans; [apply sublist_filter|exact IH].
Qed.

Lemma first_of_each_path_paths (l : list Note) :
  NoDup (map filepath (first_of_each_path l)).
Proof.
  induction l as [|n l IH]; cbn [first_of_each_path map]; [constructor|].
  apply NoDup_cons. split.
  - intros Hin. apply list_elem_of_fmap in Hin as (m & E & Hm).
    apply list_elem_of_filter in Hm as [Hne _]. congruence.
  - apply NoDup_map_filter. exact IH.
Qed.

Lemma build_loop_raises (notes1 : list Note) (n : Note) (notes2 : list Note)
  (its data0 : list item) (e : exn) :
  Forall2 (fun n it => make_item n = Ok it) notes1 its ->
  make_item n = Raise e ->
  build_loop (notes1 ++ n :: notes2) data0 = (Raise e, data0 ++ its).
Proof.
  intros HF Hn. revert data0.
  induction HF as [|m it notes1 its H _ IH]; intros data0; cbn [app build_loop].
  - now rewrite Hn, app_nil_r.
  - rewrite H, IH. now rewrite <- app_assoc.
Qed.

Lemma chars_strs (s : string) : map str_of (chars s) = char_texts s.
Proof. induction s as [|c s IH]; cbn; [reflexivity|now rewrite IH]. Qed.

Lemma char_texts_length (s t : string) :
  In t (map lower (char_texts s)) -> String.length t = 1.
Proof.
  induction s as [|c s IH]; cbn; [tauto|]. intros [<-|H]; [reflexivity|auto].
Qed.

End IndexFacts.

Module IndexFacts2.
Import PyStr Py Os FileManager NoteSearch Spec Fixtures Extra PyStrFacts SearchFacts TextFacts IndexFacts Gui.
Local Arguments String.append !_ _ /.

Lemma spec_matches_blank (query : string) (t g c : bool) (n : Note) :
  has_term query = false -> spec_matches query t g c n = true.
Proof.
  unfold has_term, spec_matches, split. intros H. apply negb_false_iff in H.
  rewrite <- all_chars_isspace_lower in H.
  assert (Hs : forall s w, all_chars isspace s = true -> is_empty w = true ->
                           split_go w s = []).
  { induction s as [|x s IH]; intros w Hs Hw; cbn [split_go all_chars] in *.
    - now rewrite Hw.
    - apply andb_true_iff in Hs as [Hx Hs]. rewrite Hx, Hw. now apply IH. }
  now rewrite Hs.
Qed.

(** On notes with pairwise different paths [search] is a filter, for
    every query. *)
Lemma search_filter_NoDup (notes : list Note) (idx : SearchIndex)
  (query : string) (t g c : bool) :
  Forall2 (fun n it => make_item n = Ok it) notes (notes_data idx) ->
  NoDup (map filepath notes) ->
  search idx query t g c = filter (fun n => spec_matches query t g c n) notes.
Proof.
  intros Hidx Hnd. destruct (has_term query) eqn:Hq.
  - rewrite search_terms by exact Hq.
    rewrite (search_loop _ _ _ _ _ _ Hidx). cbn [app].
    rewrite filter_all by (intros n; apply not_elem_of_empty).
    apply first_of_each_path_NoDup, NoDup_map_filter. exact Hnd.
  - rewrite search_blank by exact Hq. rewrite (items_originals _ _ Hidx).
    symmetry. apply filter_all. intros n. now rewrite spec_matches_blank.
Qed.

Lemma search_selection (notes : list Note) (idx : SearchIndex)
  (query : string) (t g c : bool) :
  Forall2 (fun n it => make_item n = Ok it) notes (notes_data idx) ->
  has_term query = true ->
  search idx query t g c
  = first_of_each_path (filter (fun n => spec_matches query t g c n) notes).
Proof.
  intros Hidx Hq. rewrite search_terms by exact Hq.
  rewrite (search_loop _ _ _ _ _ _ Hidx). cbn [app].
  apply filter_all. intros n. apply not_elem_of_empty.
Qed.

Lemma filter_by_tag_filter (notes : list Note) (idx : SearchIndex) (tag : string) :
  Forall2 (fun n it => make_item n = Ok it) notes (notes_data idx) ->
  filter_by_tag idx tag
  = if has_term tag then filter (fun n => carries_tag tag n) notes else notes.
Proof.
  intros Hidx. unfold filter_by_tag, has_term. rewrite strip_empty.
  destruct (all_chars isspace tag); cbn [negb].
  - now apply items_originals.
  - now apply filter_items.
Qed.

Lemma items_of_notes (notes : list Note) (its : list item) (n : Note) :
  Forall2 (fun n it => make_item n = Ok it) notes its ->
  n ∈ notes -> exists it, make_item n = Ok it.
Proof.
  induction 1 as [|m it notes its H _ IH]; intros Hn.
  - now apply elem_of_nil in Hn.
  - apply elem_of_cons in Hn as [->|Hn]; eauto.
Qed.

Lemma length_lower (s : string) : String.length (lower s) = String.length s.
Proof. induction s as [|c s IH]; cbn; [reflexivity|now rewrite IH]. Qed.

Lemma find_first (notes : list Note) (p : string) (n : Note) :
  find_note_by_filepath notes p = Some n -> n ∈ notes /\ filepath n = p.
Proof.
  induction notes as [|m notes IH]; cbn [find_note_by_filepath]; [discriminate|].
  destruct (String.eqb (filepath m) p) eqn:E.
  - intros [= <-]. apply String.eqb_eq in E. split; [apply elem_of_cons; now left|exact E].
  - intros H. destruct (IH H) as [Hin Hp]. split; [apply elem_of_cons; now right|exact Hp].
Qed.

Lemma find_none (notes : list Note) (p : string) :
  find_note_by_filepath notes p = None <-> p ∉ map filepath notes.
Proof.
  induction notes as [|m notes IH]; cbn [find_note_by_filepath map].
  - split; [intros _; apply not_elem_of_nil|reflexivity].
  - rewrite not_elem_of_cons. destruct (String.eqb (filepath m) p) eqn:E.
    + apply String.eqb_eq in E. split; [discriminate|intros [Hne _]; congruence].
    + apply String.eqb_neq in E. rewrite IH. split; [intros H; split; congruence|tauto].
Qed.

Lemma find_member (notes : list Note) (n : Note) :
  NoDup (map filepath notes) -> n ∈ notes ->
  find_note_by_filepath notes (filepath n) = Some n.
Proof.
  induction notes as [|m notes IH]; intros Hnd Hn; [now apply elem_of_nil in Hn|].
  cbn [map] in Hnd. apply NoDup_cons in Hnd as [Hm Hnd].
  cbn [find_note_by_filepath]. apply elem_of_cons in Hn as [->|Hn].
  - now rewrite String.eqb_refl.
  - destruct (String.eqb (filepath m) (filepath n)) eqn:E; [|now apply IH].
    apply String.eqb_eq in E. exfalso. apply Hm. rewrite E.
    apply list_elem_of_fmap. eauto.
Qed.

End IndexFacts2.

Module IndexTheorems.
Import PyStr Py Os FileManager NoteSearch Spec Fixtures Extra Gui.
Import PyStrFacts SearchFacts TextFacts IndexFacts IndexFacts2.

(** X1: on an index built from [notes], [filter_by_tag] with a tag that
    is empty or white space returns the indexed notes; otherwise it
    returns, in the order of the build and without leaving out notes
    that share a path, the notes one of whose tags equals the tag when
    both are lower-cased. *)
Theorem filter_by_tag_exact self notes w idx tag :
  indexed self notes w idx ->
  (has_term tag = false -> filter_by_tag idx tag = notes)
  /\ (has_term tag = true ->
      filter_by_tag idx tag = filter (fun n => carries_tag tag n) notes
      /\ forall n, n ∈ filter_by_tag idx tag
                   <-> n ∈ notes /\ exists t, has_tag n t /\ lower t = lower tag).
Proof.
  intros Hidx. apply indexed_items in Hidx.
  rewrite (filter_by_tag_filter notes idx tag Hidx).
  split; intros ->; [reflexivity|]. split; [reflexivity|].
  intros n. rewrite list_elem_of_filter. split.
  - intros [Hc Hn]. split; [exact Hn|].
    destruct (items_of_notes _ _ n Hidx Hn) as [it Hit].
    apply (carries_tag_spec tag n it Hit). now apply Is_true_true.
  - intros [Hn Ht]. split; [|exact Hn].
    destruct (items_of_notes _ _ n Hidx Hn) as [it Hit].
    apply Is_true_true. now apply (carries_tag_spec tag n it Hit).
Qed.

Lemma filter_by_tag_exact_witness :
  filter_by_tag (index_of [note_web; note_ideas]) "  " = [note_web; note_ideas]
  /\ filter_by_tag (index_of [note_web; note_ideas]) "IDEAS" = [note_ideas].
Proof.
  destruct (filter_by_tag_exact new_index [note_web; note_ideas] world_empty
              (index_of [note_web; note_ideas]) "  " eq_refl) as [H1 _].
  destruct (filter_by_tag_exact new_index [note_web; note_ideas] world_empty
              (index_of [note_web; note_ideas]) "IDEAS" eq_refl) as [_ H2].
  split; [apply H1; reflexivity|].
  destruct (H2 eq_refl) as [-> _]. reflexivity.
Defined.

(** X2: what [search] returns is a sublist of the indexed notes, in
    their order, and for a query with a term no two notes returned have
    the same path. *)
Theorem search_returns_distinct_paths self notes w idx query t g c :
  indexed self notes w idx ->
  sublist (search idx query t g c) notes
  /\ (has_term query = true -> NoDup (map filepath (search idx query t g c))).
Proof.
  intros Hidx. apply indexed_items in Hidx.
  destruct (has_term query) eqn:Hq.
  - rewrite (search_selection notes idx query t g c Hidx Hq). split.
    + etrans; [apply first_of_each_path_sublist|apply sublist_filter].
    + intros _. apply first_of_each_path_paths.
  - rewrite search_blank by exact Hq. rewrite (items_originals _ _ Hidx).
    split; [reflexivity|discriminate].
Qed.

Lemma search_returns_distinct_paths_witness :
  sublist (search (index_of [note_twin "Python A"; note_twin "Python B"]) "python"
                  true true true)
          [note_twin "Python A"; note_twin "Python B"]
  /\ NoDup (map filepath
               (search (index_of [note_twin "Python A"; note_twin "Python B"]) "python"
                       true true true)).
Proof.
  destruct (search_returns_distinct_paths new_index
              [note_twin "Python A"; note_twin "Python B"] world_empty
              (index_of [note_twin "Python A"; note_twin "Python B"])
              "python" true true true eq_refl) as [H1 H2].
  split; [exact H1|apply H2; reflexivity].
Defined.

(** X3: when the indexed notes have pairwise different paths, a query
    made of two queries with a space between them returns the notes that
    the first query returns and that match the second: the terms are
    conjoined. *)
Theorem search_conjoins_queries self notes w idx q1 q2 t g c :
  indexed self notes w idx ->
  NoDup (map filepath notes) ->
  search idx (q1 +:+ " " +:+ q2) t g c
  = filter (fun n => spec_matches q2 t g c n) (search idx q1 t g c).
Proof.
  intros Hidx Hnd. apply indexed_items in Hidx.
  rewrite !(search_filter_NoDup notes idx _ t g c Hidx Hnd).
  rewrite list_filter_filter. apply list_filter_iff. intros n.
  unfold spec_matches. rewrite split_lower_join, forallb_app.
  rewrite andb_True. tauto.
Qed.

Lemma search_conjoins_queries_witness :
  search (index_of [note_web; note_ideas]) ("python" +:+ " " +:+ "ideas") true true true
  = filter (fun n => spec_matches "ideas" true true true n)
           (search (index_of [note_web; note_ideas]) "python" true true true).
Proof.
  apply (search_conjoins_queries new_index [note_web; note_ideas] world_empty
           (index_of [note_web; note_ideas]) "python" "ideas" true true true eq_refl).
  apply (bool_decide_unpack _). vm_compute. exact I.
Defined.

(** X4: the letter case of the query and of the tag does not matter:
    two queries, or two tags, with the same lower-casing give the same
    result, on any index. *)
Theorem search_ignores_case idx q1 q2 :
  lower q1 = lower q2 ->
  (forall t g c, search idx q1 t g c = search idx q2 t g c)
  /\ filter_by_tag idx q1 = filter_by_tag idx q2.
Proof.
  intros E.
  assert (Hs : all_chars isspace q1 = all_chars isspace q2).
  { rewrite <- (all_chars_isspace_lower q1), <- (all_chars_isspace_lower q2).
    now rewrite E. }
  split.
  - intros t g c. unfold search. rewrite !strip_empty, Hs, E. reflexivity.
  - unfold filter_by_tag. rewrite !strip_empty, Hs, E. reflexivity.
Qed.

Lemma search_ignores_case_witness :
  search (index_of [note_web; note_ideas]) "PYTHON Ideas" true true true
  = search (index_of [note_web; note_ideas]) "python ideas" true true true.
Proof.
  destruct (search_ignores_case (index_of [note_web; note_ideas])
              "PYTHON Ideas" "python ideas" eq_refl) as [H _].
  apply H.
Defined.

(** X5: every tag that [get_all_tags] lists selects a note that carries
    it: [filter_by_tag] with that tag is not empty. *)
Theorem listed_tag_selects_a_note self notes w idx ts t :
  indexed self notes w idx ->
  get_all_tags idx = Ok ts ->
  t ∈ ts ->
  exists n, n ∈ filter_by_tag idx t /\ has_tag n t.
Proof.
  intros Hidx Hts Ht. apply indexed_items in Hidx.
  destruct (collect_tags_spec _ _ Hidx ∅) as (S & HS & Hmem).
  unfold get_all_tags in Hts. rewrite HS in Hts. injection Hts as <-.
  rewrite merge_sort_Permutation, elem_of_elements, Hmem in Ht.
  destruct Ht as [Ht|(n & Hn & Hnt)]; [now apply not_elem_of_empty in Ht|].
  exists n. split; [|exact Hnt].
  rewrite (filter_by_tag_filter notes idx t Hidx).
  destruct (has_term t); [|exact Hn].
  apply list_elem_of_filter. split; [|exact Hn].
  destruct (items_of_notes _ _ n Hidx Hn) as [it Hit].
  apply Is_true_true. apply (carries_tag_spec t n it Hit). eauto.
Qed.

Lemma listed_tag_selects_a_note_witness :
  exists n, n ∈ filter_by_tag (index_of [note_web; note_ideas]) "web"
            /\ has_tag n "web".
Proof.
  apply (listed_tag_selects_a_note new_index [note_web; note_ideas] world_empty
           (index_of [note_web; note_ideas]) ["ideas"; "python"; "web"] "web").
  - reflexivity.
  - vm_compute. reflexivity.
  - apply (bool_decide_unpack _). vm_compute. exact I.
Defined.

(** X6: when the indexed notes have pairwise different paths and the tag
    is one word, a note that [filter_by_tag] selects is among the notes
    that [search] returns for that word with the tags switched on. *)
Theorem tag_filter_within_search self notes w idx tag n :
  indexed self notes w idx ->
  NoDup (map filepath notes) ->
  no_space tag = true -> is_empty tag = false ->
  n ∈ filter_by_tag idx tag ->
  forall t c, n ∈ search idx tag t true c.
Proof.
  intros Hidx Hnd Hsp Hne Hn t c. apply indexed_items in Hidx.
  rewrite (search_filter_NoDup notes idx tag t true c Hidx Hnd).
  rewrite (filter_by_tag_filter notes idx tag Hidx) in Hn.
  assert (Hq : has_term tag = true).
  { unfold has_term. apply negb_true_iff.
    destruct tag as [|x tag]; [discriminate Hne|]. cbn in Hsp |- *.
    apply andb_true_iff in Hsp as [Hx _]. apply negb_true_iff in Hx. now rewrite Hx. }
  rewrite Hq in Hn. apply list_elem_of_filter in Hn as [Hc Hn].
  apply list_elem_of_filter. split; [|exact Hn].
  apply Is_true_true in Hc. apply Is_true_true.
  unfold spec_matches. rewrite (split_single tag Hsp Hne). cbn [forallb].
  rewrite andb_true_r. unfold spec_text. apply contains_join.
  apply in_or_app. right. apply in_or_app. left.
  unfold carries_tag in Hc. now apply existsb_eqb_In in Hc.
Qed.

Lemma tag_filter_within_search_witness :
  note_ideas ∈ search (index_of [note_web; note_ideas]) "Ideas" false true false.
Proof.
  apply (tag_filter_within_search new_index [note_web; note_ideas] world_empty
           (index_of [note_web; note_ideas]) "Ideas" note_ideas).
  - reflexivity.
  - apply (bool_decide_unpack _). vm_compute. exact I.
  - reflexivity.
  - reflexivity.
  - vm_compute. apply list_elem_of_here.
Defined.

(** X7: [build_index] raises [AttributeError] at the first note whose
    title is not a [str], prints nothing, and leaves in the index the
    items of the notes before it. *)
Theorem build_index_rejects_title self0 w0 self notes1 idx1 n notes2 w :
  indexed self0 notes1 w0 idx1 ->
  is_str (title n) = false ->
  build_index self (notes1 ++ n :: notes2) w
  = ((Raise (AttributeError (type_name (title n)) "lower"),
      mkSearchIndex (notes_data idx1) []), w).
Proof.
  intros Hidx Hn. apply indexed_items in Hidx.
  assert (Hr : make_item n = Raise (AttributeError (type_name (title n)) "lower")).
  { unfold make_item. destruct (title n); try reflexivity. discriminate Hn. }
  unfold build_index.
  rewrite (build_loop_raises notes1 n notes2 (notes_data idx1) [] _ Hidx Hr).
  reflexivity.
Qed.

Lemma build_index_rejects_title_witness :
  build_index new_index ([note_web] ++ note_numbered :: [note_ideas]) world_empty
  = ((Raise (AttributeError "int" "lower"),
      mkSearchIndex (notes_data (index_of [note_web])) []), world_empty).
Proof.
  apply (build_index_rejects_title new_index world_empty new_index [note_web]
           (index_of [note_web]) note_numbered [note_ideas] world_empty);
    reflexivity.
Defined.

(** X8: a note whose tags are one text of two characters or more, not a
    list, is indexed character by character, and [filter_by_tag] with
    that text does not select it. *)
Theorem scalar_tags_not_selected self notes w idx n s :
  indexed self notes w idx ->
  n ∈ notes ->
  tags n = VStr s ->
  2 <= String.length s ->
  has_term s = true ->
  (n ∉ filter_by_tag idx s)
  /\ forall t, has_tag n t -> String.length t = 1.
Proof.
  intros Hidx Hn Ht Hlen Hq. apply indexed_items in Hidx.
  assert (Hone : forall t, In t (map lower (strs_of (tags n))) -> String.length t = 1).
  { intros t. unfold strs_of. rewrite Ht. cbn [iter]. rewrite chars_strs.
    apply char_texts_length. }
  split.
  - rewrite (filter_by_tag_filter notes idx s Hidx), Hq.
    intros Hin. apply list_elem_of_filter in Hin as [Hc _].
    apply Is_true_true in Hc. unfold carries_tag in Hc.
    apply existsb_eqb_In in Hc. apply Hone in Hc. rewrite length_lower in Hc. lia.
  - intros t (l & Hl & Hin). rewrite Ht in Hl. cbn [iter] in Hl. injection Hl as <-.
    clear -Hin. induction s as [|x s IH]; cbn [chars] in Hin.
    + now apply elem_of_nil in Hin.
    + apply elem_of_cons in Hin as [[= ->]|Hin]; [reflexivity|auto].
Qed.

Lemma scalar_tags_not_selected_witness :
  note_scalar_tags ∉ filter_by_tag (index_of [note_scalar_tags]) "python".
Proof.
  destruct (scalar_tags_not_selected new_index [note_scalar_tags] world_empty
              (index_of [note_scalar_tags]) note_scalar_tags "python") as [H _].
  - reflexivity.
  - apply list_elem_of_here.
  - reflexivity.
  - vm_compute. lia.
  - reflexivity.
  - exact H.
Defined.

(** X9: [_find_note_by_filepath] returns a note of the list with that
    path, the first one, and [None] exactly when no note of the list has
    it; when the paths of the list differ and an index is built from it,
    every note that [search] returns is the note found for its path. *)
Theorem find_note_by_filepath_resolves notes p :
  (forall n, find_note_by_filepath notes p = Some n -> n ∈ notes /\ filepath n = p)
  /\ (find_note_by_filepath notes p = None <-> p ∉ map filepath notes)
  /\ (NoDup (map filepath notes) ->
      forall self w idx query t g c n,
        indexed self notes w idx ->
        n ∈ search idx query t g c ->
        find_note_by_filepath notes (filepath n) = Some n).
Proof.
  split; [apply find_first|]. split; [apply find_none|].
  intros Hnd self w idx query t g c n Hidx Hn. apply indexed_items in Hidx.
  apply find_member; [exact Hnd|].
  rewrite (search_filter_NoDup notes idx query t g c Hidx Hnd) in Hn.
  now apply list_elem_of_filter in Hn as [_ Hn].
Qed.

Lemma find_note_by_filepath_resolves_witness :
  find_note_by_filepath [note_web; note_ideas] (filepath note_ideas) = Some note_ideas.
Proof.
  destruct (find_note_by_filepath_resolves [note_web; note_ideas] "") as (_ & _ & H).
  assert (Hnd : NoDup (map filepath [note_web; note_ideas])).
  { apply (bool_decide_unpack _). vm_compute. exact I. }
  apply (H Hnd new_index world_empty
           (index_of [note_web; note_ideas]) "ideas" true true true note_ideas eq_refl).
  vm_compute. apply list_elem_of_here.
Defined.

End IndexTheorems.

(** ** The file system under [save_note] and [delete_note_file] *)

Module OsFacts.
Import PyStr Py OsPath Os Utils FileManager Spec Extra RoundTrip StoreFacts.
Local Arguments String.append !_ _ /.

Lemma rsplit_slash_length (p : string) :
  String.length (fst (rsplit_slash p)) + String.length (snd (rsplit_slash p))
  = String.length p.
Proof.
  induction p as [|c p IH]; [reflexivity|]. cbn [rsplit_slash].
  destruct (rsplit_slash p) as [h t]. cbn [fst snd] in IH.
  destruct h as [|x h]; cbn [is_empty].
  - destruct (is_slash c); cbn in *; lia.
  - cbn in *. lia.
Qed.

Lemma rstrip_slash_length (s : string) :
  String.length (rstrip_slash s) <= String.length s.
Proof.
  induction s as [|c s IH]; [reflexivity|]. cbn [rstrip_slash].
  destruct (rstrip_slash s) as [|x r].
  - destruct (is_slash c); cbn; lia.
  - cbn in *. lia.
Qed.

Lemma split_length (p : string) :
  String.length (fst (split p)) + String.length (snd (split p)) <= String.length p.
Proof.
  unfold split. pose proof (rsplit_slash_length p) as H.
  destruct (rsplit_slash p) as [h t]. cbn [fst snd] in *.
  destruct (negb (is_empty h) && negb (all_chars is_slash h)); [|lia].
  pose proof (rstrip_slash_length h). lia.
Qed.

Lemma is_empty_length (s : string) : is_empty s = false -> 1 <= String.length s.
Proof. destruct s; [discriminate|cbn; lia]. Qed.

Lemma mkdir_not_outside (p : string) (w : World) (what : string) :
  fst (mkdir p w) <> Outside what.
Proof.
  unfold mkdir. intros H. destruct (io_fault w OpMkdir p); [discriminate H|].
  destruct (is_empty p); [discriminate H|].
  destruct (exists_ w p); [discriminate H|].
  destruct (parent_check w p); discriminate H.
Qed.

(** [os.makedirs] returns or raises: the head of a path is shorter than
    the path, so the recursion ends within the length of the name. *)
Lemma makedirs_go_total (fuel : nat) :
  forall (name : string) (w : World) (what : string),
    String.length name < fuel -> fst (makedirs_go fuel name w) <> Outside what.
Proof.
  induction fuel as [|fuel IH]; intros name w what Hlen; [lia|].
  cbn [makedirs_go].
  pose proof (split_length name) as Hs.
  destruct (OsPath.split name) as [head tail]. cbn [fst snd] in Hs.
  assert (Hmake : forall w0,
    fst (match mkdir name w0 with
         | (Raise (OSError e), w') =>
             if isdir w' name then (Ok tt, w') else (Raise (OSError e), w')
         | r => r
         end) <> Outside what).
  { intros w0. pose proof (mkdir_not_outside name w0 what) as H.
    destruct (mkdir name w0) as [[[]|[]|] w']; cbn [fst] in *; try exact H;
      try discriminate. destruct (isdir w' name); discriminate. }
  assert (Hhead : forall head' tail',
    (if is_empty tail then OsPath.split head else (head, tail)) = (head', tail') ->
    is_empty tail' = false -> String.length head' < fuel).
  { intros head' tail' E Ht. destruct (is_empty tail) eqn:Et.
    - pose proof (split_length head) as Hs'. rewrite E in Hs'. cbn [fst snd] in Hs'.
      apply is_empty_length in Ht. lia.
    - injection E as <- <-. apply is_empty_length in Ht. lia. }
  destruct (if is_empty tail then OsPath.split head else (head, tail))
    as [head' tail'] eqn:E.
  destruct (negb (is_empty head') && negb (is_empty tail') && negb (exists_ w head'))
    eqn:Ec; [|apply Hmake].
  apply andb_true_iff in Ec as [Ec _]. apply andb_true_iff in Ec as [_ Ht].
  apply negb_true_iff in Ht.
  pose proof (IH head' w) as IH'.
  destruct (makedirs_go fuel head' w) as [[[]|e|what'] w1]; cbn [fst] in IH'.
  - destruct (String.eqb tail' "."); [discriminate|apply Hmake].
  - destruct e as [| | |[]| |]; try discriminate.
    destruct (String.eqb tail' "."); [discriminate|apply Hmake].
  - exfalso. apply (IH' what'); [now apply (Hhead head' tail')|reflexivity].
Qed.

Lemma lookup_fs_app (l : list (string * node)) (p q : string) (n m : node) :
  lookup_fs l q = Some n -> lookup_fs (l ++ [(p, m)]) q = Some n.
Proof.
  induction l as [|[k v] l IH]; cbn [lookup_fs app]; [discriminate|].
  destruct (String.eqb k q); [trivial|exact IH].
Qed.

Lemma lookup_set_fs_other (l : list (string * node)) (p q : string) (n : node) :
  q <> p -> lookup_fs (set_fs l p n) q = lookup_fs l q.
Proof.
  intros Hq. induction l as [|[k v] l IH]; cbn [lookup_fs set_fs].
  - destruct (String.eqb p q) eqn:E; [|reflexivity].
    apply String.eqb_eq in E. congruence.
  - destruct (String.eqb k p) eqn:E; cbn [lookup_fs].
    + apply String.eqb_eq in E. subst k.
      destruct (String.eqb p q) eqn:E'; [|reflexivity].
      apply String.eqb_eq in E'. congruence.
    + destruct (String.eqb k q); [reflexivity|exact IH].
Qed.

Lemma lookup_remove_fs (l : list (string * node)) (p : string) :
  lookup_fs (remove_fs l p) p = None.
Proof.
  induction l as [|[k v] l IH]; cbn [lookup_fs remove_fs]; [reflexivity|].
  destruct (String.eqb k p) eqn:E; [exact IH|]. cbn [lookup_fs]. now rewrite E.
Qed.

Lemma lookup_remove_fs_other (l : list (string * node)) (p q : string) :
  q <> p -> lookup_fs (remove_fs l p) q = lookup_fs l q.
Proof.
  intros Hq. induction l as [|[k v] l IH]; cbn [lookup_fs remove_fs]; [reflexivity|].
  destruct (String.eqb k p) eqn:E.
  - apply String.eqb_eq in E. subst k.
    destruct (String.eqb p q) eqn:E'; [|exact IH].
    apply String.eqb_eq in E'. congruence.
  - cbn [lookup_fs]. destruct (String.eqb k q); [reflexivity|exact IH].
Qed.

(** What [stat] answers rests on one entry of the file system. *)
Lemma stat_kept (w w' : World) (q : string) (n : node) :
  (lookup_fs (fs w) (norm q) = Some n -> lookup_fs (fs w') (norm q) = Some n) ->
  stat w q = Some n -> stat w' q = Some n.
Proof.
  unfold stat. intros H. destruct (is_empty q); [trivial|].
  destruct (String.eqb (norm q) "/"); [trivial|exact H].
Qed.

Lemma stat_same (w w' : World) (q : string) :
  lookup_fs (fs w') (norm q) = lookup_fs (fs w) (norm q) -> stat w' q = stat w q.
Proof.
  unfold stat. intros H. destruct (is_empty q); [reflexivity|].
  destruct (String.eqb (norm q) "/"); [reflexivity|exact H].
Qed.

(** [os.mkdir] adds an entry or does nothing, and prints nothing. *)
Lemma mkdir_keeps (p : string) (w : World) :
  (forall q n, lookup_fs (fs w) q = Some n ->
               lookup_fs (fs (snd (mkdir p w))) q = Some n)
  /\ stdout (snd (mkdir p w)) = stdout w.
Proof.
  unfold mkdir. destruct (io_fault w OpMkdir p); [now split|].
  destruct (is_empty p); [now split|].
  destruct (exists_ w p); [now split|].
  destruct (parent_check w p); [now split|]. cbn. split; [|reflexivity].
  intros q n. apply lookup_fs_app.
Qed.

Lemma makedirs_go_keeps (fuel : nat) :
  forall (name : string) (w : World),
    (forall q n, lookup_fs (fs w) q = Some n ->
                 lookup_fs (fs (snd (makedirs_go fuel name w))) q = Some n)
    /\ stdout (snd (makedirs_go fuel name w)) = stdout w.
Proof.
  induction fuel as [|fuel IH]; intros name w; [now split|].
  cbn [makedirs_go].
  destruct (OsPath.split name) as [head tail].
  destruct (if is_empty tail then OsPath.split head else (head, tail)) as [head' tail'].
  assert (Hmake : forall w0,
    let w1 := snd (match mkdir name w0 with
                   | (Raise (OSError e), w') =>
                       if isdir w' name then (Ok tt, w') else (Raise (OSError e), w')
                   | r => r
                   end) in
    (forall q n, lookup_fs (fs w0) q = Some n -> lookup_fs (fs w1) q = Some n)
    /\ stdout w1 = stdout w0).
  { intros w0. pose proof (mkdir_keeps name w0) as H.
    destruct (mkdir name w0) as [[[]|[]|] w']; cbn [snd] in *; try exact H.
    destruct (isdir w' name); exact H. }
  assert (Hthen : forall w1,
    (forall q n, lookup_fs (fs w) q = Some n -> lookup_fs (fs w1) q = Some n)
    /\ stdout w1 = stdout w ->
    let w2 := snd (match mkdir name w1 with
                   | (Raise (OSError e), w') =>
                       if isdir w' name then (Ok tt, w') else (Raise (OSError e), w')
                   | r => r
                   end) in
    (forall q n, lookup_fs (fs w) q = Some n -> lookup_fs (fs w2) q = Some n)
    /\ stdout w2 = stdout w).
  { intros w1 [H1 H2]. destruct (Hmake w1) as [H3 H4]. split.
    - intros q n Hq. apply H3, H1, Hq.
    - cbn zeta in *. congruence. }
  destruct (negb (is_empty head') && negb (is_empty tail') && negb (exists_ w head')).
  - specialize (IH head' w).
    destruct (makedirs_go fuel head' w) as [[[]|e|] w1]; cbn [snd] in IH.
    + destruct (String.eqb tail' "."); [exact IH|]. now apply Hthen.
    + destruct e as [| | |[]| |]; try exact IH.
      destruct (String.eqb tail' "."); [exact IH|]. now apply Hthen.
    + exact IH.
  - apply Hmake.
Qed.

(** [open(p, 'w')] and [write] touch the entry of [p] and no other. *)
Lemma write_text_keeps (p text : string) (w : World) :
  (forall q, q <> norm p ->
             lookup_fs (fs (snd (write_text p text w))) q = lookup_fs (fs w) q)
  /\ stdout (snd (write_text p text w)) = stdout w.
Proof.
  unfold write_text. destruct (io_fault w OpWrite p); [now split|].
  assert (H : forall r : result unit * World,
    r = (if is_empty p then (Raise (OSError FileNotFoundError), w)
         else match parent_check w p with
              | Some e => (Raise (OSError e), w)
              | None => (Ok tt, with_fs w (set_fs (fs w) (norm p) (File (Some text))))
              end) ->
    (forall q, q <> norm p -> lookup_fs (fs (snd r)) q = lookup_fs (fs w) q)
    /\ stdout (snd r) = stdout w).
  { intros r ->. destruct (is_empty p); [now split|].
    destruct (parent_check w p); [now split|]. cbn. split; [|reflexivity].
    intros q Hq. now apply lookup_set_fs_other. }
  destruct (stat w p) as [[|d]|]; [now split| |]; now apply H.
Qed.

Lemma write_text_returns (p text : string) (w : World) (what : string) :
  fst (write_text p text w) <> Outside what.
Proof.
  unfold write_text. intros H. destruct (io_fault w OpWrite p); [discriminate H|].
  destruct (stat w p) as [[|d]|]; [discriminate H| |];
    (destruct (is_empty p); [discriminate H|]);
    destruct (parent_check w p); discriminate H.
Qed.

End OsFacts.

Module SaveFacts.
Import PyStr Py OsPath Os Utils FileManager Spec Extra RoundTrip StoreFacts OsFacts.
Local Arguments String.append !_ _ /.

Section Store.
Variable Y : PyYAML.

(** The three steps of [save_note] that can fail, and what becomes of
    the call in each case. *)
Lemma save_note_steps (note : Note) (w : World) :
  let p := filepath note in
  match snd (generate_yaml_front_matter Y (note_metadata note)) with
  | Ok front =>
      match makedirs (dirname p) w with
      | (Ok _, w1) =>
          match write_text p (file_text front note) w1 with
          | (Ok _, w2) => save_note Y note w = ((Ok true, note), w2)
          | (Raise e, w2) =>
              save_note Y note w
              = ((Ok false, note), with_stdout w2 (stdout w2 ++ [ErrorSavingNote p e]))
          | (Outside _, _) => False
          end
      | (Raise e, w1) =>
          save_note Y note w
          = ((Ok false, note), with_stdout w1 (stdout w1 ++ [ErrorSavingNote p e]))
      | (Outside _, _) => False
      end
  | Raise e =>
      save_note Y note w
      = ((Ok false, note), with_stdout w (stdout w ++ [ErrorSavingNote p e]))
  | Outside _ => False
  end.
Proof.
  cbn zeta. unfold save_note, try_except, bind, lift, ret, print, file_text.
  assert (Hg : forall what,
             snd (generate_yaml_front_matter Y (note_metadata note)) <> Outside what).
  { intros what. unfold generate_yaml_front_matter.
    destruct (fold_left isoformat_slot ["created"; "updated"] (note_metadata note));
      [discriminate|].
    destruct (dump Y _); [discriminate|]. destruct (is_YAMLError e); discriminate. }
  destruct (generate_yaml_front_matter Y (note_metadata note)) as [metadata [front|e|what]];
    cbn [snd] in *; [|reflexivity|now apply (Hg what)].
  pose proof (makedirs_go_total (S (String.length (dirname (filepath note))))
                (dirname (filepath note)) w) as Hmk.
  fold (makedirs (dirname (filepath note))) in Hmk.
  destruct (makedirs (dirname (filepath note)) w) as [[[]|e|what] w1];
    cbn [fst] in Hmk; [|reflexivity|apply (Hmk what); [lia|reflexivity]].
  pose proof (write_text_returns (filepath note)
                (front +:+ nl +:+ strip (content note)) w1) as Hwr.
  destruct (write_text (filepath note) (front +:+ nl +:+ strip (content note)) w1)
    as [[[]|e|what] w2]; cbn [fst] in Hwr; [reflexivity|reflexivity|].
  now apply (Hwr what).
Qed.

(** [save_note] returns [True] or [False]. *)
Lemma save_note_bool (note : Note) (w : World) :
  exists b, fst (fst (save_note Y note w)) = Ok b.
Proof.
  pose proof (save_note_steps note w) as H. cbn zeta in H.
  destruct (snd (generate_yaml_front_matter Y (note_metadata note))) as [front|e|what];
    [|rewrite H; eauto|destruct H].
  destruct (makedirs (dirname (filepath note)) w) as [[[]|e|what] w1];
    [|rewrite H; eauto|destruct H].
  destruct (write_text (filepath note) (file_text front note) w1) as [[[]|e|what] w2];
    [rewrite H; eauto|rewrite H; eauto|destruct H].
Qed.

(** A call that returns [True] wrote the file. *)
Lemma save_note_true (note : Note) (w : World) :
  fst (fst (save_note Y note w)) = Ok true ->
  exists front,
    snd (generate_yaml_front_matter Y (note_metadata note)) = Ok front
    /\ stat (snd (save_note Y note w)) (filepath note)
       = Some (File (Some (file_text front note)))
    /\ stdout (snd (save_note Y note w)) = stdout w
    /\ same_env w (snd (save_note Y note w)).
Proof.
  pose proof (save_note_steps note w) as H. cbn zeta in H.
  destruct (snd (generate_yaml_front_matter Y (note_metadata note))) as [front|e|what];
    [|rewrite H; discriminate|destruct H].
  pose proof (makedirs_go_keeps (S (String.length (dirname (filepath note))))
                (dirname (filepath note)) w) as [_ Hout].
  pose proof (makedirs_go_env (S (String.length (dirname (filepath note))))
                (dirname (filepath note)) w) as Henv.
  fold (makedirs (dirname (filepath note))) in Hout, Henv.
  destruct (makedirs (dirname (filepath note)) w) as [[[]|e|what] w1];
    cbn [snd] in Hout, Henv; [|rewrite H; discriminate|destruct H].
  pose proof (write_text_ok (filepath note) (file_text front note) w1) as Hok.
  pose proof (write_text_keeps (filepath note) (file_text front note) w1) as [_ Hout2].
  destruct (write_text (filepath note) (file_text front note) w1) as [[[]|e|what] w2];
    cbn [fst snd] in Hok, Hout2; [|rewrite H; discriminate|destruct H].
  rewrite H. cbn [fst snd]. intros _. destruct (Hok eq_refl) as [Hst Henv2].
  exists front. repeat split; try exact Hst; try congruence.
  - destruct Henv, Henv2; congruence.
  - destruct Henv, Henv2; congruence.
Qed.

(** [save_note] keeps every entry of the file system but the one of the
    note. *)
Lemma save_note_keeps_entries (note : Note) (w : World) (q : string) (n : node) :
  q <> norm (filepath note) ->
  lookup_fs (fs w) q = Some n ->
  lookup_fs (fs (snd (save_note Y note w))) q = Some n.
Proof.
  intros Hq Hn. pose proof (save_note_steps note w) as H. cbn zeta in H.
  destruct (snd (generate_yaml_front_matter Y (note_metadata note))) as [front|e|what];
    [|rewrite H; exact Hn|destruct H].
  pose proof (makedirs_go_keeps (S (String.length (dirname (filepath note))))
                (dirname (filepath note)) w) as [Hk _].
  fold (makedirs (dirname (filepath note))) in Hk.
  destruct (makedirs (dirname (filepath note)) w) as [[[]|e|what] w1];
    cbn [snd] in Hk; [|rewrite H; now apply Hk|destruct H].
  pose proof (write_text_keeps (filepath note) (file_text front note) w1) as [Hk2 _].
  destruct (write_text (filepath note) (file_text front note) w1) as [[[]|e|what] w2];
    cbn [snd] in Hk2; [| |destruct H]; rewrite H; cbn [snd with_stdout fs];
    rewrite (Hk2 q Hq); now apply Hk.
Qed.

Lemma save_note_env (note : Note) (w : World) :
  same_env w (snd (save_note Y note w)).
Proof.
  pose proof (save_note_steps note w) as H. cbn zeta in H.
  destruct (snd (generate_yaml_front_matter Y (note_metadata note))) as [front|e|what];
    [|rewrite H; now split|destruct H].
  pose proof (makedirs_go_env (S (String.length (dirname (filepath note))))
                (dirname (filepath note)) w) as Henv.
  fold (makedirs (dirname (filepath note))) in Henv.
  destruct (makedirs (dirname (filepath note)) w) as [[[]|e|what] w1];
    cbn [snd] in Henv; [|rewrite H; exact Henv|destruct H].
  assert (Hw : same_env w1 (snd (write_text (filepath note) (file_text front note) w1))).
  { unfold write_text. destruct (io_fault w1 OpWrite (filepath note)); [now split|].
    destruct (stat w1 (filepath note)) as [[|d]|]; [now split| |];
      (destruct (is_empty (filepath note)); [now split|]);
      destruct (parent_check w1 (filepath note)); now split. }
  destruct (write_text (filepath note) (file_text front note) w1) as [[[]|e|what] w2];
    cbn [snd] in Hw; [| |destruct H]; rewrite H; cbn [snd];
    destruct Henv, Hw; split; cbn; congruence.
Qed.

(** [load_note] gives the note the path it was asked for. *)
Lemma loaded_filepath (w : World) (p : string) (n : Note) :
  loaded Y w p = Some n -> filepath n = p.
Proof.
  unfold loaded, load_note, try_except, bind, lift, get_current_timestamp, ret, print.
  destruct (read_text p w) as [[text|e|what] w1]; cbn; try discriminate.
  destruct (parse_yaml_front_matter Y text) as [[metadata body]|e|what]; cbn;
    try discriminate.
  now intros [= <-].
Qed.

Lemma load_note_missing (w : World) (p : string) :
  stat w p = None -> fst (load_note Y p w) = Ok None.
Proof.
  intros Hs.
  unfold load_note, try_except, bind, lift, get_current_timestamp, ret, print, read_text.
  rewrite Hs. destruct (io_fault w OpRead p); reflexivity.
Qed.

Lemma load_note_fs (p : string) (w : World) :
  fs (snd (load_note Y p w)) = fs w /\ same_env w (snd (load_note Y p w)).
Proof.
  destruct (load_note_returns Y p w) as [[n ->]|[e ->]]; now repeat split.
Qed.

Lemma scan_loop_fs (md_files : list string) :
  forall (notes : list Note) (w : World),
    fs (snd (scan_loop Y md_files notes w)) = fs w
    /\ same_env w (snd (scan_loop Y md_files notes w)).
Proof.
  induction md_files as [|p md_files IH]; intros notes w; cbn [scan_loop].
  - now repeat split.
  - unfold bind. destruct (load_note_returns Y p w) as [[n ->]|[e ->]].
    + apply IH.
    + destruct (IH notes (with_stdout w (stdout w ++ [ErrorLoadingNote p e])))
        as [H1 [H2 H3]].
      rewrite H1. now repeat split.
Qed.

Lemma omap_loaded_paths (w : World) (md_files : list string) :
  map filepath (omap (loaded Y w) md_files)
  = filter (fun p => is_Some (loaded Y w p)) md_files.
Proof.
  induction md_files as [|p md_files IH]; [reflexivity|].
  destruct (loaded Y w p) as [n|] eqn:E.
  - rewrite filter_cons_True by (rewrite E; eauto).
    cbn. rewrite E. cbn. rewrite (loaded_filepath w p n E). now f_equal.
  - rewrite filter_cons_False by (rewrite E; intros [? ?]; discriminate).
    cbn. now rewrite E.
Qed.

End Store.

Lemma delete_true (p : string) (w : World) :
  fst (delete_note_file p w) = Ok true
  <-> (exists d, stat w p = Some (File d)) /\ io_fault w OpRemove p = None.
Proof.
  unfold delete_note_file, try_except, bind, ret, print, remove, exists_.
  destruct (stat w p) as [[|d]|] eqn:Es.
  - destruct (io_fault w OpRemove p); cbn; split; try discriminate;
      intros [[d Hd] _]; discriminate.
  - destruct (io_fault w OpRemove p); cbn; split; try discriminate; eauto.
    intros [_ H]; discriminate.
  - cbn. split; [discriminate|]. intros [[d Hd] _]; discriminate.
Qed.

Lemma delete_world (p : string) (w : World) :
  fst (delete_note_file p w) = Ok true ->
  snd (delete_note_file p w) = with_fs w (remove_fs (fs w) (norm p)).
Proof.
  intros H. pose proof H as H'. apply delete_true in H' as [[d Hd] Hf].
  unfold delete_note_file, try_except, bind, ret, print, remove, exists_.
  rewrite Hd, Hf. reflexivity.
Qed.

Lemma rstrip_slash_plain (p : string) :
  ends_with_slash p = false -> rstrip_slash p = p.
Proof.
  induction p as [|c p IH]; [reflexivity|]. cbn [ends_with_slash rstrip_slash].
  destruct p as [|c' p'].
  - intros H. cbn. now rewrite H.
  - intros H. rewrite (IH H). reflexivity.
Qed.

(** A canonical path is the text under which the file system holds its
    entry. *)
Lemma canonical_norm (p : string) : canonical p = true -> norm p = p.
Proof.
  unfold canonical, norm. intros H.
  apply andb_true_iff in H as [H _]. apply andb_true_iff in H as [Ha Hs].
  apply negb_true_iff in Hs. rewrite (rstrip_slash_plain p Hs).
  destruct p; [discriminate Ha|reflexivity].
Qed.

Lemma file_not_root (w : World) (p : string) (d : option string) :
  stat w p = Some (File d) -> is_empty p = false /\ String.eqb (norm p) "/" = false.
Proof.
  unfold stat. destruct (is_empty p); [discriminate|].
  destruct (String.eqb (norm p) "/"); [discriminate|]. now split.
Qed.

End SaveFacts.

Module SaveTheorems.
Import PyStr Py OsPath Os Utils FileManager Spec Fixtures Extra.
Import RoundTrip StoreFacts OsFacts SaveFacts.

(** X10: [save_note] never raises: it returns [True] after writing, at
    the path of the note, the front matter, a line feed and the stripped
    content, printing nothing; or it returns [False] after printing one
    line with the error. *)
Theorem save_note_outcomes Y note w :
  (exists front,
      snd (generate_yaml_front_matter Y (note_metadata note)) = Ok front
      /\ fst (fst (save_note Y note w)) = Ok true
      /\ stat (snd (save_note Y note w)) (filepath note)
         = Some (File (Some (file_text front note)))
      /\ stdout (snd (save_note Y note w)) = stdout w)
  \/ (exists e,
         fst (fst (save_note Y note w)) = Ok false
         /\ stdout (snd (save_note Y note w))
            = stdout w ++ [ErrorSavingNote (filepath note) e]).
Proof.
  destruct (save_note_bool Y note w) as [[|] Hb].
  - left. destruct (save_note_true Y note w Hb) as (front & Hg & Hst & Hout & _).
    exists front. auto.
  - right. pose proof (save_note_steps Y note w) as H. cbn zeta in H.
    destruct (snd (generate_yaml_front_matter Y (note_metadata note))) as [front|e|what];
      [|rewrite H; eauto|destruct H].
    pose proof (makedirs_go_keeps (S (String.length (dirname (filepath note))))
                  (dirname (filepath note)) w) as [_ Hout].
    fold (makedirs (dirname (filepath note))) in Hout.
    destruct (makedirs (dirname (filepath note)) w) as [[[]|e|what] w1];
      cbn [snd] in Hout; [|rewrite H; cbn; rewrite Hout; eauto|destruct H].
    pose proof (write_text_keeps (filepath note) (file_text front note) w1) as [_ Hout2].
    destruct (write_text (filepath note) (file_text front note) w1) as [[[]|e|what] w2];
      cbn [snd] in Hout2; [|rewrite H; cbn; rewrite Hout2, Hout; eauto|destruct H].
    rewrite H in Hb. discriminate Hb.
Qed.

(** X11: [save_note] on a note whose path is canonical removes and
    changes no other entry of the file system: every other canonical
    path that named an entry names the same entry after the call; the
    faults and the clock are as they were. *)
Theorem save_note_keeps_other_entries Y note w q n :
  canonical (filepath note) = true ->
  canonical q = true ->
  q <> filepath note ->
  stat w q = Some n ->
  stat (snd (save_note Y note w)) q = Some n
  /\ same_env w (snd (save_note Y note w)).
Proof.
  intros Hp Hc Hq Hs. split; [|apply save_note_env].
  revert Hs. apply stat_kept. apply save_note_keeps_entries.
  now rewrite (canonical_norm q Hc), (canonical_norm _ Hp).
Qed.

Lemma save_note_keeps_other_entries_witness :
  stat (snd (save_note yaml_fixture (note_to_load "  Hello  ") world_scan))
       "/notes/plain.md"
  = Some (File (Some "# Just Content")).
Proof.
  destruct (save_note_keeps_other_entries yaml_fixture (note_to_load "  Hello  ")
              world_scan "/notes/plain.md" (File (Some "# Just Content")))
    as [H _].
  - reflexivity.
  - reflexivity.
  - discriminate.
  - reflexivity.
  - exact H.
Defined.

(** X12: for a canonical path, [delete_note_file] returns [True]
    exactly when the path names a file and its removal is not refused;
    the file is then gone, every other canonical path is as it was,
    nothing is printed, and a second call returns [False]. *)
Theorem delete_note_file_removes p w :
  canonical p = true ->
  (fst (delete_note_file p w) = Ok true
   <-> (exists d, stat w p = Some (File d)) /\ io_fault w OpRemove p = None)
  /\ (fst (delete_note_file p w) = Ok true ->
      exists_ (snd (delete_note_file p w)) p = false
      /\ (forall q, canonical q = true -> q <> p ->
                    stat (snd (delete_note_file p w)) q = stat w q)
      /\ stdout (snd (delete_note_file p w)) = stdout w
      /\ fst (delete_note_file p (snd (delete_note_file p w))) = Ok false).
Proof.
  intros Hp. split; [apply delete_true|]. intros H.
  rewrite (delete_world p w H). apply delete_true in H as [[d Hd] _].
  destruct (file_not_root w p d Hd) as [He Hr].
  assert (Hgone : exists_ (with_fs w (remove_fs (fs w) (norm p))) p = false).
  { unfold exists_, stat. rewrite He, Hr. cbn [fs with_fs].
    now rewrite lookup_remove_fs. }
  repeat split.
  - exact Hgone.
  - intros q Hc Hq. apply stat_same. cbn [fs with_fs].
    apply lookup_remove_fs_other.
    now rewrite (canonical_norm q Hc), (canonical_norm p Hp).
  - unfold delete_note_file, try_except. now rewrite Hgone.
Qed.

Lemma delete_note_file_removes_witness :
  exists_ (snd (delete_note_file "/notes/plain.md" world_scan)) "/notes/plain.md" = false
  /\ stat (snd (delete_note_file "/notes/plain.md" world_scan)) "/notes/partial.md"
     = stat world_scan "/notes/partial.md"
  /\ fst (delete_note_file "/notes/plain.md"
            (snd (delete_note_file "/notes/plain.md" world_scan))) = Ok false.
Proof.
  destruct (delete_note_file_removes "/notes/plain.md" world_scan eq_refl) as [_ H].
  destruct (H eq_refl) as (H1 & H2 & _ & H3).
  split; [exact H1|]. split; [|exact H3].
  apply H2; [reflexivity|discriminate].
Defined.

(** X13: a note that [save_note] saved can be deleted, when the removal
    is not refused, and [load_note] then returns [None] for its path. *)
Theorem save_delete_load Y note w :
  fst (fst (save_note Y note w)) = Ok true ->
  io_fault w OpRemove (filepath note) = None ->
  fst (delete_note_file (filepath note) (snd (save_note Y note w))) = Ok true
  /\ fst (load_note Y (filepath note)
            (snd (delete_note_file (filepath note) (snd (save_note Y note w)))))
     = Ok None.
Proof.
  intros Hs Hf.
  destruct (save_note_true Y note w Hs) as (front & _ & Hst & _ & Henv & _).
  assert (Hd : fst (delete_note_file (filepath note) (snd (save_note Y note w)))
               = Ok true).
  { apply delete_true. split; [eauto|]. now rewrite Henv. }
  split; [exact Hd|]. apply load_note_missing.
  rewrite (delete_world _ _ Hd).
  destruct (file_not_root _ _ _ Hst) as [He Hr].
  unfold stat. rewrite He, Hr. cbn [fs with_fs]. apply lookup_remove_fs.
Qed.

Lemma save_delete_load_witness :
  fst (load_note yaml_fixture "/notes/load_me.md"
         (snd (delete_note_file "/notes/load_me.md" world_saved)))
  = Ok None.
Proof.
  destruct (save_delete_load yaml_fixture (note_to_load "  Hello  ") world_empty)
    as [_ H]; [reflexivity|reflexivity|exact H].
Defined.

(** X14: [scan_notes_directory] changes no entry of the file system; for
    a path that is not a directory it prints one line; for a directory
    the paths of the notes it returns are, in the order of [glob], the
    files that [load_note] loads. *)
Theorem scan_reads_only Y w notes_dir :
  fs (snd (scan_notes_directory Y notes_dir w)) = fs w
  /\ (isdir w notes_dir = false ->
      stdout (snd (scan_notes_directory Y notes_dir w))
      = stdout w ++ [NotesDirNotFound notes_dir])
  /\ (isdir w notes_dir = true ->
      exists notes,
        fst (scan_notes_directory Y notes_dir w) = Ok notes
        /\ map filepath notes
           = filter (fun p => is_Some (loaded Y w p))
                    (glob w (OsPath.join notes_dir "*.md"))).
Proof.
  unfold scan_notes_directory. destruct (isdir w notes_dir); cbn [negb].
  - split; [apply scan_loop_fs|]. split; [discriminate|]. intros _.
    pose proof (scan_loop_spec Y w (glob w (OsPath.join notes_dir "*.md")) []
                  (stdout w)) as H.
    rewrite with_stdout_same in H. cbn [app] in H.
    eexists. split; [exact H|apply omap_loaded_paths].
  - split; [reflexivity|]. split; [reflexivity|discriminate].
Qed.

Lemma scan_reads_only_witness :
  exists notes,
    fst (scan_notes_directory yaml_fixture "/notes" world_scan) = Ok notes
    /\ map filepath notes = ["/notes/partial.md"; "/notes/plain.md"].
Proof.
  destruct (scan_reads_only yaml_fixture world_scan "/notes") as (_ & _ & H).
  destruct (H eq_refl) as (notes & H1 & H2).
  exists notes. split; [exact H1|]. rewrite H2. vm_compute. reflexivity.
Defined.

End SaveTheorems.

(** ** The front matter and the timestamps of [utils.py] *)

Module CodecFacts.
Import PyStr Py Os Re Utils Spec Extra Timestamps TextFacts ReFacts RoundTrip.
Local Arguments String.append !_ _ /.

Lemma ends_in_refl (s : string) : ends_in s s.
Proof. now exists "". Qed.

Lemma ends_in_cons (c : ascii) (s body : string) :
  ends_in body s -> ends_in body (String c s).
Proof. intros [before ->]. now exists (String c before). Qed.

Lemma greedy_ends (a : atom) (k : cont) :
  (forall prev s m, k prev s = Some m -> ends_in (snd m) s) ->
  forall s prev m, greedy a k prev s = Some m -> ends_in (snd m) s.
Proof.
  intros Hk. induction s as [|c s IH]; intros prev m; cbn [greedy]; [apply Hk|].
  destruct (atom_ok a c); [|apply Hk].
  destruct (greedy a k (Some c) s) as [m'|] eqn:E; [|apply Hk].
  intros [= <-]. apply ends_in_cons. now apply (IH (Some c)).
Qed.

Lemma lazy_ends (a : atom) (k : cont) :
  (forall prev s m, k prev s = Some m -> ends_in (snd m) s) ->
  forall s prev m, lazy a k prev s = Some m -> ends_in (snd m) s.
Proof.
  intros Hk. induction s as [|c s IH]; intros prev m; cbn [lazy].
  - destruct (k prev "") as [m'|] eqn:E; [|discriminate].
    intros [= <-]. now apply (Hk prev).
  - destruct (k prev (String c s)) as [m'|] eqn:E.
    + intros [= <-]. now apply (Hk prev).
    + destruct (atom_ok a c); [|discriminate].
      intros H. apply ends_in_cons. now apply (IH (Some c)).
Qed.

(** A match ends inside the text: what is left after it is the end of
    the text. *)
Lemma run_ends (r : list re_node) :
  forall gopen gtext prev s m,
    run r gopen gtext prev s = Some m -> ends_in (snd m) s.
Proof.
  induction r as [|x r IH]; intros gopen gtext prev s m; cbn [run].
  - intros [= <-]. apply ends_in_refl.
  - destruct x as [a|a|a| | |].
    + destruct s as [|c s]; [discriminate|].
      destruct (atom_ok a c); [|discriminate].
      intros H. apply ends_in_cons. now apply IH in H.
    + apply greedy_ends. intros prev' s' m'. apply IH.
    + apply lazy_ends. intros prev' s' m'. apply IH.
    + destruct (at_bol prev); [apply IH|discriminate].
    + apply IH.
    + apply IH.
Qed.

Lemma no_dashes_no_match (text : string) :
  String.prefix "---" text = false ->
  re_match YAML_FRONT_MATTER_REGEX text = None.
Proof.
  unfold re_match, YAML_FRONT_MATTER_REGEX, dashes. cbn [app]. intros H.
  destruct text as [|a [|b [|c u]]]; rewrite ?prefix_cons, ?prefix_nil in H;
    cbn [run at_bol atom_ok].
  - reflexivity.
  - destruct (Ascii.eqb a "-"); reflexivity.
  - destruct (Ascii.eqb a "-"); [|reflexivity].
    destruct (Ascii.eqb b "-"); reflexivity.
  - destruct (Ascii.eqb a "-"); [|reflexivity].
    destruct (Ascii.eqb b "-"); [|reflexivity].
    destruct (Ascii.eqb c "-"); [discriminate H|reflexivity].
Qed.

Lemma is_key_refl (k : string) : is_key k (VStr k) = true.
Proof. apply String.eqb_refl. Qed.

Lemma is_key_other (k k2 : string) (key : value) :
  k <> k2 -> is_key k key = true -> is_key k2 key = false.
Proof.
  destruct key; cbn; try discriminate. intros Hk E. apply String.eqb_eq in E.
  subst s. now apply String.eqb_neq.
Qed.

Lemma dict_lookup_set (d : dict) (k : string) (v : value) :
  dict_lookup (dict_set d k v) k = Some v.
Proof.
  induction d as [|[key x] d IH]; cbn [dict_set dict_lookup].
  - now rewrite is_key_refl.
  - destruct (is_key k key) eqn:E; cbn [dict_lookup]; rewrite E; [reflexivity|exact IH].
Qed.

Lemma dict_lookup_set_other (d : dict) (k k2 : string) (v : value) :
  k <> k2 -> dict_lookup (dict_set d k v) k2 = dict_lookup d k2.
Proof.
  intros Hk. induction d as [|[key x] d IH]; cbn [dict_set dict_lookup].
  - cbn. apply String.eqb_neq in Hk. now rewrite Hk.
  - destruct (is_key k key) eqn:E; cbn [dict_lookup].
    + now rewrite (is_key_other k k2 key Hk E).
    + destruct (is_key k2 key); [reflexivity|exact IH].
Qed.

Lemma dict_set_keys (d : dict) (k : string) (v x : value) :
  dict_lookup d k = Some x -> map fst (dict_set d k v) = map fst d.
Proof.
  induction d as [|[key y] d IH]; cbn [dict_set dict_lookup]; [discriminate|].
  destruct (is_key k key); [reflexivity|]. intros H. cbn. f_equal. now apply IH.
Qed.

Lemma isoformat_slot_keys (d : dict) (k : string) :
  map fst (isoformat_slot d k) = map fst d.
Proof.
  unfold isoformat_slot. destruct (dict_lookup d k) as [[]|] eqn:E; try reflexivity.
  now apply (dict_set_keys d k _ _ E).
Qed.

Lemma isoformat_slot_same (d : dict) (k : string) :
  dict_lookup (isoformat_slot d k) k = iso_text (dict_lookup d k).
Proof.
  unfold isoformat_slot. destruct (dict_lookup d k) as [[]|] eqn:E; cbn [iso_text];
    try exact E. apply dict_lookup_set.
Qed.

Lemma isoformat_slot_other (d : dict) (k k2 : string) :
  k <> k2 -> dict_lookup (isoformat_slot d k) k2 = dict_lookup d k2.
Proof.
  intros Hk. unfold isoformat_slot. destruct (dict_lookup d k) as [[]|]; try reflexivity.
  now apply dict_lookup_set_other.
Qed.

Lemma generate_dict (Y : PyYAML) (metadata : dict) :
  fst (generate_yaml_front_matter Y metadata)
  = fold_left isoformat_slot ["created"; "updated"] metadata.
Proof.
  unfold generate_yaml_front_matter.
  destruct (fold_left isoformat_slot ["created"; "updated"] metadata); [reflexivity|].
  destruct (dump Y _); [reflexivity|]. destruct (is_YAMLError e); reflexivity.
Qed.

Lemma is_empty_app (s t : string) : is_empty t = false -> is_empty (s +:+ t) = false.
Proof. destruct s; [trivial|reflexivity]. Qed.

Lemma eqb_single (z c : ascii) (t : string) :
  is_empty t = false -> String.eqb (String z "") (String c t) = false.
Proof.
  intros Ht. cbn [String.eqb]. destruct (Ascii.eqb z c); [|reflexivity].
  now destruct t.
Qed.

Lemma ends_with_Z (s : string) : ends_with "Z" (s +:+ "Z") = true.
Proof.
  induction s as [|c s IH]; [reflexivity|]. cbn [String.append ends_with].
  rewrite IH. apply orb_true_r.
Qed.

Lemma ends_with_offset (s : string) : ends_with "Z" (s +:+ "+00:00") = false.
Proof.
  induction s as [|c s IH]; [reflexivity|]. cbn [String.append ends_with].
  rewrite IH, eqb_single by now apply is_empty_app. reflexivity.
Qed.

Lemma drop_last_Z (s : string) : drop_last (s +:+ "Z") = s.
Proof.
  induction s as [|c s IH]; [reflexivity|]. cbn [String.append drop_last].
  rewrite IH. destruct s; reflexivity.
Qed.

End CodecFacts.

Module CodecTheorems.
Import PyStr Py Os Re Utils Spec Fixtures Extra Timestamps.
Import TextFacts ReFacts RoundTrip CodecFacts.
Local Arguments String.append !_ _ /.

(** X15: the body that [parse_yaml_front_matter] returns is the end of
    the text it was given; a text that does not start with three dashes
    is returned whole, with no metadata; the function does not raise
    [YAMLError]. *)
Theorem parse_body_ends_text Y text :
  (forall d body, parse_yaml_front_matter Y text = Ok (d, body) -> ends_in body text)
  /\ (String.prefix "---" text = false ->
      parse_yaml_front_matter Y text = Ok ([], text))
  /\ (forall e, parse_yaml_front_matter Y text = Raise e -> is_YAMLError e = false).
Proof.
  unfold parse_yaml_front_matter. split; [|split].
  - intros d body.
    destruct (re_match YAML_FRONT_MATTER_REGEX text) as [m|] eqn:E.
    + destruct (safe_load Y (group1 m)) as [v|e].
      * intros [= _ <-]. exact (run_ends _ _ _ _ _ _ E).
      * destruct (is_YAMLError e); [|discriminate].
        intros [= _ <-]. apply ends_in_refl.
    + intros [= _ <-]. apply ends_in_refl.
  - intros H. now rewrite (no_dashes_no_match text H).
  - intros e. destruct (re_match YAML_FRONT_MATTER_REGEX text) as [m|]; [|discriminate].
    destruct (safe_load Y (group1 m)) as [v|e']; [discriminate|].
    destruct (is_YAMLError e') eqn:E; [discriminate|]. now intros [= <-].
Qed.

Lemma parse_body_ends_text_witness :
  ends_in "Body" text_sequence
  /\ parse_yaml_front_matter yaml_fixture "# Just Content" = Ok ([], "# Just Content").
Proof.
  destruct (parse_body_ends_text yaml_fixture text_sequence) as (H1 & _ & _).
  destruct (parse_body_ends_text yaml_fixture "# Just Content") as (_ & H2 & _).
  split; [apply (H1 []); reflexivity|apply H2; reflexivity].
Defined.

(** X16: the front matter that [generate_yaml_front_matter] writes for a
    mapping that is not empty, followed by a line feed and a body that
    does not start with white space, is read back by
    [parse_yaml_front_matter] as the mapping that [yaml.safe_load] reads
    from the dumped text, and that body. *)
Theorem front_matter_roundtrip Y metadata y d body :
  metadata <> [] ->
  dump Y (fst (generate_yaml_front_matter Y metadata)) = Returns y ->
  block_text y = true ->
  safe_load Y y = Returns (VDict d) ->
  starts_with_space body = false ->
  exists front,
    snd (generate_yaml_front_matter Y metadata) = Ok front
    /\ parse_yaml_front_matter Y (front +:+ nl +:+ body) = Ok (d, body).
Proof.
  intros Hne Hd Hy Hl Hb. rewrite generate_dict in Hd.
  exists ("---" +:+ nl +:+ y +:+ "---" +:+ nl). split.
  - unfold generate_yaml_front_matter.
    assert (H : fold_left isoformat_slot ["created"; "updated"] metadata <> []).
    { cbn [fold_left]. now apply isoformat_slot_nonempty, isoformat_slot_nonempty. }
    destruct (fold_left isoformat_slot ["created"; "updated"] metadata); [congruence|].
    now rewrite Hd.
  - unfold parse_yaml_front_matter. rewrite (front_matter_match y body Hy Hb).
    cbn [group1 fst snd]. now rewrite Hl.
Qed.

Lemma front_matter_roundtrip_witness :
  exists front,
    snd (generate_yaml_front_matter yaml_fixture meta_to_load) = Ok front
    /\ parse_yaml_front_matter yaml_fixture (front +:+ nl +:+ "Hello")
       = Ok (meta_to_load, "Hello").
Proof.
  apply (front_matter_roundtrip yaml_fixture meta_to_load yaml_to_load meta_to_load
           "Hello"); [discriminate|reflexivity|reflexivity|reflexivity|reflexivity].
Defined.

(** X17: the mapping that [generate_yaml_front_matter] hands to
    [yaml.dump] has the keys of the mapping it was given, in their
    order; its [created] and [updated] slots hold the ISO text where
    they held a [datetime], and every other slot is as it was; an empty
    mapping gives the empty text, and [YAMLError] is not raised. *)
Theorem generate_converts_datetimes Y metadata :
  map fst (fst (generate_yaml_front_matter Y metadata)) = map fst metadata
  /\ (forall k, k = "created" \/ k = "updated" ->
        dict_lookup (fst (generate_yaml_front_matter Y metadata)) k
        = iso_text (dict_lookup metadata k))
  /\ (forall k, k <> "created" -> k <> "updated" ->
        dict_lookup (fst (generate_yaml_front_matter Y metadata)) k
        = dict_lookup metadata k)
  /\ (metadata = [] -> snd (generate_yaml_front_matter Y metadata) = Ok "")
  /\ (forall e, snd (generate_yaml_front_matter Y metadata) = Raise e ->
        is_YAMLError e = false).
Proof.
  rewrite generate_dict. cbn [fold_left]. repeat split.
  - now rewrite !isoformat_slot_keys.
  - intros k [->| ->].
    + rewrite isoformat_slot_other by discriminate. apply isoformat_slot_same.
    + rewrite isoformat_slot_same. f_equal. now apply isoformat_slot_other.
  - intros k H1 H2. rewrite !isoformat_slot_other by congruence. reflexivity.
  - now intros ->.
  - intros e. unfold generate_yaml_front_matter.
    destruct (fold_left isoformat_slot ["created"; "updated"] metadata); [discriminate|].
    destruct (dump Y _) as [t|e']; [discriminate|].
    destruct (is_YAMLError e') eqn:E; [discriminate|]. now intros [= <-].
Qed.

Lemma generate_converts_datetimes_witness :
  dict_lookup (fst (generate_yaml_front_matter yaml_fixture (FileManager.note_metadata note_dated)))
              "created"
  = Some (VStr "2024-07-15T08:30:00+00:00").
Proof.
  destruct (generate_converts_datetimes yaml_fixture (FileManager.note_metadata note_dated))
    as (_ & H & _).
  rewrite (H "created") by now left. reflexivity.
Defined.

(** X18: a timestamp that ends in [Z] is read as the same text with
    [+00:00] in its place, by [parse_timestamp] and so by
    [format_timestamp_display]. *)
Theorem timestamp_Z_is_utc_offset D s :
  parse_timestamp D (s +:+ "Z") = parse_timestamp D (s +:+ "+00:00")
  /\ format_timestamp_display D (VStr (s +:+ "Z"))
     = format_timestamp_display D (VStr (s +:+ "+00:00")).
Proof.
  assert (H : parse_timestamp D (s +:+ "Z") = parse_timestamp D (s +:+ "+00:00")).
  { unfold parse_timestamp.
    rewrite !is_empty_app by reflexivity.
    now rewrite ends_with_Z, ends_with_offset, drop_last_Z. }
  split; [exact H|]. unfold format_timestamp_display. now rewrite H.
Qed.

(** X19: [parse_timestamp] does not raise [ValueError]; and
    [format_timestamp_display] answers [N/A] for a value that is neither
    a text nor a [datetime], for the empty text, and for a text that
    neither [fromisoformat] nor [strptime] reads. *)
Theorem timestamp_not_read D :
  (forall s e, parse_timestamp D s = Raise e -> is_ValueError e = false)
  /\ (forall v, is_str v = false -> is_Datetime (Some v) = false ->
        format_timestamp_display D v = Ok "N/A")
  /\ format_timestamp_display D (VStr "") = Ok "N/A"
  /\ (forall s, is_empty s = false -> ends_with "Z" s = false ->
        fromisoformat D s = Raises ValueError ->
        strptime_seconds D s = Raises ValueError ->
        format_timestamp_display D (VStr s) = Ok "N/A").
Proof.
  repeat split.
  - intros s e. unfold parse_timestamp. destruct (is_empty s); [discriminate|].
    destruct (fromisoformat D _) as [dt|e1]; [discriminate|].
    destruct (is_ValueError e1 || is_TypeError e1) eqn:E1.
    + destruct (strptime_seconds D _) as [dt|e2]; [discriminate|].
      destruct (is_ValueError e2) eqn:E2; [discriminate|]. now intros [= <-].
    + intros [= <-]. now apply orb_false_iff in E1 as [E1 _].
  - intros v Hs Hd. destruct v; try reflexivity; discriminate.
  - intros s He Hz Hf Hp. unfold format_timestamp_display, parse_timestamp.
    now rewrite He, Hz, Hf, Hp.
Qed.

Lemma timestamp_not_read_witness :
  format_timestamp_display datetime_fixture VNone = Ok "N/A"
  /\ format_timestamp_display datetime_fixture (VStr "yesterday") = Ok "N/A".
Proof.
  destruct (timestamp_not_read datetime_fixture) as (_ & H1 & _ & H2).
  split; [apply H1; reflexivity|apply H2; reflexivity].
Defined.

End CodecTheorems.

Module BuildFacts.
Import PyStr Py Os FileManager NoteSearch Spec Fixtures Extra.

Lemma lower_all_strs (l : list value) :
  forallb is_str l = true -> lower_all l = Ok (map lower (map str_of l)).
Proof.
  induction l as [|v l IH]; [reflexivity|]. cbn [forallb lower_all map].
  intros H. apply andb_true_iff in H as [Hv Hl].
  destruct v; try discriminate Hv. cbn [call_lower str_of]. now rewrite (IH Hl).
Qed.

Lemma make_item_well_typed (n : Note) :
  well_typed n = true -> make_item n = Ok (item_of n).
Proof.
  unfold well_typed, make_item, item_of, strs_of. intros H.
  apply andb_true_iff in H as [Ht Hg].
  destruct (title n); try discriminate Ht.
  destruct (tags n) as [| | | |l| |]; try discriminate Hg.
  cbn [call_lower iter str_of]. now rewrite (lower_all_strs l Hg).
Qed.

Lemma build_loop_well_typed (notes : list Note) :
  forallb well_typed notes = true ->
  forall data, build_loop notes data = (Ok tt, data ++ map item_of notes).
Proof.
  induction notes as [|n notes IH]; intros H data; cbn [build_loop map].
  - now rewrite app_nil_r.
  - cbn [forallb] in H. apply andb_true_iff in H as [Hn H].
    rewrite (make_item_well_typed n Hn), (IH H). now rewrite <- app_assoc.
Qed.

End BuildFacts.

Module BuildTheorems.
Import PyStr Py Os FileManager NoteSearch Spec Fixtures Extra BuildFacts.

(** X20: when every note has a text as title and a list of texts as
    tags, [build_index] returns, whatever the index held before: the
    index then holds one item for each note, in the order of the notes,
    with the path, the lower-cased title, tags and content, and the
    note; the other attribute is empty, and one line with the number of
    notes is printed. *)
Theorem build_index_well_typed self notes w :
  forallb well_typed notes = true ->
  build_index self notes w
  = ((Ok tt, mkSearchIndex (map item_of notes) []),
     with_stdout w (stdout w ++ [SearchIndexBuilt (length notes)])).
Proof.
  intros H. unfold build_index. rewrite (build_loop_well_typed notes H []).
  cbn [app]. unfold print. cbn [snd]. now rewrite length_map.
Qed.

Lemma build_index_well_typed_witness :
  build_index (index_of [note_web]) [note_web; note_ideas] world_empty
  = ((Ok tt, mkSearchIndex (map item_of [note_web; note_ideas]) []),
     with_stdout world_empty [SearchIndexBuilt 2]).
Proof.
  apply (build_index_well_typed (index_of [note_web]) [note_web; note_ideas] world_empty).
  reflexivity.
Defined.

End BuildTheorems.

Module SettingsTheorems.
Import PyStr Py Settings Extra CodecFacts.

(** X21: [AppSettings.set] never adds or removes a key: for a key that
    the settings have, [get] then returns the new value and nothing is
    printed; for another key the object is unchanged, [get] still
    returns the default it is given, and one warning is printed; the
    values of the other keys are as they were. *)
Theorem settings_set_get self key v :
  map fst (settings (fst (set self key v))) = map fst (settings self)
  /\ (dict_has (settings self) key = true ->
      snd (set self key v) = []
      /\ forall d, get (fst (set self key v)) key d = v)
  /\ (dict_has (settings self) key = false ->
      fst (set self key v) = self
      /\ length (snd (set self key v)) = 1
      /\ forall d, get (fst (set self key v)) key d = d)
  /\ (forall k d, k <> key -> get (fst (set self key v)) k d = get self k d).
Proof.
  unfold set, get, dict_get, dict_has.
  destruct (dict_lookup (settings self) key) as [x|] eqn:E; cbn [fst snd settings].
  - split; [now apply (dict_set_keys _ _ _ x)|]. split; [|split].
    + intros _. split; [reflexivity|]. intros d. now rewrite dict_lookup_set.
    + discriminate.
    + intros k d Hk. rewrite dict_lookup_set_other by congruence. reflexivity.
  - split; [reflexivity|]. split; [discriminate|]. split.
    + intros _. split; [reflexivity|]. split; [reflexivity|]. intros d. now rewrite E.
    + reflexivity.
Qed.

Lemma settings_set_get_witness :
  get (fst (set settings_fixture "theme" (VStr "dark"))) "theme" VNone = VStr "dark"
  /\ get (fst (set settings_fixture "colour" (VStr "red"))) "colour" VNone = VNone.
Proof.
  destruct (settings_set_get settings_fixture "theme" (VStr "dark")) as (_ & H1 & _ & _).
  destruct (settings_set_get settings_fixture "colour" (VStr "red")) as (_ & _ & H2 & _).
  destruct (H1 eq_refl) as [_ H1']. destruct (H2 eq_refl) as (_ & _ & H2').
  split; [apply H1'|apply H2'].
Defined.

End SettingsTheorems.

(** ** Terms and fields *)

Module FieldFacts.
Import PyStr Py Os FileManager NoteSearch Spec Fixtures Extra.
Import PyStrFacts SearchFacts TextFacts ReFacts IndexFacts IndexFacts2.
Local Arguments String.append !_ _ /.

Lemma no_space_snoc (w : string) (c : ascii) :
  no_space w = true -> isspace c = false -> no_space (w +:+ String c "") = true.
Proof.
  unfold no_space. intros Hw Hc. rewrite all_chars_app, Hw. cbn. now rewrite Hc.
Qed.

(** The terms of [split] have no white space in them. *)
Lemma split_go_terms_no_space (s : string) :
  forall w t, no_space w = true -> In t (split_go w s) -> no_space t = true.
Proof.
  induction s as [|c s IH]; intros w t Hw Ht; cbn [split_go] in Ht.
  - destruct (is_empty w); [destruct Ht|]. destruct Ht as [<-|[]]. exact Hw.
  - destruct (isspace c) eqn:Ec.
    + destruct (is_empty w).
      * now apply (IH "" t).
      * destruct Ht as [<-|Ht]; [exact Hw|now apply (IH "" t)].
    + apply (IH (w +:+ String c "") t); [now apply no_space_snoc|exact Ht].
Qed.

Lemma prefix_before_space (term a b : string) :
  no_space term = true ->
  String.prefix term (a +:+ " " +:+ b) = String.prefix term a.
Proof.
  unfold no_space. revert a. induction term as [|x term IH]; intros a H.
  - now rewrite !prefix_nil.
  - cbn [all_chars] in H. apply andb_true_iff in H as [Hx H].
    destruct a as [|c a]; cbn [String.append].
    + rewrite prefix_cons.
      destruct (Ascii.eqb " " x) eqn:E; [|reflexivity].
      apply Ascii.eqb_eq in E. subst x. discriminate Hx.
    + rewrite !prefix_cons. f_equal. now apply IH.
Qed.

(** A term does not match across the space that joins two fields. *)
Lemma contains_across (term a b : string) :
  no_space term = true -> is_empty term = false ->
  contains term (a +:+ " " +:+ b) = contains term a || contains term b.
Proof.
  intros Hs Hne. induction a as [|c a IH].
  - rewrite (contains_in_empty term Hne). cbn [String.append orb contains].
    change (String " " b) with ("" +:+ " " +:+ b).
    rewrite (prefix_before_space term "" b Hs).
    destruct term; [discriminate Hne|reflexivity].
  - cbn [String.append contains].
    change (String c (a +:+ String " " b)) with (String c a +:+ " " +:+ b).
    rewrite (prefix_before_space term (String c a) b Hs).
    cbn [String.append] in IH. rewrite IH. now rewrite orb_assoc.
Qed.

Lemma contains_join_fields (term : string) (l : list string) :
  no_space term = true -> is_empty term = false ->
  contains term (join " " l) = existsb (contains term) l.
Proof.
  intros Hs Hne. induction l as [|x l IH]; cbn [join existsb].
  - now apply contains_in_empty.
  - destruct l as [|y l]; [now rewrite orb_false_r|].
    rewrite (contains_across term x _ Hs Hne). now rewrite IH.
Qed.

Lemma spec_matches_fields (query : string) (t g c : bool) (n : Note) :
  spec_matches query t g c n = true
  <-> forall term, In term (split (lower query)) ->
        exists field, In field (spec_fields t g c n) /\ contains term field = true.
Proof.
  unfold spec_matches. rewrite forallb_forall.
  split; intros H term Hin; specialize (H term Hin).
  - apply existsb_exists.
    rewrite <- contains_join_fields; [exact H| |].
    + now apply (split_go_terms_no_space (lower query) "" term).
    + now apply (split_go_terms "" (lower query) term).
  - apply existsb_exists in H.
    unfold spec_text. fold (spec_fields t g c n).
    rewrite contains_join_fields; [exact H| |].
    + now apply (split_go_terms_no_space (lower query) "" term).
    + now apply (split_go_terms "" (lower query) term).
Qed.

Lemma spec_fields_more (t g c t' g' c' : bool) (n : Note) (field : string) :
  implb t t' = true -> implb g g' = true -> implb c c' = true ->
  In field (spec_fields t g c n) -> In field (spec_fields t' g' c' n).
Proof.
  unfold spec_fields. intros Ht Hg Hc. rewrite !in_app_iff.
  intros [H|[H|H]].
  - destruct t; [|destruct H]. cbn in Ht. subst t'. now left.
  - destruct g; [|destruct H]. cbn in Hg. subst g'. right. now left.
  - destruct c; [|destruct H]. cbn in Hc. subst c'. right. now right.
Qed.

End FieldFacts.

Module FieldTheorems.
Import PyStr Py Os FileManager NoteSearch Spec Fixtures Extra.
Import PyStrFacts SearchFacts IndexFacts IndexFacts2 FieldFacts.

(** X22: when the indexed notes have pairwise different paths, [search]
    returns the notes each of whose query terms occurs inside one of the
    enabled fields (the lower-cased title, a lower-cased tag, the
    lower-cased content): a term never matches across two fields; and
    switching on more fields loses no note. *)
Theorem search_matches_within_fields self notes w idx query t g c :
  indexed self notes w idx ->
  NoDup (map filepath notes) ->
  (forall n, n ∈ search idx query t g c
             <-> n ∈ notes
                 /\ forall term, In term (split (lower query)) ->
                      exists field,
                        In field (spec_fields t g c n) /\ contains term field = true)
  /\ (forall t' g' c' n,
        implb t t' = true -> implb g g' = true -> implb c c' = true ->
        n ∈ search idx query t g c -> n ∈ search idx query t' g' c').
Proof.
  intros Hidx Hnd. apply indexed_items in Hidx.
  assert (H : forall t g c n,
             n ∈ search idx query t g c
             <-> n ∈ notes
                 /\ forall term, In term (split (lower query)) ->
                      exists field,
                        In field (spec_fields t g c n) /\ contains term field = true).
  { intros t0 g0 c0 n. rewrite (search_filter_NoDup notes idx query t0 g0 c0 Hidx Hnd).
    rewrite list_elem_of_filter, Is_true_true, spec_matches_fields. tauto. }
  split; [apply H|].
  intros t' g' c' n Ht Hg Hc Hn. apply H. apply H in Hn as [Hin Hn].
  split; [exact Hin|]. intros term Hterm.
  destruct (Hn term Hterm) as (field & Hf & Hc').
  exists field. split; [|exact Hc']. now apply (spec_fields_more t g c).
Qed.

Lemma search_matches_within_fields_witness :
  note_ideas ∈ search (index_of [note_web; note_ideas]) "ideas" true true true.
Proof.
  assert (Hnd : NoDup (map filepath [note_web; note_ideas])).
  { apply (bool_decide_unpack _). vm_compute. exact I. }
  destruct (search_matches_within_fields new_index [note_web; note_ideas] world_empty
              (index_of [note_web; note_ideas]) "ideas" false true false eq_refl Hnd)
    as [_ H].
  apply (H true true true note_ideas); try reflexivity.
  vm_compute. apply list_elem_of_here.
Defined.

End FieldTheorems.

(** ** The store under [save_note] *)

Module ObjectFacts.
Import PyStr Py Os Utils FileManager Spec.

Lemma isoformat_slot_at (metadata : positive) (h : Objects.heap) (d : dict)
  (key : string) :
  h !! metadata = Some (Objects.ODict d) ->
  Objects.isoformat_slot metadata h key
  = <[metadata := Objects.ODict (isoformat_slot d key)]> h.
Proof.
  intros H. unfold Objects.isoformat_slot, Objects.setitem, isoformat_slot.
  rewrite H.
  destruct (dict_lookup d key) as [[]|]; try (symmetry; now apply insert_id).
  reflexivity.
Qed.

(** [generate_yaml_front_matter] writes at the address of the [dict] it
    is given, and nowhere else; what it returns and what it leaves in
    the [dict] are what the function on the [dict] as a value gives. *)
Lemma generate_at (Y : PyYAML) (metadata : positive) (h : Objects.heap) (d : dict) :
  h !! metadata = Some (Objects.ODict d) ->
  Objects.generate_yaml_front_matter Y metadata h
  = (snd (generate_yaml_front_matter Y d),
     <[metadata := Objects.ODict (fst (generate_yaml_front_matter Y d))]> h).
Proof.
  intros H. unfold Objects.generate_yaml_front_matter, generate_yaml_front_matter.
  cbn [fold_left]. cbn zeta.
  rewrite (isoformat_slot_at metadata h d "created" H).
  rewrite (isoformat_slot_at metadata _ (isoformat_slot d "created") "updated")
    by apply lookup_insert_eq.
  rewrite insert_insert_eq, lookup_insert_eq.
  destruct (isoformat_slot (isoformat_slot d "created") "updated") as [|kv d'];
    [reflexivity|].
  destruct (dump Y (kv :: d')); [reflexivity|].
  destruct (is_YAMLError e); reflexivity.
Qed.

End ObjectFacts.

Module ObjectTheorems.
Import PyStr Py Os Utils FileManager Spec Fixtures Extra ObjectFacts.

(** C9: [save_note] on the [Note] object at an address leaves that
    object, and every object that the store held, as it was: the one
    assignment in the extent of the call, which turns a [datetime] into
    its ISO text, is made to a slot of the [dict] that the call made, at
    an address that was free. The value returned and the file system
    are those of [save_note] on the note as a value. *)
Theorem save_note_keeps_note Y note h w n :
  h !! note = Some (Objects.ONote n) ->
  snd (fst (Objects.save_note Y note h w)) !! note = Some (Objects.ONote n)
  /\ (forall l, l ∈ dom h -> snd (fst (Objects.save_note Y note h w)) !! l = h !! l)
  /\ snd (fst (Objects.save_note Y note h w)) !! fresh (dom h)
     = Some (Objects.ODict (dumped_metadata n))
  /\ fst (fst (Objects.save_note Y note h w)) = fst (fst (save_note Y n w))
  /\ snd (Objects.save_note Y note h w) = snd (save_note Y n w).
Proof.
  intros Hn.
  assert (Hfresh : fresh (dom h) <> note).
  { intros E. apply (is_fresh (dom h)). rewrite E. apply elem_of_dom. eauto. }
  unfold Objects.save_note. rewrite Hn.
  rewrite (generate_at Y (fresh (dom h)) _ (note_metadata n))
    by apply lookup_insert_eq.
  rewrite insert_insert_eq, lookup_insert_ne, Hn by exact Hfresh.
  unfold save_note.
  destruct (generate_yaml_front_matter Y (note_metadata n)) as [metadata front] eqn:Eg.
  cbn [fst snd].
  destruct (try_except _ _ w) as [r w'] eqn:Et. cbn [fst snd].
  repeat split.
  - now rewrite lookup_insert_ne.
  - intros l Hl. apply lookup_insert_ne. intros E. subst l.
    now apply (is_fresh (dom h)).
  - rewrite lookup_insert_eq. unfold dumped_metadata.
    pose proof (CodecFacts.generate_dict Y (note_metadata n)) as Hd.
    rewrite Eg in Hd. cbn [fst] in Hd. now rewrite Hd.
Qed.

Lemma save_note_keeps_note_witness :
  snd (fst (Objects.save_note yaml_fixture 1%positive heap_dated world_empty))
    !! 1%positive
  = Some (Objects.ONote note_dated)
  /\ snd (fst (Objects.save_note yaml_fixture 1%positive heap_dated world_empty))
       !! fresh (dom heap_dated)
     = Some (Objects.ODict
               [ (VStr "title", VStr "A"); (VStr "tags", VList []);
                 (VStr "created", VStr "2024-07-15T08:30:00+00:00");
                 (VStr "updated", VNone) ]).
Proof.
  destruct (save_note_keeps_note yaml_fixture 1%positive heap_dated world_empty
              note_dated eq_refl) as (H1 & _ & H2 & _).
  split; [exact H1|exact H2].
Defined.

End ObjectTheorems.
